(** * dpanel front end: a shallow embedding of the Vue components

    The repository's visible code is the Vue/TypeScript front end of an SSH
    server panel.  This development embeds the script parts of

      - [CreateServer.vue], [EditServer.vue], [ServerManagement.vue],
      - [XrayRConfigList.vue], [ServerXrayRConfigDialog.vue],
      - [ServerConfigDialog.vue],

    as Rocq functions and proves properties of them.  JavaScript strings are
    sequences of UTF-16 code units, JSON objects are finite maps, and every
    event handler is a computation in a small monad that threads the
    component's reactive state, may throw, and logs what it asks of the
    outside world (HTTP requests, message boxes, emitted events).  The
    replies of the outside world are arguments of the handlers. *)

From Stdlib Require Import ZArith NArith QArith Qcanon List Bool Lia String Ascii.
From stdpp Require Import base option numbers list gmap.

Close Scope Qc_scope.
Close Scope Q_scope.
Open Scope Z_scope.
Set Warnings "-register-all".

(** ** JavaScript strings and values *)

Module Js.

(** A string is the list of its UTF-16 code units. *)
Abbreviation jsstring := (list N).

(** UTF-8 bytes to UTF-16 code units; a code point beyond the basic plane
    becomes a surrogate pair. *)
Fixpoint utf16 (bytes : list N) : jsstring :=
  match bytes with
  | [] => []
  | b0 :: r0 =>
      if (b0 <? 128)%N then b0 :: utf16 r0
      else
        match r0 with
        | [] => []
        | b1 :: r1 =>
            if (b0 <? 224)%N then ((b0 - 192) * 64 + (b1 - 128))%N :: utf16 r1
            else
              match r1 with
              | [] => []
              | b2 :: r2 =>
                  if (b0 <? 240)%N
                  then ((b0 - 224) * 4096 + (b1 - 128) * 64 + (b2 - 128))%N :: utf16 r2
                  else
                    match r2 with
                    | [] => []
                    | b3 :: r3 =>
                        let cp := ((b0 - 240) * 262144 + (b1 - 128) * 4096
                                   + (b2 - 128) * 64 + (b3 - 128) - 65536)%N in
                        (55296 + cp / 1024)%N :: (56320 + cp mod 1024)%N :: utf16 r3
                    end
              end
        end
  end.

(** A string literal of the source, as code units. *)
Definition lit (s : string) : jsstring :=
  utf16 ((fun a => N_of_ascii a) <$> list_ascii_of_string s).

(** The double quote and the line feed, which a literal here cannot hold. *)
Definition quote : jsstring := [34%N].
Definition LF : jsstring := [10%N].

(** [WhiteSpace] and [LineTerminator] of ECMAScript: what [trim] strips. *)
Definition isLineTerminator (c : N) : bool :=
  ((c =? 10) || (c =? 13) || (c =? 8232) || (c =? 8233))%N.

Definition isWhiteSpace (c : N) : bool :=
  ((c =? 9) || (c =? 11) || (c =? 12) || (c =? 32) || (c =? 160)
   || (c =? 5760) || ((8192 <=? c) && (c <=? 8202)) || (c =? 8239)
   || (c =? 8287) || (c =? 12288) || (c =? 65279))%N.

Definition isTrimmable (c : N) : bool := isWhiteSpace c || isLineTerminator c.

Fixpoint trimStart (s : jsstring) : jsstring :=
  match s with
  | c :: s' => if isTrimmable c then trimStart s' else s
  | [] => []
  end.

Definition trimEnd (s : jsstring) : jsstring := rev (trimStart (rev s)).

(** [String.prototype.trim] *)
Definition trim (s : jsstring) : jsstring := trimEnd (trimStart s).

(** [s.startsWith(p)] *)
Fixpoint startsWith (p s : jsstring) : bool :=
  match p, s with
  | [], _ => true
  | a :: p', b :: s' => (a =? b)%N && startsWith p' s'
  | _ :: _, [] => false
  end.

(** [s.endsWith(p)] *)
Definition endsWith (p s : jsstring) : bool := startsWith (rev p) (rev s).

(** [s.includes(q)]: [q] occurs in [s] as a run of code units. *)
Fixpoint includes (q s : jsstring) : bool :=
  startsWith q s ||
  match s with
  | [] => false
  | _ :: s' => includes q s'
  end.

(** [s.split(sep)] for a non-empty separator [sep]: scan left to right,
    cut at every occurrence, occurrences do not overlap.  [skip] counts the
    code units of a separator still to be passed over, [cur] is the piece
    being collected. *)
Fixpoint split_go (sep : jsstring) (skip : nat) (cur s : jsstring) : list jsstring :=
  match s with
  | [] => [cur]
  | c :: s' =>
      match skip with
      | S k => split_go sep k cur s'
      | O =>
          if startsWith sep s
          then cur :: split_go sep (length sep - 1) [] s'
          else split_go sep 0 (cur ++ [c]) s'
      end
  end.

Definition split (sep s : jsstring) : list jsstring := split_go sep 0 [] s.

(** [pieces.join(sep)] *)
Fixpoint join (sep : jsstring) (pieces : list jsstring) : jsstring :=
  match pieces with
  | [] => []
  | [p] => p
  | p :: rest => p ++ sep ++ join sep rest
  end.

(** The length async-validator measures a string by: a surrogate pair
    counts once ([val.replace(/[\uD800-\uDBFF][\uDC00-\uDFFF]/g, '_').length]). *)
Definition isHighSurrogate (c : N) : bool := ((55296 <=? c) && (c <=? 56319))%N.
Definition isLowSurrogate (c : N) : bool := ((56320 <=? c) && (c <=? 57343))%N.

Fixpoint pairedLength_go (afterHigh : bool) (s : jsstring) : Z :=
  match s with
  | [] => 0
  | c :: s' =>
      if afterHigh && isLowSurrogate c
      then pairedLength_go false s'
      else 1 + pairedLength_go (isHighSurrogate c) s'
  end.

Definition pairedLength (s : jsstring) : Z := pairedLength_go false s.

(** JSON-like values as the handlers see them.  Numbers are the finite
    ones (rationals); a JSON payload carries no others. *)
Inductive JVal : Type :=
| JUndefined
| JNull
| JBool (b : bool)
| JNum (q : Qc)
| JStr (s : jsstring)
| JArr (items : list JVal)
| JObj (fields : list (jsstring * JVal)).

(** An object whose properties the code reads or writes by name. *)
Abbreviation Obj := (gmap (list N) JVal).

(** [o.k]: a missing property reads as [undefined]. *)
Definition get (o : Obj) (k : string) : JVal := default JUndefined (o !! lit k).

(** [o.k = v] *)
Definition put (k : string) (v : JVal) (o : Obj) : Obj := <[lit k := v]> o.

(** ToBoolean *)
Definition truthy (v : JVal) : bool :=
  match v with
  | JUndefined | JNull => false
  | JBool b => b
  | JNum q => if decide (q = 0%Qc) then false else true
  | JStr s => match s with [] => false | _ => true end
  | JArr _ | JObj _ => true
  end.

(** [a || b] on values *)
Definition or_else (a b : JVal) : JVal := if truthy a then a else b.

End Js.

(** ** Event handlers as computations *)

Module Ui.
Import Js.

Inductive Method : Type := GET | POST | PUT | DELETE.

(** The URL templates of the components, with the ids they interpolate. *)
Inductive Url : Type :=
| ServersUrl                       (* '/servers/servers/' *)
| ServerUrl (id : Z)               (* `/servers/servers/${id}` *)
| ExecuteUrl (id : Z)              (* `/ssh_operations/servers/${id}/execute` *)
| ServerConfigUrl (id : Z)         (* `/server_configs/servers/${id}/config` *)
| XrayrConfigsUrl (id : Z)         (* `/xrayr-configs/servers/${id}/configs` *)
| XrayrConfigUrl (id cfg : Z).     (* `/xrayr-configs/servers/${id}/configs/${cfg}` *)

(** Message texts: a literal of the source, a string computed at run time,
    a value converted to text, a concatenation of these, or the message of
    an error the engine itself raised, whose wording is the engine's. *)
Inductive Text : Type :=
| Fixed (s : string)
| Computed (s : jsstring)
| Shown (v : JVal)
| Cat (a b : Text)
| EngineMessage.

Inductive Level : Type := success | warning | error.

(** What a handler asks of the outside world, in the order it asks. *)
Inductive Event : Type :=
| Request (m : Method) (u : Url) (body : option Obj)   (* axios.get/post/put/delete *)
| ConfirmBox (subject : jsstring)                      (* ElMessageBox.confirm *)
| Message (l : Level) (t : Text)                       (* ElMessage.success/warning/error *)
| Emit (event : string)                                (* emit(...) *)
| ConsoleError (label : string).                       (* console.error *)

(** What a [throw] or a rejected promise carries. *)
Inductive JsError : Type :=
| Cancelled                                   (* ElMessageBox.confirm rejects with 'cancel' *)
| Invalid (fields : list string)              (* validate() rejects with the failed fields *)
| HttpError (detail message : jsstring)       (* error.response?.data?.detail, error.message *)
| TypeError.                                  (* a method called on a value that has none *)

(** A promise once settled. *)
Inductive Awaited (A : Type) : Type :=
| Fulfilled (a : A)
| Rejected (e : JsError).
Arguments Fulfilled {A} a.
Arguments Rejected {A} e.

Inductive Res (A : Type) : Type :=
| Returned (a : A)
| Threw (e : JsError).
Arguments Returned {A} a.
Arguments Threw {A} e.

(** A computation over the component state [S]: the result or the thrown
    error, the state after, and the events logged. *)
Definition M (S A : Type) : Type := S -> Res A * S * list Event.

Definition ret {S A : Type} (a : A) : M S A := fun s => (Returned a, s, []).

Definition bind {S A B : Type} (m : M S A) (k : A -> M S B) : M S B :=
  fun s =>
    match m s with
    | (Returned a, s1, t1) => let '(r, s2, t2) := k a s1 in (r, s2, t1 ++ t2)
    | (Threw e, s1, t1) => (Threw e, s1, t1)
    end.

Definition throw {S A : Type} (e : JsError) : M S A := fun s => (Threw e, s, []).

Definition log {S : Type} (ev : Event) : M S unit := fun s => (Returned tt, s, [ev]).

Definition read {S : Type} : M S S := fun s => (Returned s, s, []).

Definition modify {S : Type} (f : S -> S) : M S unit := fun s => (Returned tt, f s, []).

(** [await p] *)
Definition await {S A : Type} (p : Awaited A) : M S A :=
  match p with
  | Fulfilled a => ret a
  | Rejected e => throw e
  end.

(** [try { body } catch (error) { handler }] *)
Definition try_catch {S A : Type} (body : M S A) (handler : JsError -> M S A) : M S A :=
  fun s =>
    match body s with
    | (Threw e, s1, t1) => let '(r, s2, t2) := handler e s1 in (r, s2, t1 ++ t2)
    | done => done
    end.

(** [try { body } finally { cleanup }] *)
Definition try_finally {S A : Type} (body : M S A) (cleanup : M S unit) : M S A :=
  fun s =>
    let '(r, s1, t1) := body s in
    match cleanup s1 with
    | (Returned _, s2, t2) => (r, s2, t1 ++ t2)
    | (Threw e, s2, t2) => (Threw e, s2, t1 ++ t2)
    end.

(** An axios call: the request goes out, then the reply is awaited. *)
Definition http {S A : Type} (m : Method) (u : Url) (body : option Obj) (reply : Awaited A) : M S A :=
  bind (log (Request m u body)) (fun _ => await reply).

(** A handler that returns early or falls off its end. *)
Definition skip {S : Type} : M S unit := ret tt.

Definition state_after {S A : Type} (out : Res A * S * list Event) : S := snd (fst out).
Definition events_of {S A : Type} (out : Res A * S * list Event) : list Event := snd out.
Definition result_of {S A : Type} (out : Res A * S * list Event) : Res A := fst (fst out).

Definition isRequest (ev : Event) : bool :=
  match ev with Request _ _ _ => true | _ => false end.

(** The HTTP requests among the logged events. *)
Definition requests {S A : Type} (out : Res A * S * list Event) : list Event :=
  List.filter isRequest (events_of out).

(** The message of a [catch] block:
    [error.response?.data?.detail], else [error.message], else the default. *)
Definition errorMessage (fallback : string) (e : JsError) : Text :=
  match e with
  | HttpError [] [] => Fixed fallback
  | HttpError [] message => Computed message
  | HttpError detail _ => Computed detail
  | TypeError => EngineMessage
  | Cancelled | Invalid _ => Fixed fallback
  end.

End Ui.

(** The handlers are written with stdpp's monad notation:
    [x ← m; k] and [m;; k]. *)
#[global] Instance M_ret {S : Type} : MRet (Ui.M S) := fun A a => Ui.ret a.
#[global] Instance M_bind {S : Type} : MBind (Ui.M S) := fun A B k m => Ui.bind m k.

(** ** Form validation (element-plus forms over async-validator)

    [validate()] of an [el-form] runs, for every [el-form-item] that is
    mounted and has a [prop], the rules the form's [rules] object lists
    under that prop, on the current value of [model[prop]].  Items removed
    by [v-if] are not registered with the form and are not validated. *)

Module Validator.
Import Js.

(** One rule object.  [required] absent reads as [false]; [type] absent is
    a string rule; [message] is what the item shows when the rule fails. *)
Record Rule : Type := mkRule {
  required : bool;
  type_number : bool;
  min : option Z;
  max : option Z;
  pattern : option (jsstring -> bool);
  message : string
}.

(** [{ required: b, message }] *)
Definition requiredRule (b : bool) (msg : string) : Rule :=
  mkRule b false None None None msg.
(** [{ max: n, message }] *)
Definition maxRule (n : Z) (msg : string) : Rule :=
  mkRule false false None (Some n) None msg.
(** [{ min: lo, max: hi, message }] *)
Definition rangeRule (lo hi : Z) (msg : string) : Rule :=
  mkRule false false (Some lo) (Some hi) None msg.
(** [{ type: 'number', min: lo, max: hi, message }] *)
Definition numberRule (lo hi : Z) (msg : string) : Rule :=
  mkRule false true (Some lo) (Some hi) None msg.
(** [{ pattern: re, message }] *)
Definition patternRule (re : jsstring -> bool) (msg : string) : Rule :=
  mkRule false false None None (Some re) msg.

Definition given {A : Type} (key : option A) : bool :=
  match key with Some _ => true | None => false end.

(** A rule whose only key besides the message is [required] is checked by
    the plain required-validator, whatever the type of the value. *)
Definition onlyRequired (r : Rule) : bool :=
  negb (type_number r) && negb (given (min r)) && negb (given (max r))
  && negb (given (pattern r)).

(** [isEmptyValue]: [undefined], [null], the empty string; the plain
    required-validator also counts the empty array. *)
Definition isEmptyValue (plain : bool) (v : JVal) : bool :=
  match v with
  | JUndefined | JNull => true
  | JStr [] => true
  | JArr [] => plain
  | _ => false
  end.

Definition inRange (r : Rule) (x : Qc) : bool :=
  match min r, max r with
  | Some lo, Some hi => bool_decide (Q2Qc (inject_Z lo) <= x)%Qc && bool_decide (x <= Q2Qc (inject_Z hi))%Qc
  | Some lo, None => bool_decide (Q2Qc (inject_Z lo) <= x)%Qc
  | None, Some hi => bool_decide (x <= Q2Qc (inject_Z hi))%Qc
  | None, None => true
  end.

Definition matchesPattern (r : Rule) (s : jsstring) : bool :=
  match pattern r with
  | Some re => re s
  | None => true
  end.

(** Does value [v] pass rule [r]?  An empty value fails exactly the
    required rules; a non-empty one must have the rule's type, lie in its
    range (a string by its length) and match its pattern.  The pattern
    rules of the components sit on text inputs, whose values are strings. *)
Definition passes (r : Rule) (v : JVal) : bool :=
  if isEmptyValue (onlyRequired r) v then negb (required r)
  else if onlyRequired r then true
  else if type_number r then
    match v with
    | JNum q => inRange r q
    | _ => false
    end
  else
    match v with
    | JStr s => inRange r (Q2Qc (inject_Z (pairedLength s))) && matchesPattern r s
    | _ => false
    end.

(** The [rules] object of a form: prop name to rule list. *)
Definition FormRules : Type := list (string * list Rule).

Definition rulesFor (rules : FormRules) (prop : string) : list Rule :=
  match List.find (fun e => String.eqb (fst e) prop) rules with
  | Some e => snd e
  | None => []
  end.

Definition fieldValid (rules : FormRules) (model : string -> JVal) (prop : string) : bool :=
  forallb (fun r => passes r (model prop)) (rulesFor rules prop).

(** The message an item shows: that of its first failing rule. *)
Definition fieldError (rules : FormRules) (model : string -> JVal) (prop : string) : option string :=
  message <$> List.find (fun r => negb (passes r (model prop))) (rulesFor rules prop).

(** The props whose item fails, among the mounted ones. *)
Definition invalidFields (rules : FormRules) (mounted : list string) (model : string -> JVal) : list string :=
  List.filter (fun p => negb (fieldValid rules model p)) mounted.

(** [await formRef.value.validate()]: resolves to [true] when no mounted
    item fails, rejects with the failed fields otherwise. *)
Definition validate {S : Type} (rules : FormRules) (mounted : list string) (model : string -> JVal) : Ui.M S bool :=
  match invalidFields rules mounted model with
  | [] => Ui.ret true
  | failed => Ui.throw (Ui.Invalid failed)
  end.

End Validator.

(** ** CreateServer.vue (the first component of
    [src/frontend/src/components/CreateServer.vue]) *)

Module CreateServer.
Import Js Ui Validator.

(** [formData]: the text inputs hold strings, the [el-input-number] holds a
    number or, once cleared, [null]. *)
Record FormData : Type := mkFormData {
  name : jsstring;
  hostname : jsstring;
  port : JVal;
  username : jsstring;
  authMethod : jsstring;
  password : jsstring;
  privateKey : jsstring;
  description : jsstring
}.

(** The record [formData] is created with, and [resetForm] restores. *)
Definition initialFormData : FormData :=
  {| name := []; hostname := []; port := JNum (Q2Qc 22); username := [];
     authMethod := lit "password"; password := []; privateKey := [];
     description := [] |}.

Definition usesPassword (method : jsstring) : bool :=
  bool_decide (method = lit "password") || bool_decide (method = lit "both").

Definition usesPrivateKey (method : jsstring) : bool :=
  bool_decide (method = lit "privateKey") || bool_decide (method = lit "both").

(** [formRules]: the object literal handed to [ref(...)].  Its [required]
    expressions read [formData.value.authMethod] when the literal is
    evaluated, which is once, during setup, while [formData] still holds its
    initial record; nothing assigns to [formRules] afterwards. *)
Definition formRules : FormRules :=
  let formData := initialFormData in
  [ ("name", [ requiredRule true "请输入服务器名称";
               maxRule 100 "服务器名称不能超过100个字符" ]);
    ("hostname", [ requiredRule true "请输入主机名或IP地址";
                   maxRule 255 "主机名或IP地址不能超过255个字符" ]);
    ("port", [ requiredRule true "请输入端口号";
               numberRule 1 65535 "端口号必须在1-65535之间" ]);
    ("username", [ requiredRule true "请输入SSH用户名";
                   maxRule 100 "用户名不能超过100个字符" ]);
    ("password", [ requiredRule (usesPassword (authMethod formData)) "请输入SSH密码" ]);
    ("privateKey", [ requiredRule (usesPrivateKey (authMethod formData)) "请输入SSH私钥" ]) ]%string.

(** The [el-form-item]s of the template that carry a [prop], with the
    [v-if] conditions of the password and private-key items. *)
Definition mountedItems (fd : FormData) : list string :=
  [ "name"; "hostname"; "port"; "username"; "authMethod" ]%string
  ++ (if usesPassword (authMethod fd) then [ "password" ]%string else [])
  ++ (if usesPrivateKey (authMethod fd) then [ "privateKey" ]%string else [])
  ++ [ "description" ]%string.

(** [formData[prop]] *)
Definition model (fd : FormData) (prop : string) : JVal :=
  if String.eqb prop "name" then JStr (name fd)
  else if String.eqb prop "hostname" then JStr (hostname fd)
  else if String.eqb prop "port" then port fd
  else if String.eqb prop "username" then JStr (username fd)
  else if String.eqb prop "authMethod" then JStr (authMethod fd)
  else if String.eqb prop "password" then JStr (password fd)
  else if String.eqb prop "privateKey" then JStr (privateKey fd)
  else if String.eqb prop "description" then JStr (description fd)
  else JUndefined.

(** The component: the injected axios instance (or none), whether the form
    is mounted behind [formRef], and the form data. *)
Record State : Type := mkState {
  axios : bool;
  formRef : bool;
  formData : FormData
}.

(** [requestData] of [handleSubmit] *)
Definition requestData (fd : FormData) : Obj :=
  put "name" (JStr (name fd))
    (put "hostname" (JStr (hostname fd))
      (put "port" (port fd)
        (put "username" (JStr (username fd))
          (put "password" (or_else (JStr (password fd)) JUndefined)
            (put "privateKey" (or_else (JStr (privateKey fd)) JUndefined)
              (put "description" (or_else (JStr (description fd)) JUndefined) ∅)))))).

Definition resetForm : M State unit :=
  modify (fun st => mkState (axios st) (formRef st) initialFormData).

Definition handleSubmit (postReply : Awaited JVal) : M State unit :=
  st ← read;
  if negb (formRef st) || negb (axios st) then skip
  else
    try_catch
      (validate formRules (mountedItems (formData st)) (model (formData st));;
       http POST ServersUrl (Some (requestData (formData st))) postReply;;
       log (Emit "success");;
       resetForm)
      (fun _ =>
         log (ConsoleError "创建服务器失败:");;
         log (Message error (Fixed "创建服务器失败，请稍后重试"))).

End CreateServer.

(** ** EditServer.vue ([src/frontend/src/components/EditServer.vue]) *)

Module EditServer.
Import Js Ui Validator.

(** [form]: the fields [loadServerInfo] fills hold whatever the server
    record carries; the radio group and the two secret inputs hold strings. *)
Record Form : Type := mkForm {
  name : JVal;
  hostname : JVal;
  port : JVal;
  username : JVal;
  authMethod : jsstring;
  password : jsstring;
  privateKey : jsstring;
  description : JVal
}.

Definition initialForm : Form :=
  {| name := JStr []; hostname := JStr []; port := JNum (Q2Qc 22);
     username := JStr []; authMethod := lit "password"; password := [];
     privateKey := []; description := JStr [] |}.

Record State : Type := mkState {
  serverId : Z;          (* props.serverId *)
  axios : bool;          (* props.axios, or null *)
  formRef : bool;
  form : Form
}.

Definition with_form (f : Form -> Form) (st : State) : State :=
  mkState (serverId st) (axios st) (formRef st) (f (form st)).

Definition rules : FormRules :=
  [ ("name", [ requiredRule true "请输入服务器名称";
               maxRule 100 "服务器名称不能超过100个字符" ]);
    ("hostname", [ requiredRule true "请输入主机名或IP地址";
                   maxRule 255 "主机名或IP地址不能超过255个字符" ]);
    ("port", [ requiredRule true "请输入端口";
               numberRule 1 65535 "端口必须在1-65535之间" ]);
    ("username", [ requiredRule true "请输入用户名";
                   maxRule 100 "用户名不能超过100个字符" ]);
    ("authMethod", [ requiredRule true "请选择认证方式" ]) ]%string.

Definition usesPassword (method : jsstring) : bool :=
  bool_decide (method = lit "password") || bool_decide (method = lit "both").

Definition usesKey (method : jsstring) : bool :=
  bool_decide (method = lit "key") || bool_decide (method = lit "both").

(** The items with a [prop]; the description item has none. *)
Definition mountedItems (f : Form) : list string :=
  [ "name"; "hostname"; "port"; "username"; "authMethod" ]%string
  ++ (if usesPassword (authMethod f) then [ "password" ]%string else [])
  ++ (if usesKey (authMethod f) then [ "privateKey" ]%string else []).

Definition model (f : Form) (prop : string) : JVal :=
  if String.eqb prop "name" then name f
  else if String.eqb prop "hostname" then hostname f
  else if String.eqb prop "port" then port f
  else if String.eqb prop "username" then username f
  else if String.eqb prop "authMethod" then JStr (authMethod f)
  else if String.eqb prop "password" then JStr (password f)
  else if String.eqb prop "privateKey" then JStr (privateKey f)
  else if String.eqb prop "description" then description f
  else JUndefined.

(** The auth method [loadServerInfo] derives from the two flags. *)
Definition deriveAuthMethod (server : Obj) : jsstring :=
  if truthy (get server "has_private_key") && truthy (get server "has_password")
  then lit "both"
  else if truthy (get server "has_private_key") then lit "key"
  else lit "password".

(** The assignments of [loadServerInfo] to [form]. *)
Definition fillForm (server : Obj) (f : Form) : Form :=
  {| name := get server "name";
     hostname := get server "hostname";
     port := get server "port";
     username := get server "username";
     description := or_else (get server "description") (JStr []);
     authMethod := deriveAuthMethod server;
     password := password f;
     privateKey := privateKey f |}.

(** [getReply] is the reply to the GET: [response.data], a server record,
    or [None] for a reply whose body is [null] or missing, on which
    [server.name] throws before anything is assigned. *)
Definition loadServerInfo (getReply : Awaited (option Obj)) : M State unit :=
  st ← read;
  if negb (axios st) || (serverId st =? 0) then skip
  else
    try_catch
      (body ← http GET (ServerUrl (serverId st)) None getReply;
       match body with
       | Some server => modify (with_form (fillForm server))
       | None => throw TypeError
       end)
      (fun _ =>
         log (ConsoleError "加载服务器信息失败:");;
         log (Message error (Fixed "加载服务器信息失败"));;
         log (Emit "cancel")).

(** [requestData] of [handleSubmit], statement by statement. *)
Definition requestData (f : Form) : Obj :=
  let d0 : Obj :=
    put "name" (name f) (put "hostname" (hostname f) (put "port" (port f)
      (put "username" (username f) (put "description" (description f) ∅)))) in
  let d1 := if truthy (JStr (password f)) then put "password" (JStr (password f)) d0 else d0 in
  let d2 := if truthy (JStr (privateKey f)) then put "private_key" (JStr (privateKey f)) d1 else d1 in
  let d3 :=
    if negb (bool_decide (authMethod f = lit "password")) && negb (bool_decide (authMethod f = lit "both"))
    then put "password" JNull d2 else d2 in
  if negb (bool_decide (authMethod f = lit "key")) && negb (bool_decide (authMethod f = lit "both"))
  then put "private_key" JNull d3 else d3.

Definition handleSubmit (putReply : Awaited JVal) : M State unit :=
  st ← read;
  if negb (axios st) || negb (formRef st) then skip
  else
    try_catch
      (validate rules (mountedItems (form st)) (model (form st));;
       http PUT (ServerUrl (serverId st)) (Some (requestData (form st))) putReply;;
       log (Message success (Fixed "服务器更新成功"));;
       log (Emit "success"))
      (fun _ =>
         log (ConsoleError "更新服务器失败:");;
         log (Message error (Fixed "更新服务器失败"))).

End EditServer.

(** ** ServerManagement.vue ([src/frontend/src/components/ServerManagement.vue]) *)

Module ServerManagement.
Import Js Ui.

Record State : Type := mkState {
  axios : bool;
  loading : bool;
  serversList : list Obj
}.

(** The row [loadServers] builds from one server record. *)
Definition toRow (server : Obj) : Obj :=
  put "id" (get server "id")
    (put "name" (get server "name")
      (put "hostname" (get server "hostname")
        (put "port" (get server "port")
          (put "username" (get server "username")
            (put "hasPrivateKey" (get server "has_private_key")
              (put "hasPassword" (get server "has_password")
                (put "createdAt" (get server "created_at")
                  (put "updatedAt" (get server "updated_at") ∅)))))))).

Definition set_loading (b : bool) (st : State) : State :=
  mkState (axios st) b (serversList st).

Definition set_serversList (l : list Obj) (st : State) : State :=
  mkState (axios st) (loading st) l.

(** [listReply] is the reply to the GET: [response.data], the array of
    server records. *)
Definition loadServers (listReply : Awaited (list Obj)) : M State unit :=
  st ← read;
  if negb (axios st) then skip
  else
    modify (set_loading true);;
    try_finally
      (try_catch
         (data ← http GET ServersUrl None listReply;
          modify (set_serversList (toRow <$> data)))
         (fun e =>
            log (ConsoleError "加载服务器列表失败:");;
            log (Message error
                   (match e with
                    | HttpError [] _ => Fixed "加载服务器列表失败"
                    | HttpError detail _ => Computed detail
                    | _ => Fixed "加载服务器列表失败"
                    end))))
      (modify (set_loading false)).

End ServerManagement.

(** ** XrayRConfigList.vue ([src/unnamed/part_002]) *)

Module XrayRConfigList.
Import Js Ui Validator.

(** [interface XrayRConfig] *)
Record XrayRConfig : Type := mkXrayRConfig {
  id : Z;
  name : jsstring;
  server_id : Z;
  server_hostname : jsstring;
  server_username : jsstring;
  config_path : jsstring;
  parsed_config : JVal;
  description : jsstring;
  last_sync_at : jsstring;
  created_at : jsstring;
  updated_at : jsstring
}.

(** The [response.data] of an update: the properties of an [XrayRConfig]
    the reply carries, each present or not. *)
Record Reply : Type := mkReply {
  r_id : option Z;
  r_name : option jsstring;
  r_server_id : option Z;
  r_server_hostname : option jsstring;
  r_server_username : option jsstring;
  r_config_path : option jsstring;
  r_parsed_config : option JVal;
  r_description : option jsstring;
  r_last_sync_at : option jsstring;
  r_created_at : option jsstring;
  r_updated_at : option jsstring
}.

(** [{ ...old, ...data }]: a property of [data] wins over that of [old]. *)
Definition spread (old : XrayRConfig) (data : Reply) : XrayRConfig :=
  {| id := default (id old) (r_id data);
     name := default (name old) (r_name data);
     server_id := default (server_id old) (r_server_id data);
     server_hostname := default (server_hostname old) (r_server_hostname data);
     server_username := default (server_username old) (r_server_username data);
     config_path := default (config_path old) (r_config_path data);
     parsed_config := default (parsed_config old) (r_parsed_config data);
     description := default (description old) (r_description data);
     last_sync_at := default (last_sync_at old) (r_last_sync_at data);
     created_at := default (created_at old) (r_created_at data);
     updated_at := default (updated_at old) (r_updated_at data) |}.

(** [interface ConfigForm] *)
Record ConfigForm : Type := mkConfigForm {
  form_name : jsstring;
  form_config_path : jsstring;
  form_description : jsstring
}.

Record State : Type := mkState {
  serverId : option Z;                 (* props.serverId: number | null *)
  axios : bool;                        (* props.axios, or null *)
  loading : bool;
  configs : list XrayRConfig;
  searchQuery : jsstring;
  configFormVisible : bool;
  configFormRef : bool;                (* is the form mounted behind the ref? *)
  editingConfig : option XrayRConfig;
  configForm : ConfigForm
}.

Definition set_loading (b : bool) (st : State) : State :=
  mkState (serverId st) (axios st) b (configs st) (searchQuery st)
    (configFormVisible st) (configFormRef st) (editingConfig st) (configForm st).

Definition set_configs (l : list XrayRConfig) (st : State) : State :=
  mkState (serverId st) (axios st) (loading st) l (searchQuery st)
    (configFormVisible st) (configFormRef st) (editingConfig st) (configForm st).

Definition set_configFormVisible (b : bool) (st : State) : State :=
  mkState (serverId st) (axios st) (loading st) (configs st) (searchQuery st)
    b (configFormRef st) (editingConfig st) (configForm st).

(** [/^\/.+/]: a slash at the start, then at least one character that is
    not a line terminator (no flags: [.] stops at line terminators, and
    nothing anchors the end). *)
Definition configPathPattern (v : jsstring) : bool :=
  match v with
  | slash :: c :: _ => (slash =? 47)%N && negb (isLineTerminator c)
  | _ => false
  end.

Definition configFormRules : FormRules :=
  [ ("name", [ requiredRule true "请输入配置名称";
               rangeRule 2 50 "配置名称长度应在 2 到 50 个字符之间" ]);
    ("config_path", [ requiredRule true "请输入配置文件路径";
                      patternRule configPathPattern "配置路径必须以斜杠(/)开头" ]);
    ("description", [ maxRule 200 "描述不能超过 200 个字符" ]) ]%string.

Definition mountedItems : list string := [ "name"; "config_path"; "description" ]%string.

Definition model (f : ConfigForm) (prop : string) : JVal :=
  if String.eqb prop "name" then JStr (form_name f)
  else if String.eqb prop "config_path" then JStr (form_config_path f)
  else if String.eqb prop "description" then JStr (form_description f)
  else JUndefined.

Section Search.

(** [String.prototype.toLowerCase], the Unicode case mapping. *)
Variable toLowerCase : jsstring -> jsstring.

(** The computed property [filteredConfigs]. *)
Definition filteredConfigs (st : State) : list XrayRConfig :=
  match searchQuery st with
  | [] => configs st
  | _ =>
      let query := toLowerCase (searchQuery st) in
      List.filter
        (fun config =>
           includes query (toLowerCase (name config))
           || includes query (toLowerCase (description config)))
        (configs st)
  end.

End Search.

(** [if (!props.axios || !props.serverId) return], then the rest of the
    handler with the server id. *)
Definition withServer (rest : Z -> M State unit) : M State unit :=
  st ← read;
  match serverId st with
  | Some sid => if negb (axios st) || (sid =? 0) then skip else rest sid
  | None => skip
  end.

(** [configs.findIndex(c => p(c))], [None] for -1. *)
Fixpoint findIndex (p : XrayRConfig -> bool) (l : list XrayRConfig) : option nat :=
  match l with
  | [] => None
  | c :: l' => if p c then Some O else S <$> findIndex p l'
  end.

(** The body sent with both the PUT and the POST. *)
Definition formBody (f : ConfigForm) : Obj :=
  put "name" (JStr (form_name f))
    (put "config_path" (JStr (form_config_path f))
      (put "description" (JStr (form_description f)) ∅)).

(** [configs.value[index] = { ...configs.value[index], ...response.data }]
    for the first entry with the id of the config under edit, if any. *)
Definition mergeUpdated (editing : XrayRConfig) (data : Reply) (l : list XrayRConfig) : list XrayRConfig :=
  match findIndex (fun c => id c =? id editing) l with
  | Some index =>
      match l !! index with
      | Some old => <[index := spread old data]> l
      | None => l
      end
  | None => l
  end.

(** [putReply] answers the PUT of an update, [postReply] the POST of a
    creation; a run consumes one of them. *)
Definition submitConfigForm (putReply : Awaited Reply) (postReply : Awaited XrayRConfig) : M State unit :=
  withServer (fun sid =>
    st ← read;
    valid ← (if configFormRef st
             then validate configFormRules mountedItems (model (configForm st))
             else mret false);
    if negb valid then skip
    else
      modify (set_loading true);;
      try_finally
        (try_catch
           ((match editingConfig st with
             | Some editing =>
                 data ← http PUT (XrayrConfigUrl sid (id editing))
                          (Some (formBody (configForm st))) putReply;
                 modify (fun s => set_configs (mergeUpdated editing data (configs s)) s);;
                 log (Message success (Fixed "配置更新成功"))
             | None =>
                 data ← http POST (XrayrConfigsUrl sid)
                          (Some (formBody (configForm st))) postReply;
                 modify (fun s => set_configs (configs s ++ [data]) s);;
                 log (Message success (Fixed "配置创建成功"))
             end);;
            modify (set_configFormVisible false))
           (fun e =>
              let what := match editingConfig st with
                          | Some _ => "更新配置失败"
                          | None => "创建配置失败"
                          end%string in
              log (ConsoleError what);;
              log (Message error (errorMessage what e))))
        (modify (set_loading false))).

(** [confirmReply] settles the confirmation box, [deleteReply] the DELETE. *)
Definition handleDelete (config : XrayRConfig) (confirmReply : Awaited unit) (deleteReply : Awaited JVal) : M State unit :=
  withServer (fun sid =>
    try_finally
      (try_catch
         (log (ConfirmBox (name config));;
          await confirmReply;;
          modify (set_loading true);;
          http DELETE (XrayrConfigUrl sid (id config)) None deleteReply;;
          modify (fun s => set_configs (List.filter (fun c => negb (id c =? id config)) (configs s)) s);;
          log (Message success (Fixed "配置删除成功")))
         (fun e =>
            match e with
            | Cancelled => skip
            | _ =>
                log (ConsoleError "删除配置失败:");;
                log (Message error (errorMessage "删除配置失败" e))
            end))
      (modify (set_loading false))).

End XrayRConfigList.

(** ** ServerXrayRConfigDialog.vue (the second component in the file of
    [CreateServer.vue]) *)

Module ServerXrayRConfigDialog.
Import Js Ui.

Record State : Type := mkState {
  serverId : option Z;           (* props.serverId: number | null *)
  axios : bool;                  (* props.axios, or null *)
  loading : bool;
  configData : option Obj;       (* null, or the last [response.data] *)
  configPath : jsstring
}.

Definition set_loading (b : bool) (st : State) : State :=
  mkState (serverId st) (axios st) b (configData st) (configPath st).

Definition set_configData (d : option Obj) (st : State) : State :=
  mkState (serverId st) (axios st) (loading st) d (configPath st).

(** [reply] is the reply to the POST: [response.data], or [None] for a
    reply whose body is [null] or missing; [configData.value.success]
    throws on it, after the assignment. *)
Definition fetchConfigData (reply : Awaited (option Obj)) : M State unit :=
  st ← read;
  match serverId st with
  | None => skip
  | Some sid =>
      if negb (axios st) || (sid =? 0) then skip
      else
        modify (set_loading true);;
        modify (set_configData None);;
        try_finally
          (try_catch
             (body ← http POST (ServerConfigUrl sid)
                      (Some (put "config_path" (JStr (configPath st))
                               (put "simplify" (JBool false) ∅))) reply;
              modify (set_configData body);;
              match body with
              | Some data =>
                  if truthy (get data "success")
                  then log (Message success (Fixed "获取XrayR配置成功"))
                  else log (Message warning
                              (Cat (Fixed "获取XrayR配置失败: ") (Shown (get data "error"))))
              | None => throw TypeError
              end)
             (fun _ =>
                log (ConsoleError "获取XrayR配置失败:");;
                log (Message error (Fixed "获取XrayR配置失败"))))
          (modify (set_loading false))
  end.

(** What the dialog's template shows. *)
Inductive Item : Type :=
| ServerInfo (info : JVal)            (* configData.server_info *)
| ConfigPath (path : jsstring)
| ConfigContent (content : JVal)      (* v-if="configData.config_content" *)
| ParsedConfig (parsed : JVal)        (* v-if="configData.parsed_config" *)
| ErrorMessage (err : JVal).          (* v-if="configData.error" *)

Inductive View : Type :=
| Loading
| Panel (items : list Item)
| NoData
| RenderError.                        (* a TypeError while rendering *)

(** The first item reads [configData.server_info.name] unguarded: on data
    whose [server_info] is missing or [null] rendering throws. *)
Definition render (st : State) : View :=
  if loading st then Loading
  else
    match configData st with
    | Some data =>
        match get data "server_info" with
        | JUndefined | JNull => RenderError
        | info =>
            Panel
              ([ ServerInfo info; ConfigPath (configPath st) ]
               ++ (if truthy (get data "config_content")
                   then [ ConfigContent (get data "config_content") ] else [])
               ++ (if truthy (get data "parsed_config")
                   then [ ParsedConfig (get data "parsed_config") ] else [])
               ++ (if truthy (get data "error")
                   then [ ErrorMessage (get data "error") ] else []))
        end
    | None => NoData
    end.

End ServerXrayRConfigDialog.

(** ** ServerConfigDialog.vue ([src/frontend/src/components/ServerConfigDialog.vue]) *)

Module ServerConfigDialog.
Import Js Ui.

Record Props : Type := mkProps {
  serverId : option Z;
  serverName : jsstring;
  hostname : jsstring;
  port : Qc;
  username : jsstring;
  hasPrivateKey : bool;
  hasPassword : bool;
  createdAt : jsstring;
  axios : bool
}.

(** The object assigned to [configData.value]. *)
Record ConfigData : Type := mkConfigData {
  cd_serverId : option Z;
  cd_serverName : jsstring;
  cd_hostname : jsstring;
  cd_port : Qc;
  cd_username : jsstring;
  cd_hasPrivateKey : jsstring;
  cd_hasPassword : jsstring;
  cd_createdAt : jsstring;
  otherConfigs : gmap (list N) (list N)
}.

Record State : Type := mkState {
  props : Props;
  loading : bool;
  configData : option ConfigData
}.

Definition set_loading (b : bool) (st : State) : State :=
  mkState (props st) b (configData st).

Definition set_configData (d : option ConfigData) (st : State) : State :=
  mkState (props st) (loading st) d.

(** [commands]: display name and shell command. *)
Definition commands : list (jsstring * jsstring) :=
  [ (lit "操作系统", lit "cat /etc/os-release || uname -a");
    (lit "内核版本", lit "uname -r");
    (lit "主机名", lit "hostname");
    (lit "IP地址", lit "hostname -I || ip addr | grep inet | grep -v 127.0.0.1 | head -1 | awk '{print $2}'");
    (lit "内存信息", lit "free -h | grep Mem");
    (lit "磁盘信息", lit "df -h | grep -v tmpfs");
    (lit "CPU信息", lit "cat /proc/cpuinfo | grep " ++ quote ++ lit "model name" ++ quote
                      ++ lit " | head -1 | cut -d" ++ quote ++ lit ":" ++ quote ++ lit " -f2");
    (lit "系统时间", lit "date") ].

(** [echo "###<name>:###"; <cmd>] per command, joined by [ && echo "\n" && ]. *)
Definition combinedCommand : jsstring :=
  join (lit " && echo " ++ quote ++ LF ++ quote ++ lit " && ")
    ((fun cmd => lit "echo " ++ quote ++ lit "###" ++ fst cmd ++ lit ":###" ++ quote
                 ++ lit "; " ++ snd cmd) <$> commands).

(** [s.replace(/^###|###$/g, '')]: matches are found left to right and do
    not overlap; [^###] can match at the start only, [###$] at the end only,
    and after a match at the start the search resumes behind it. *)
Definition stripMarkers (s : jsstring) : jsstring :=
  let marker := lit "###" in
  let unsuffix (t : jsstring) :=
    if endsWith marker t then take (length t - 3) t else t in
  if startsWith marker s then unsuffix (drop 3 s) else unsuffix s.

(** [configs[name] = value] on a plain object: a property is created or
    overwritten, except under the name [__proto__], where the assignment
    of a string goes to the prototype setter and leaves no property. *)
Definition assign (name value : jsstring) (configs : gmap (list N) (list N)) : gmap (list N) (list N) :=
  if bool_decide (name = lit "__proto__") then configs else <[name := value]> configs.

(** The callback of [sections.forEach]. *)
Definition parseSection (configs : gmap (list N) (list N)) (section : jsstring) : gmap (list N) (list N) :=
  match split LF (trim section) with
  | nameLine :: rest =>
      match nameLine with
      | [] => configs
      | _ =>
          if startsWith (lit "###") nameLine then
            let name := trim (stripMarkers nameLine) in
            let value := trim (join LF rest) in
            match value with
            | [] => configs
            | _ => assign name value configs
            end
          else configs
      end
  | [] => configs
  end.

(** [configs] once the [forEach] over [output.split('\n\n')] is done. *)
Definition parseOutput (output : jsstring) : gmap (list N) (list N) :=
  fold_left parseSection (split (LF ++ LF) output) ∅.

Definition fallbackConfigs : gmap (list N) (list N) :=
  {[ lit "配置信息" := lit "无法获取详细配置信息，可能是权限不足或命令不支持" ]}.

(** [configs] after the [Object.keys(configs).length === 0] check. *)
Definition parsedConfigs (output : jsstring) : gmap (list N) (list N) :=
  let configs := parseOutput output in
  if bool_decide (configs = ∅) then fallbackConfigs else configs.

Definition yesNo (b : bool) : jsstring := if b then lit "是" else lit "否".

Definition makeConfigData (p : Props) (other : gmap (list N) (list N)) : ConfigData :=
  {| cd_serverId := serverId p; cd_serverName := serverName p;
     cd_hostname := hostname p; cd_port := port p; cd_username := username p;
     cd_hasPrivateKey := yesNo (hasPrivateKey p);
     cd_hasPassword := yesNo (hasPassword p);
     cd_createdAt := createdAt p; otherConfigs := other |}.

(** [reply] is the reply to the POST: [response.data]. *)
Definition fetchConfigData (reply : Awaited Obj) : M State unit :=
  st ← read;
  match serverId (props st) with
  | None => skip
  | Some sid =>
      if negb (axios (props st)) || (sid =? 0) then skip
      else
        modify (set_loading true);;
        modify (set_configData None);;
        try_finally
          (try_catch
             (data ← http POST (ExecuteUrl sid)
                      (Some (put "command" (JStr combinedCommand)
                               (put "timeout" (JNum (Q2Qc 60)) ∅))) reply;
              output ← (match get data "stdout" with
                        | JStr output => mret output
                        | _ => throw TypeError
                        end);
              modify (set_configData (Some (makeConfigData (props st) (parsedConfigs output))));;
              log (Message success (Fixed "获取服务器配置成功")))
             (fun _ =>
                log (ConsoleError "获取服务器配置失败:");;
                modify (set_configData
                          (Some (makeConfigData (props st)
                                   {[ lit "错误信息" := lit "获取详细配置失败，请检查SSH连接是否正常" ]})));;
                log (Message error (Fixed "获取服务器详细配置失败"))))
          (modify (set_loading false))
  end.

End ServerConfigDialog.

(** ** The fetch operation of the configuration sync engine *)

Module ConfigSyncEngine.

(** Modelled from the spec: the structured snapshot, "a generic tree of
    scalars/sequences/mappings"; the engine's code is not among the
    sources. *)
Inductive Tree : Type :=
| Scalar (text : list N)
| Sequence (items : list Tree)
| Mapping (entries : list (list N * Tree)).

(** Modelled from the spec: a parsed document; "unparseable content yields
    a document whose parse error field is set", and the raw content is
    retained either way. *)
Record Document : Type := mkDocument {
  raw_content : list N;
  tree : option Tree;
  parse_error : option string
}.

(** Modelled from the spec: the [SyncedConfig] record of the data model:
    server reference, logical name, remote path, last-sync timestamp
    ("null until first successful fetch") and parsed snapshot. *)
Record SyncedConfig : Type := mkSyncedConfig {
  server : Z;
  name : list N;
  remote_path : list N;
  last_sync : option Z;
  snapshot : option Document
}.

(** Modelled from the spec: the session-layer errors a fetch propagates. *)
Inductive SessionError : Type := NetworkError | TimeoutError | AuthError.

Section Fetch.

(** The parser of the declared format: a tree, or the parse error. *)
Variable parse : list N -> Tree + string.

(** Modelled from the spec: parsing never aborts; it yields a document. *)
Definition parseDocument (bytes : list N) : Document :=
  match parse bytes with
  | inl t => mkDocument bytes (Some t) None
  | inr err => mkDocument bytes None (Some err)
  end.

(** Modelled from the spec: [fetch] of section 4.3, on the stored record
    [prev] of the sync target.  [read] is what the SSH session returned for
    the read command, [now] the call time.  The result is what the caller
    gets and the record stored afterwards: "on SSH-layer failure, the
    previous snapshot and timestamp are left untouched and the error is
    surfaced to the caller"; on success the bytes are parsed, the document
    becomes the snapshot and the timestamp advances. *)
Definition fetch (now : Z) (read : SessionError + list N) (prev : SyncedConfig)
    : (SessionError + SyncedConfig) * SyncedConfig :=
  match read with
  | inl err => (inl err, prev)
  | inr bytes =>
      let synced := mkSyncedConfig (server prev) (name prev) (remote_path prev)
                      (Some now) (Some (parseDocument bytes)) in
      (inr synced, synced)
  end.

End Fetch.

End ConfigSyncEngine.

(** ** The text a [catch] block reports *)

Module ErrorText.
Import Js Ui.

(** [error.response?.data?.detail || error.message || fallback]: the
    server's detail when there is one, else the error's own message, else
    the default of the handler.  A [TypeError] has a message, the
    engine's; the string 'cancel' and the object of failed fields have
    none. *)
Definition errorText (fallback : string) (e : JsError) : Text :=
  match e with
  | HttpError [] [] => Fixed fallback
  | HttpError [] message => Computed message
  | HttpError detail _ => Computed detail
  | TypeError => EngineMessage
  | Cancelled | Invalid _ => Fixed fallback
  end.

End ErrorText.

(** ** XrayRConfigList.vue: loading the list and opening the form *)

Module XrayRConfigListDialogs.
Import Js Ui Validator XrayRConfigList ErrorText.

(** An element of the array the list endpoint replies with: an
    [XrayRConfig] whose [parsed_config] may be any value and whose
    [description] and [last_sync_at] may be missing or [null]. *)
Record Item : Type := mkItem {
  i_id : Z;
  i_name : jsstring;
  i_server_id : Z;
  i_server_hostname : jsstring;
  i_server_username : jsstring;
  i_config_path : jsstring;
  i_parsed_config : JVal;
  i_description : option jsstring;
  i_last_sync_at : option jsstring;
  i_created_at : jsstring;
  i_updated_at : jsstring
}.

(** The callback of [response.data.map]:
    [parsed_config: item.parsed_config || {}],
    [description: item.description || ''],
    [last_sync_at: item.last_sync_at || '']. *)
Definition fromItem (item : Item) : XrayRConfig :=
  {| id := i_id item;
     name := i_name item;
     server_id := i_server_id item;
     server_hostname := i_server_hostname item;
     server_username := i_server_username item;
     config_path := i_config_path item;
     parsed_config := or_else (i_parsed_config item) (JObj []);
     description := default [] (i_description item);
     last_sync_at := default [] (i_last_sync_at item);
     created_at := i_created_at item;
     updated_at := i_updated_at item |}.

(** The message of [new Error('响应数据格式无效')], as code units. *)
Definition invalidFormat : jsstring :=
  Eval vm_compute in lit "响应数据格式无效".

(** [serverName] is [props.serverName]; [reply] answers the GET with
    [response.data]: the array of items, or [None] for a value that is not
    an array. *)
Definition fetchConfigs (serverName : jsstring) (reply : Awaited (option (list Item))) : M State unit :=
  withServer (fun sid =>
    modify (set_loading true);;
    modify (set_configs []);;
    try_finally
      (try_catch
         (data ← http GET (XrayrConfigsUrl sid) None reply;
          match data with
          | Some items =>
              modify (set_configs (fromItem <$> items));;
              log (Message success
                     (Cat (Fixed "成功获取") (Cat (Computed serverName) (Fixed "的XrayR配置列表"))))
          | None => throw (HttpError [] invalidFormat)
          end)
         (fun e =>
            log (ConsoleError "获取XrayR配置列表失败:");;
            log (Message error (errorText "获取XrayR配置列表失败" e))))
      (modify (set_loading false))).

(** The three assignments shared by [showCreateDialog] and
    [showEditDialog]. *)
Definition openForm (editing : option XrayRConfig) (f : ConfigForm) (st : State) : State :=
  mkState (serverId st) (axios st) (loading st) (configs st) (searchQuery st)
    true (configFormRef st) editing f.

Definition showCreateDialog : M State unit :=
  modify (openForm None (mkConfigForm [] (lit "/etc/XrayR/config.yml") [])).

Definition showEditDialog (config : XrayRConfig) : M State unit :=
  modify (openForm (Some config)
            (mkConfigForm (name config) (config_path config) (description config))).

(** Vue renders between two events: once the form dialog is visible, its
    form is mounted behind [configFormRef]. *)
Definition rendered (st : State) : State :=
  mkState (serverId st) (axios st) (loading st) (configs st) (searchQuery st)
    (configFormVisible st) (configFormVisible st || configFormRef st)
    (editingConfig st) (configForm st).

End XrayRConfigListDialogs.

(** ** Handlers whose requests go to further endpoints *)

Module Calls.
Import Js.

(** What these handlers ask of the outside world: the events of [Ui], and
    the requests whose URL is not among [Ui.Url]. *)
Inductive Call : Type :=
| Event (ev : Ui.Event)
| CheckConfigRequest (id : Z) (params : Obj)
    (* axios.get(`/server_configs/servers/${id}/config/check`, { params }) *)
| DeleteServerRequest (id : JVal)
    (* axios.delete(`/servers/servers/${row.id}`) *)
| ConfirmServerDelete (subject : JVal)
    (* ElMessageBox.confirm(`... "${row.name || row.hostname}" ...`) *)
| TestConnectionRequest (id : JVal)
    (* axios.post(`/servers/servers/${row.id}/test-connection`) *)
| DetailsBox (name parsed : JVal).
    (* ElMessageBox({ title: `配置详情: ${name}`, message: ...JSON.stringify(parsed)... }) *)

End Calls.

(** [checkConfigFile] of ServerXrayRConfigDialog.vue, in state-passing
    style: the state after and the calls made. *)
Module ServerXrayRConfigDialogCheck.
Import Js Ui Calls ServerXrayRConfigDialog.

Definition checkConfigFile (reply : Awaited Obj) (st : State) : State * list Call :=
  match serverId st with
  | None => (st, [])
  | Some sid =>
      if negb (axios st) || (sid =? 0) then (st, [])
      else
        let request :=
          CheckConfigRequest sid (put "config_path" (JStr (configPath st)) ∅) in
        let said :=
          match reply with
          | Fulfilled data =>
              if truthy (get data "success") && truthy (get data "exists")
              then [ Message success
                       (Cat (Fixed "配置文件 ") (Cat (Computed (configPath st)) (Fixed " 存在"))) ]
              else [ Message warning
                       (Cat (Fixed "配置文件 ") (Cat (Computed (configPath st)) (Fixed " 不存在"))) ]
          | Rejected _ =>
              [ ConsoleError "检查配置文件失败:"; Message error (Fixed "检查配置文件失败") ]
          end in
        (set_loading false (set_loading true st), request :: (Event <$> said))
  end.

End ServerXrayRConfigDialogCheck.

(** [handleDelete] of ServerManagement.vue, in state-passing style.
    [confirmReply] settles the confirmation box with the action chosen,
    [deleteReply] the DELETE, [listReply] the GET of the reload. *)
Module ServerManagementDelete.
Import Js Ui Calls ServerManagement ErrorText.

(** The [catch] block: the error is logged, and reported unless it is the
    'cancel' of the confirmation box. *)
Definition failed (e : JsError) : list Call :=
  Event (ConsoleError "删除服务器失败:")
  :: match e with
     | Cancelled => []
     | _ => [ Event (Message error (errorText "删除服务器失败" e)) ]
     end.

Definition handleDelete (row : Obj) (confirmReply : Awaited jsstring)
    (deleteReply : Awaited JVal) (listReply : Awaited (list Obj)) (st : State)
    : State * list Call :=
  if negb (axios st)
  then (st, [ Event (Message error (Fixed "axios未初始化，请刷新页面重试")) ])
  else if negb (truthy (get row "id"))
  then (st, [ Event (Message error (Fixed "无效的服务器数据")) ])
  else
    let ask := ConfirmServerDelete (or_else (get row "name") (get row "hostname")) in
    match confirmReply with
    | Rejected e => (st, ask :: failed e)
    | Fulfilled action =>
        if negb (bool_decide (action = lit "confirm")) then (st, [ ask ])
        else
          match deleteReply with
          | Rejected e => (st, [ ask; DeleteServerRequest (get row "id") ] ++ failed e)
          | Fulfilled _ =>
              let reload := loadServers listReply st in
              (state_after reload,
               [ ask; DeleteServerRequest (get row "id");
                 Event (Message success (Fixed "服务器删除成功")) ]
               ++ (Event <$> events_of reload))
          end
    end.

End ServerManagementDelete.

(** [handleTestConnection] of ServerManagement.vue: the calls made; the
    component's state is not touched.  [reply] is [response.data], [None]
    when the reply has no body. *)
Module ServerManagementTest.
Import Js Ui Calls ServerManagement ErrorText.

Definition handleTestConnection (row : Obj) (reply : Awaited (option Obj)) (st : State)
    : list Call :=
  if negb (axios st)
  then [ Event (Message error (Fixed "axios未初始化，请刷新页面重试")) ]
  else if negb (truthy (get row "id"))
  then [ Event (Message error (Fixed "无效的服务器数据")) ]
  else
    TestConnectionRequest (get row "id")
    :: match reply with
       | Fulfilled data =>
           let message := match data with
                          | Some d => get d "message"
                          | None => JUndefined
                          end in
           [ Event (Message success
                      (if truthy message then Shown message else Fixed "连接测试成功")) ]
       | Rejected e =>
           [ Event (ConsoleError "连接测试失败:");
             Event (Message error (errorText "连接测试失败" e)) ]
       end.

End ServerManagementTest.

(** [viewConfigDetails] of XrayRConfigList.vue, in state-passing style.
    [reply] is [response.data] of the GET, or [None] for a reply whose
    body is [null] or missing, on which [response.data.name] throws. *)
Module XrayRConfigListDetails.
Import Js Ui Calls XrayRConfigList ErrorText.

Definition viewConfigDetails (config : XrayRConfig) (reply : Awaited (option Obj)) (st : State)
    : State * list Call :=
  match serverId st with
  | None => (st, [])
  | Some sid =>
      if negb (axios st) || (sid =? 0) then (st, [])
      else
        (set_loading false (set_loading true st),
         Event (Request GET (XrayrConfigUrl sid (id config)) None)
         :: match reply with
            | Fulfilled (Some data) =>
                [ DetailsBox (get data "name")
                    (or_else (get data "parsed_config") (JObj [])) ]
            | Fulfilled None =>
                [ Event (ConsoleError "获取配置详情失败:");
                  Event (Message error (errorText "获取配置详情失败" TypeError)) ]
            | Rejected e =>
                [ Event (ConsoleError "获取配置详情失败:");
                  Event (Message error (errorText "获取配置详情失败" e)) ]
            end)
  end.

End XrayRConfigListDetails.

(** ** main.ts: the axios interceptors *)

Module Main.
Import Js Ui.

(** The headers of a request config. *)
Abbreviation Headers := (gmap (list N) (list N)).

(** A failed reply as the response interceptor sees it:
    [error.response?.status], when there is a response, and the error. *)
Record Failure : Type := mkFailure {
  status : option Z;
  cause : JsError
}.

(** The request interceptor.  [token] is what
    [localStorage.getItem('token')] returns: [None] for [null]. *)
Definition onRequest (token : option jsstring) (headers : Headers) : Headers :=
  match token with
  | Some t =>
      match t with
      | [] => headers
      | _ => <[lit "Authorization" := lit "Bearer " ++ t]> headers
      end
  | None => headers
  end.

(** The error branch of the response interceptor: the stored token
    afterwards, and the error the returned promise rejects with. *)
Definition onResponseError (failure : Failure) (token : option jsstring)
    : option jsstring * Failure :=
  (if bool_decide (status failure = Some 401) then None else token, failure).

End Main.

(** * Properties *)

(** ** Notions the statements use *)

Module Statements.
Import Js.

(** [q] occurs in [s]: some prefix and suffix surround it. *)
Definition Substring (q s : jsstring) : Prop :=
  ∃ before after, s = before ++ q ++ after.

(** A config matches the query: the lowercased query occurs in its
    lowercased name or in its lowercased description. *)
Definition Matches (toLowerCase : jsstring -> jsstring) (query : jsstring)
    (c : XrayRConfigList.XrayRConfig) : Prop :=
  Substring (toLowerCase query) (toLowerCase (XrayRConfigList.name c))
  ∨ Substring (toLowerCase query) (toLowerCase (XrayRConfigList.description c)).

(** A request body carries the three fields of the config form, and
    nothing else. *)
Definition CarriesForm (body : Obj) (f : XrayRConfigList.ConfigForm) : Prop :=
  body !! lit "name" = Some (JStr (XrayRConfigList.form_name f))
  ∧ body !! lit "config_path" = Some (JStr (XrayRConfigList.form_config_path f))
  ∧ body !! lit "description" = Some (JStr (XrayRConfigList.form_description f))
  ∧ ∀ k, k ≠ lit "name" -> k ≠ lit "config_path" -> k ≠ lit "description" ->
         body !! k = None.

(** The response merged into a list entry: every property the reply
    carries is the new entry's, every other property is the old entry's. *)
Definition MergedWith (old : XrayRConfigList.XrayRConfig) (data : XrayRConfigList.Reply)
    (new : XrayRConfigList.XrayRConfig) : Prop :=
  XrayRConfigList.id new
    = match XrayRConfigList.r_id data with Some v => v | None => XrayRConfigList.id old end
  ∧ XrayRConfigList.name new
    = match XrayRConfigList.r_name data with Some v => v | None => XrayRConfigList.name old end
  ∧ XrayRConfigList.server_id new
    = match XrayRConfigList.r_server_id data with
      | Some v => v | None => XrayRConfigList.server_id old end
  ∧ XrayRConfigList.server_hostname new
    = match XrayRConfigList.r_server_hostname data with
      | Some v => v | None => XrayRConfigList.server_hostname old end
  ∧ XrayRConfigList.server_username new
    = match XrayRConfigList.r_server_username data with
      | Some v => v | None => XrayRConfigList.server_username old end
  ∧ XrayRConfigList.config_path new
    = match XrayRConfigList.r_config_path data with
      | Some v => v | None => XrayRConfigList.config_path old end
  ∧ XrayRConfigList.parsed_config new
    = match XrayRConfigList.r_parsed_config data with
      | Some v => v | None => XrayRConfigList.parsed_config old end
  ∧ XrayRConfigList.description new
    = match XrayRConfigList.r_description data with
      | Some v => v | None => XrayRConfigList.description old end
  ∧ XrayRConfigList.last_sync_at new
    = match XrayRConfigList.r_last_sync_at data with
      | Some v => v | None => XrayRConfigList.last_sync_at old end
  ∧ XrayRConfigList.created_at new
    = match XrayRConfigList.r_created_at data with
      | Some v => v | None => XrayRConfigList.created_at old end
  ∧ XrayRConfigList.updated_at new
    = match XrayRConfigList.r_updated_at data with
      | Some v => v | None => XrayRConfigList.updated_at old end.

(** The fields of a server record that are not secret. *)
Definition nonSecretFields : list string :=
  [ "id"; "name"; "hostname"; "port"; "username"; "has_private_key";
    "has_password"; "description"; "created_at"; "updated_at" ]%string.

(** Two server records agree on every non-secret field. *)
Definition agreeOnNonSecret (r1 r2 : Obj) : Prop :=
  Forall (fun k => get r1 k = get r2 k) nonSecretFields.

(** The property names of a row of the server list. *)
Definition rowFields : list string :=
  [ "id"; "name"; "hostname"; "port"; "username"; "hasPrivateKey";
    "hasPassword"; "createdAt"; "updatedAt" ]%string.

(** Section [section] of the output contributes the entry [name],
    [value]: its first line, once the section is trimmed, starts with the
    marker; [name] is that line without the markers, trimmed; [value] is
    the remaining lines joined by line feeds, trimmed, and is not empty. *)
Definition Contributes (section name value : jsstring) : Prop :=
  ∃ nameLine rest,
    split LF (trim section) = nameLine :: rest
    ∧ startsWith (lit "###") nameLine = true
    ∧ name = trim (ServerConfigDialog.stripMarkers nameLine)
    ∧ value = trim (join LF rest)
    ∧ value ≠ [].

(** The parser as claim C10 words it: per section, the trimmed first line
    must start with the marker; the key is that line without the leading
    and trailing markers; the value is the remaining lines joined by line
    feeds, stored when it is not empty. *)
Definition statedSection (configs : gmap (list N) (list N)) (section : jsstring)
    : gmap (list N) (list N) :=
  match split LF section with
  | first :: rest =>
      let nameLine := trim first in
      if startsWith (lit "###") nameLine then
        match join LF rest with
        | [] => configs
        | value => <[ServerConfigDialog.stripMarkers nameLine := value]> configs
        end
      else configs
  | [] => configs
  end.

Definition statedConfigs (output : jsstring) : gmap (list N) (list N) :=
  let configs := fold_left statedSection (split (LF ++ LF) output) ∅ in
  if bool_decide (configs = ∅) then ServerConfigDialog.fallbackConfigs else configs.

End Statements.

(** ** Sample data the statements are instantiated at *)

Module Samples.
Import Js.

(** A server record whose flags say it has neither credential. *)
Definition neitherCredential : Obj :=
  put "id" (JNum (Q2Qc 7))
    (put "name" (JStr (lit "db1"))
      (put "has_private_key" (JBool false)
        (put "has_password" (JBool false) ∅))).

(** The record of the spec's scenario as a leaky back end might send it,
    with the plaintext password [secret] on board. *)
Definition recordWith (secret : string) : Obj :=
  put "id" (JNum (Q2Qc 1))
    (put "name" (JStr (lit "db1"))
      (put "hostname" (JStr (lit "10.0.0.5"))
        (put "port" (JNum (Q2Qc 22))
          (put "username" (JStr (lit "root"))
            (put "has_private_key" (JBool false)
              (put "has_password" (JBool true)
                (put "password" (JStr (lit secret)) ∅))))))).

(** An edit form that switches the server to key-only authentication and
    types no new secret. *)
Definition keyOnlyEdit : EditServer.Form :=
  {| EditServer.name := JStr (lit "db1");
     EditServer.hostname := JStr (lit "10.0.0.5");
     EditServer.port := JNum (Q2Qc 22);
     EditServer.username := JStr (lit "root");
     EditServer.authMethod := lit "key";
     EditServer.password := [];
     EditServer.privateKey := [];
     EditServer.description := JStr [] |}.

(** A create form with the private-key method chosen and both secret
    inputs left empty. *)
Definition noCredentials : CreateServer.FormData :=
  {| CreateServer.name := lit "db1";
     CreateServer.hostname := lit "10.0.0.5";
     CreateServer.port := JNum (Q2Qc 22);
     CreateServer.username := lit "root";
     CreateServer.authMethod := lit "privateKey";
     CreateServer.password := [];
     CreateServer.privateKey := [];
     CreateServer.description := [] |}.

(** The case mapping on the letters A to Z, for examples. *)
Definition asciiLower (s : jsstring) : jsstring :=
  (fun c => if ((65 <=? c) && (c <=? 90))%N then (c + 32)%N else c) <$> s.

Definition sampleConfig (id : Z) (name path : string) : XrayRConfigList.XrayRConfig :=
  {| XrayRConfigList.id := id;
     XrayRConfigList.name := lit name;
     XrayRConfigList.server_id := 1;
     XrayRConfigList.server_hostname := lit "10.0.0.5";
     XrayRConfigList.server_username := lit "root";
     XrayRConfigList.config_path := lit path;
     XrayRConfigList.parsed_config := JObj [];
     XrayRConfigList.description := [];
     XrayRConfigList.last_sync_at := [];
     XrayRConfigList.created_at := lit "2025-01-01T00:00:00";
     XrayRConfigList.updated_at := lit "2025-01-01T00:00:00" |}.

Definition sampleConfigs : list XrayRConfigList.XrayRConfig :=
  [ sampleConfig 1 "Main" "/etc/XrayR/config.yml";
    sampleConfig 2 "backup" "/etc/XrayR/backup.yml";
    sampleConfig 3 "edge" "/etc/XrayR/edge.yml" ].

(** The config list component with the form open on the given path and
    name, editing [editing] or creating when there is none. *)
Definition listState (query : string) (editing : option XrayRConfigList.XrayRConfig)
    (name path : string) : XrayRConfigList.State :=
  {| XrayRConfigList.serverId := Some 1;
     XrayRConfigList.axios := true;
     XrayRConfigList.loading := false;
     XrayRConfigList.configs := sampleConfigs;
     XrayRConfigList.searchQuery := lit query;
     XrayRConfigList.configFormVisible := true;
     XrayRConfigList.configFormRef := true;
     XrayRConfigList.editingConfig := editing;
     XrayRConfigList.configForm :=
       XrayRConfigList.mkConfigForm (lit name) (lit path) [] |}.

(** The reply to an update that renamed config 2 and moved its path: the
    three metadata fields and the new update time. *)
Definition renamedReply : XrayRConfigList.Reply :=
  {| XrayRConfigList.r_id := Some 2;
     XrayRConfigList.r_name := Some (lit "standby");
     XrayRConfigList.r_server_id := None;
     XrayRConfigList.r_server_hostname := None;
     XrayRConfigList.r_server_username := None;
     XrayRConfigList.r_config_path := Some (lit "/etc/XrayR/standby.yml");
     XrayRConfigList.r_parsed_config := None;
     XrayRConfigList.r_description := Some [];
     XrayRConfigList.r_last_sync_at := None;
     XrayRConfigList.r_created_at := None;
     XrayRConfigList.r_updated_at := Some (lit "2025-02-02T00:00:00") |}.

(** The reply of a back end that answers an update with the whole record,
    snapshot and sync time included. *)
Definition refreshedReply : XrayRConfigList.Reply :=
  {| XrayRConfigList.r_id := Some 2;
     XrayRConfigList.r_name := Some (lit "standby");
     XrayRConfigList.r_server_id := Some 1;
     XrayRConfigList.r_server_hostname := Some (lit "10.0.0.5");
     XrayRConfigList.r_server_username := Some (lit "root");
     XrayRConfigList.r_config_path := Some (lit "/etc/XrayR/standby.yml");
     XrayRConfigList.r_parsed_config :=
       Some (JObj [ (lit "PanelType", JStr (lit "SSpanel")) ]);
     XrayRConfigList.r_description := Some [];
     XrayRConfigList.r_last_sync_at := Some (lit "2025-02-02T00:00:00");
     XrayRConfigList.r_created_at := Some (lit "2025-01-01T00:00:00");
     XrayRConfigList.r_updated_at := Some (lit "2025-02-02T00:00:00") |}.

(** A stand-in parser for examples: a tab makes the document invalid,
    anything else is one scalar. *)
Definition noTabs (bytes : list N) : ConfigSyncEngine.Tree + string :=
  if existsb (N.eqb 9) bytes then inr "found a tab character"%string
  else inl (ConfigSyncEngine.Scalar bytes).

Definition neverSynced : ConfigSyncEngine.SyncedConfig :=
  ConfigSyncEngine.mkSyncedConfig 1 (lit "main") (lit "/etc/XrayR/config.yml") None None.

(** A reply of the config endpoint that carries both the file's content
    and an error. *)
Definition brokenConfigReply : Obj :=
  put "success" (JBool false)
    (put "server_info"
       (JObj [ (lit "name", JStr (lit "db1")); (lit "hostname", JStr (lit "10.0.0.5"));
               (lit "port", JNum (Q2Qc 22)) ])
       (put "config_content" (JStr (lit "key: [1, 2"))
          (put "error" (JStr (lit "could not parse the configuration")) ∅))).

Definition dialogState : ServerXrayRConfigDialog.State :=
  ServerXrayRConfigDialog.mkState (Some 1) true false None (lit "/etc/XrayR/config.yml").

(** Output as the CPU command leaves it: [cut -d":" -f2] keeps the blank
    that follows the colon of [model name : ...]. *)
Definition cpuOutput : jsstring :=
  lit "###Host:###" ++ LF ++ lit "web1" ++ LF ++ LF
  ++ lit "###CPU:###" ++ LF ++ lit " Intel Xeon".

End Samples.

(** ** Notions the further statements use *)

Module MoreStatements.
Import Js.

(** A text input is filled in and at most [bound] characters long, a
    surrogate pair counting once. *)
Definition Filled (bound : Z) (s : jsstring) : Prop :=
  s ≠ [] ∧ pairedLength s <= bound.

(** A value is such a text. *)
Definition FilledText (bound : Z) (v : JVal) : Prop :=
  ∃ s, v = JStr s ∧ Filled bound s.

(** A value is a number between 1 and 65535. *)
Definition PortNumber (v : JVal) : Prop :=
  ∃ q, v = JNum q
       ∧ (Q2Qc (inject_Z 1) <= q)%Qc ∧ (q <= Q2Qc (inject_Z 65535))%Qc.

(** What the combined command prints when it runs through: for each
    command the marker line, then the command's own output, which ends in
    a line feed; between two commands the two line feeds of [echo "\n"].
    A result is the display name and the output without its last line
    feed. *)
Definition markerLine (name : jsstring) : jsstring :=
  lit "###" ++ name ++ lit ":###".

Definition block (result : jsstring * jsstring) : jsstring :=
  markerLine (fst result) ++ LF ++ snd result.

Definition emitted (results : list (jsstring * jsstring)) : jsstring :=
  join (LF ++ LF) ((fun r => block r ++ LF) <$> results).

(** The name is on one line; the output has no empty line, does not start
    with one, and ends in a character that [trim] keeps. *)
Definition Printable (result : jsstring * jsstring) : Prop :=
  (10%N ∉ fst result)
  ∧ includes (LF ++ LF) (LF ++ snd result) = false
  ∧ ∃ body c, snd result = body ++ [c] ∧ isTrimmable c = false.

Definition isMessage (c : Calls.Call) : bool :=
  match c with Calls.Event (Ui.Message _ _) => true | _ => false end.

Definition isOutgoing (c : Calls.Call) : bool :=
  match c with
  | Calls.Event (Ui.Request _ _ _) | Calls.CheckConfigRequest _ _
  | Calls.DeleteServerRequest _ | Calls.TestConnectionRequest _ => true
  | _ => false
  end.

(** The key the parser files a result under. *)
Definition keyOf (result : jsstring * jsstring) : jsstring :=
  trim (fst result ++ lit ":").

End MoreStatements.

(** ** Further sample data *)

Module MoreSamples.
Import Js.

(** A create form filled in for password authentication. *)
Definition passwordServer : CreateServer.FormData :=
  {| CreateServer.name := lit "db1";
     CreateServer.hostname := lit "10.0.0.5";
     CreateServer.port := JNum (Q2Qc 22);
     CreateServer.username := lit "root";
     CreateServer.authMethod := lit "password";
     CreateServer.password := lit "secret";
     CreateServer.privateKey := [];
     CreateServer.description := [] |}.

(** A server record as the read side sends it: password only. *)
Definition passwordOnlyRecord : Obj :=
  put "id" (JNum (Q2Qc 1))
    (put "name" (JStr (lit "db1"))
      (put "hostname" (JStr (lit "10.0.0.5"))
        (put "port" (JNum (Q2Qc 22))
          (put "username" (JStr (lit "root"))
            (put "has_private_key" (JBool false)
              (put "has_password" (JBool true) ∅)))))).

Definition listItem (id : Z) (name path : string) : XrayRConfigListDialogs.Item :=
  {| XrayRConfigListDialogs.i_id := id;
     XrayRConfigListDialogs.i_name := lit name;
     XrayRConfigListDialogs.i_server_id := 1;
     XrayRConfigListDialogs.i_server_hostname := lit "10.0.0.5";
     XrayRConfigListDialogs.i_server_username := lit "root";
     XrayRConfigListDialogs.i_config_path := lit path;
     XrayRConfigListDialogs.i_parsed_config := JNull;
     XrayRConfigListDialogs.i_description := None;
     XrayRConfigListDialogs.i_last_sync_at := None;
     XrayRConfigListDialogs.i_created_at := lit "2025-01-01T00:00:00";
     XrayRConfigListDialogs.i_updated_at := lit "2025-01-01T00:00:00" |}.

(** The props of the server-info dialog for the spec's scenario. *)
Definition infoProps : ServerConfigDialog.Props :=
  {| ServerConfigDialog.serverId := Some 1;
     ServerConfigDialog.serverName := lit "db1";
     ServerConfigDialog.hostname := lit "10.0.0.5";
     ServerConfigDialog.port := Q2Qc 22;
     ServerConfigDialog.username := lit "root";
     ServerConfigDialog.hasPrivateKey := false;
     ServerConfigDialog.hasPassword := true;
     ServerConfigDialog.createdAt := lit "2025-01-01T00:00:00";
     ServerConfigDialog.axios := true |}.

(** Two results of the combined command. *)
Definition twoResults : list (jsstring * jsstring) :=
  [ (lit "Host", lit "web1"); (lit "CPU", lit " Intel Xeon") ].

End MoreSamples.

(** ** The monad *)

Section MonadLaws.
Import Ui.
Context {S A B C : Type}.

Lemma bind_ret_l (a : A) (k : A -> M S B) (s : S) : bind (ret a) k s = k a s.
Proof. unfold bind, ret. now destruct (k a s) as [[r s2] t2]. Qed.

Lemma bind_ret_r (m : M S A) (s : S) : bind m ret s = m s.
Proof.
  unfold bind, ret. destruct (m s) as [[[a | e] s1] t1]; [| reflexivity].
  now rewrite app_nil_r.
Qed.

Lemma bind_assoc (m : M S A) (k : A -> M S B) (h : B -> M S C) (s : S) :
  bind (bind m k) h s = bind m (fun a => bind (k a) h) s.
Proof.
  unfold bind. destruct (m s) as [[[a | e] s1] t1]; [| reflexivity].
  destruct (k a s1) as [[[b | e] s2] t2]; [| reflexivity].
  destruct (h b s2) as [[r s3] t3]. now rewrite app_assoc.
Qed.

(** A [catch] block runs only when the body throws, and a [finally] block
    always runs. *)
Lemma try_catch_returned (body : M S A) (handler : JsError -> M S A) (s s1 : S) (a : A) (t : list Event) :
  body s = (Returned a, s1, t) -> try_catch body handler s = (Returned a, s1, t).
Proof. intros E. unfold try_catch. now rewrite E. Qed.

Lemma try_finally_events (body : M S A) (cleanup : M S unit) (s : S) :
  events_of (try_finally body cleanup s)
    = events_of (body s) ++ events_of (cleanup (state_after (body s))).
Proof.
  unfold try_finally, events_of, state_after.
  destruct (body s) as [[r s1] t1]. simpl.
  now destruct (cleanup s1) as [[[[] | e] s2] t2].
Qed.

End MonadLaws.

(** ** JavaScript strings *)

Section StringFacts.
Import Js Statements.

(** The literals decode to UTF-16: ASCII, the basic plane, and beyond. *)
Example lit_code_units :
  lit "###" = [35; 35; 35]%N
  ∧ lit "配置信息" = [37197; 32622; 20449; 24687]%N
  ∧ lit "😀" = [55357; 56832]%N.
Proof. repeat split; reflexivity. Qed.

Lemma split_go_nonempty (sep : jsstring) (skip : nat) (cur s : jsstring) :
  split_go sep skip cur s ≠ [].
Proof.
  revert skip cur. induction s as [| c s IH]; intros skip cur; simpl; [discriminate |].
  destruct skip; [| apply IH]. destruct (startsWith sep (c :: s)); [discriminate | apply IH].
Qed.

Lemma join_cons (sep p : jsstring) (rest : list jsstring) :
  rest ≠ [] -> join sep (p :: rest) = p ++ sep ++ join sep rest.
Proof. destruct rest; [contradiction | reflexivity]. Qed.

Lemma startsWith_prefix (p s : jsstring) :
  startsWith p s = true ↔ ∃ rest, s = p ++ rest.
Proof.
  revert s. induction p as [| a p IH]; intros s; simpl.
  - split; [intros _; now exists s | reflexivity].
  - destruct s as [| b s].
    + split; [discriminate | intros [rest E]; discriminate E].
    + rewrite andb_true_iff, N.eqb_eq, IH. split.
      * intros [-> [rest ->]]. now exists rest.
      * intros [rest E]. injection E as -> ->. split; [reflexivity | now exists rest].
Qed.

Lemma includes_substring (q s : jsstring) :
  includes q s = true ↔ Substring q s.
Proof.
  induction s as [| c s IH].
  - simpl. rewrite orb_false_r, startsWith_prefix. split.
    + intros [rest E]. now exists [], rest.
    + intros (before & after & E). symmetry in E.
      apply app_eq_nil in E as [-> E]. exists after. now symmetry.
  - cbn [includes]. rewrite orb_true_iff, startsWith_prefix, IH. split.
    + intros [[rest E] | (before & after & E)].
      * now exists [], rest.
      * exists (c :: before), after. now rewrite E.
    + intros (before & after & E). destruct before as [| b before].
      * left. now exists after.
      * right. injection E as _ E. now exists before, after.
Qed.

#[global] Instance Substring_dec (q s : jsstring) : Decision (Substring q s).
Proof.
  destruct (includes q s) eqn:E.
  - left. now apply includes_substring.
  - right. intros H. apply includes_substring in H. congruence.
Defined.

Lemma bool_filter_is_filter {A : Type} (p : A -> bool) (P : A -> Prop)
    `{!∀ x, Decision (P x)} (l : list A) :
  (∀ x, p x = true ↔ P x) -> List.filter p l = filter P l.
Proof.
  intros Hp. induction l as [| x l IH]; [reflexivity |].
  simpl. rewrite filter_cons. destruct (decide (P x)) as [HP | HP].
  - apply Hp in HP. now rewrite HP, IH.
  - destruct (p x) eqn:E; [apply Hp in E; contradiction | exact IH].
Qed.


(** Passing over the rest of a separator. *)
Lemma split_go_skip (sep : jsstring) (cur t s : jsstring) :
  split_go sep (length t) cur (t ++ s) = split_go sep 0 cur s.
Proof.
  induction t as [| c t IH]; [reflexivity |]. simpl. exact IH.
Qed.

(** Joining the pieces of a split with the separator gives the string
    back. *)
Lemma join_split_go (sep : jsstring) (n : nat) :
  sep ≠ [] ->
  ∀ (s cur : jsstring), (length s <= n)%nat ->
    join sep (split_go sep 0 cur s) = cur ++ s.
Proof.
  intros Hsep. induction n as [| n IH]; intros s cur Hlen.
  - destruct s; [| simpl in Hlen; lia]. simpl. now rewrite app_nil_r.
  - destruct s as [| c s]; [simpl; now rewrite app_nil_r |].
    cbn [split_go]. destruct (startsWith sep (c :: s)) eqn:Estart.
    + apply startsWith_prefix in Estart as [rest Erest].
      destruct sep as [| d sep]; [contradiction |].
      injection Erest as -> ->.
      rewrite join_cons by apply split_go_nonempty.
      replace (length (d :: sep) - 1)%nat with (length sep) by (simpl; lia).
      rewrite split_go_skip.
      rewrite IH.
      * reflexivity.
      * simpl in Hlen. rewrite length_app in Hlen. lia.
    + rewrite IH by (simpl in Hlen; lia). now rewrite <- app_assoc.
Qed.

Lemma join_split (sep s : jsstring) : sep ≠ [] -> join sep (split sep s) = s.
Proof. intros Hsep. now apply (join_split_go sep (length s) Hsep s []). Qed.

End StringFacts.

(** ** EditServer: the auth method shown for a record (C8) *)

Section EditServerAuthMethod.
Import Js Ui EditServer Samples.

Lemma deriveAuthMethod_flags (server : Obj) (k p : bool) :
  get server "has_private_key" = JBool k ->
  get server "has_password" = JBool p ->
  deriveAuthMethod server =
    if k then (if p then lit "both" else lit "key") else lit "password".
Proof.
  intros Hk Hp. unfold deriveAuthMethod. rewrite Hk, Hp. simpl.
  destruct k, p; reflexivity.
Qed.

(** C8. For a server record whose two read-side flags are the booleans
    [k] (has_private_key) and [p] (has_password), [loadServerInfo] on a
    successful GET returns normally, emits no cancel, and leaves the form's
    auth method at 'both' when [k] and [p], at 'key' when [k] only, and at
    'password' whenever [k] is false, in particular when both are false. *)
Theorem loadServerInfo_authMethod (st : State) (server : Obj) (k p : bool) :
  axios st = true ->
  serverId st ≠ 0 ->
  get server "has_private_key" = JBool k ->
  get server "has_password" = JBool p ->
  let out := loadServerInfo (Fulfilled (Some server)) st in
  result_of out = Returned tt
  ∧ events_of out = [ Request GET (ServerUrl (serverId st)) None ]
  ∧ authMethod (form (state_after out)) =
      match k, p with
      | true, true => lit "both"
      | true, false => lit "key"
      | false, _ => lit "password"
      end.
Proof.
  intros Hax Hid Hk Hp.
  unfold loadServerInfo, mbind, M_bind, bind, read. simpl.
  rewrite Hax. simpl.
  destruct (Z.eqb_spec (serverId st) 0) as [E | _]; [contradiction |].
  cbn. repeat split.
  rewrite (deriveAuthMethod_flags server k p Hk Hp).
  destruct k, p; reflexivity.
Qed.

Lemma loadServerInfo_authMethod_witness :
  let st := mkState 7 true true initialForm in
  let out := loadServerInfo (Fulfilled (Some neitherCredential)) st in
  result_of out = Returned tt
  ∧ events_of out = [ Request GET (ServerUrl 7) None ]
  ∧ authMethod (form (state_after out)) = lit "password".
Proof.
  apply (loadServerInfo_authMethod (mkState 7 true true initialForm)
           neitherCredential false false); [reflexivity | discriminate | reflexivity | reflexivity].
Defined.

End EditServerAuthMethod.

(** ** The read side: server list and edit form (C4) *)

Section ReadSide.
Import Js Ui Statements Samples.

Lemma toRow_agree (r1 r2 : Obj) :
  agreeOnNonSecret r1 r2 -> ServerManagement.toRow r1 = ServerManagement.toRow r2.
Proof.
  unfold agreeOnNonSecret, nonSecretFields. intros H.
  repeat (apply Forall_cons in H as [? H]).
  unfold ServerManagement.toRow. congruence.
Qed.

Lemma toRow_agree_all (l1 l2 : list Obj) :
  Forall2 agreeOnNonSecret l1 l2 ->
  ServerManagement.toRow <$> l1 = ServerManagement.toRow <$> l2.
Proof.
  induction 1 as [| r1 r2 l1 l2 Hr _ IH]; [reflexivity |].
  rewrite !fmap_cons. f_equal; [now apply toRow_agree | exact IH].
Qed.

Lemma fillForm_agree (r1 r2 : Obj) (f : EditServer.Form) :
  agreeOnNonSecret r1 r2 -> EditServer.fillForm r1 f = EditServer.fillForm r2 f.
Proof.
  unfold agreeOnNonSecret, nonSecretFields. intros H.
  repeat (apply Forall_cons in H as [? H]).
  unfold EditServer.fillForm, EditServer.deriveAuthMethod.
  repeat match goal with E : get r1 _ = get r2 _ |- _ => rewrite E; clear E end.
  reflexivity.
Qed.

Lemma toRow_fields (r : Obj) :
  dom (ServerManagement.toRow r) = list_to_set (lit <$> rowFields).
Proof.
  unfold ServerManagement.toRow, put. rewrite !dom_insert_L, dom_empty_L.
  reflexivity.
Qed.

Lemma loadServerInfo_keeps_secret_inputs (reply : Awaited (option Obj)) (st : EditServer.State) :
  let f := EditServer.form (state_after (EditServer.loadServerInfo reply st)) in
  EditServer.password f = EditServer.password (EditServer.form st)
  ∧ EditServer.privateKey f = EditServer.privateKey (EditServer.form st).
Proof.
  unfold EditServer.loadServerInfo, mbind, M_bind, bind, read. simpl.
  destruct (negb (EditServer.axios st) || (EditServer.serverId st =? 0)); simpl; [tauto |].
  destruct reply as [[server |] | e]; cbn; tauto.
Qed.

(** C4. The list path and the detail path read a server record through
    its non-secret fields only: when the records of two replies agree on
    id, name, hostname, port, username, has_private_key, has_password,
    description and the timestamps, whatever else (plaintext password,
    private key) the records carry, [loadServers] and [loadServerInfo] end
    in the same state with the same events; every row built has exactly the
    nine row properties; and the form's password and private-key inputs are
    left as they were. *)
Theorem read_side_ignores_secrets
    (l1 l2 : list Obj) (r1 r2 : Obj)
    (sl : ServerManagement.State) (se : EditServer.State) :
  Forall2 agreeOnNonSecret l1 l2 ->
  agreeOnNonSecret r1 r2 ->
  ServerManagement.loadServers (Fulfilled l1) sl
    = ServerManagement.loadServers (Fulfilled l2) sl
  ∧ EditServer.loadServerInfo (Fulfilled (Some r1)) se
    = EditServer.loadServerInfo (Fulfilled (Some r2)) se
  ∧ Forall (fun r => dom (ServerManagement.toRow r) = list_to_set (lit <$> rowFields)) l1
  ∧ EditServer.password (EditServer.form (state_after (EditServer.loadServerInfo (Fulfilled (Some r1)) se)))
    = EditServer.password (EditServer.form se)
  ∧ EditServer.privateKey (EditServer.form (state_after (EditServer.loadServerInfo (Fulfilled (Some r1)) se)))
    = EditServer.privateKey (EditServer.form se).
Proof.
  intros Hl Hr. repeat split.
  - unfold ServerManagement.loadServers, mbind, M_bind, bind, read. simpl.
    destruct (negb (ServerManagement.axios sl)); [reflexivity |].
    cbn. now rewrite (toRow_agree_all l1 l2 Hl).
  - unfold EditServer.loadServerInfo, mbind, M_bind, bind, read. simpl.
    destruct (negb (EditServer.axios se) || (EditServer.serverId se =? 0)); [reflexivity |].
    cbn. unfold EditServer.with_form. now rewrite (fillForm_agree r1 r2 _ Hr).
  - apply Forall_forall. intros r _. apply toRow_fields.
  - apply (loadServerInfo_keeps_secret_inputs (Fulfilled (Some r1)) se).
  - apply (loadServerInfo_keeps_secret_inputs (Fulfilled (Some r1)) se).
Qed.

Lemma read_side_ignores_secrets_witness :
  let sl := ServerManagement.mkState true false [] in
  let se := EditServer.mkState 1 true true EditServer.initialForm in
  recordWith "secret" ≠ recordWith "hunter2"
  ∧ ServerManagement.loadServers (Fulfilled [recordWith "secret"]) sl
    = ServerManagement.loadServers (Fulfilled [recordWith "hunter2"]) sl
  ∧ EditServer.loadServerInfo (Fulfilled (Some (recordWith "secret"))) se
    = EditServer.loadServerInfo (Fulfilled (Some (recordWith "hunter2"))) se.
Proof.
  intros sl se.
  assert (Hagree : agreeOnNonSecret (recordWith "secret") (recordWith "hunter2"))
    by (repeat constructor).
  assert (Hall : Forall2 agreeOnNonSecret [recordWith "secret"] [recordWith "hunter2"])
    by (constructor; [exact Hagree | constructor]).
  split.
  - intros E. apply (f_equal (fun r => get r "password")) in E. vm_compute in E. discriminate E.
  - pose proof (read_side_ignores_secrets
                  [recordWith "secret"] [recordWith "hunter2"]
                  (recordWith "secret") (recordWith "hunter2") sl se
                  Hall Hagree) as (H1 & H2 & _).
    split; [exact H1 | exact H2].
Defined.

End ReadSide.

(** ** EditServer: what the update request says about the secrets (C2) *)

Section EditServerSubmit.
Import Js Ui Validator EditServer Samples.

Lemma handleSubmit_valid (st : State) (reply : Awaited JVal) :
  axios st = true ->
  formRef st = true ->
  invalidFields rules (mountedItems (form st)) (model (form st)) = [] ->
  requests (handleSubmit reply st)
    = [ Request PUT (ServerUrl (serverId st)) (Some (requestData (form st))) ].
Proof.
  intros Hax Href Hvalid.
  unfold handleSubmit, mbind, M_bind, bind, read. simpl.
  rewrite Hax, Href. simpl.
  remember (requestData (form st)) as body.
  unfold try_catch, validate. rewrite Hvalid.
  destruct reply; reflexivity.
Qed.

Ltac decide_methods f :=
  unfold usesPassword, usesKey, requestData in *;
  destruct (bool_decide (authMethod f = lit "password"));
  destruct (bool_decide (authMethod f = lit "both"));
  destruct (bool_decide (authMethod f = lit "key"));
  simpl in *; try discriminate.

Lemma requestData_password_omitted (f : Form) :
  usesPassword (authMethod f) = true -> password f = [] ->
  requestData f !! lit "password" = None.
Proof.
  intros Hm Hp. decide_methods f; rewrite Hp; simpl;
    destruct (privateKey f); reflexivity.
Qed.

Lemma requestData_password_cleared (f : Form) :
  usesPassword (authMethod f) = false ->
  requestData f !! lit "password" = Some JNull.
Proof.
  intros Hm. decide_methods f;
    destruct (password f); destruct (privateKey f); reflexivity.
Qed.

Lemma requestData_key_omitted (f : Form) :
  usesKey (authMethod f) = true -> privateKey f = [] ->
  requestData f !! lit "private_key" = None.
Proof.
  intros Hm Hp. decide_methods f; rewrite Hp; simpl;
    destruct (password f); reflexivity.
Qed.

Lemma requestData_key_cleared (f : Form) :
  usesKey (authMethod f) = false ->
  requestData f !! lit "private_key" = Some JNull.
Proof.
  intros Hm. decide_methods f;
    destruct (password f); destruct (privateKey f); reflexivity.
Qed.

(** C2. When an edit submission passes validation, exactly one request
    goes out, the PUT with [requestData]; in that body the password key is
    absent when the auth method includes the password and the input is
    empty, and is [null] when the auth method excludes the password; the
    private_key key is absent when the method includes the key and the input
    is empty, and is [null] when the method excludes the key. *)
Theorem edit_submit_secrets (st : State) (reply : Awaited JVal) :
  axios st = true ->
  formRef st = true ->
  invalidFields rules (mountedItems (form st)) (model (form st)) = [] ->
  let f := form st in
  let body := requestData f in
  requests (handleSubmit reply st) = [ Request PUT (ServerUrl (serverId st)) (Some body) ]
  ∧ (usesPassword (authMethod f) = true -> password f = [] -> body !! lit "password" = None)
  ∧ (usesPassword (authMethod f) = false -> body !! lit "password" = Some JNull)
  ∧ (usesKey (authMethod f) = true -> privateKey f = [] -> body !! lit "private_key" = None)
  ∧ (usesKey (authMethod f) = false -> body !! lit "private_key" = Some JNull).
Proof.
  intros Hax Href Hvalid f body. split; [now apply handleSubmit_valid |].
  split; [apply requestData_password_omitted |].
  split; [apply requestData_password_cleared |].
  split; [apply requestData_key_omitted | apply requestData_key_cleared].
Qed.

Lemma edit_submit_secrets_witness :
  let st := mkState 3 true true keyOnlyEdit in
  requests (handleSubmit (Fulfilled JNull) st)
    = [ Request PUT (ServerUrl 3) (Some (requestData keyOnlyEdit)) ]
  ∧ requestData keyOnlyEdit !! lit "password" = Some JNull
  ∧ requestData keyOnlyEdit !! lit "private_key" = None.
Proof.
  intros st.
  destruct (edit_submit_secrets st (Fulfilled JNull) eq_refl eq_refl eq_refl)
    as (Hreq & _ & Hpw & Hkey & _).
  split; [exact Hreq |].
  split; [apply Hpw; reflexivity | apply Hkey; reflexivity].
Defined.

End EditServerSubmit.

(** ** CreateServer: submitting without any credential (C1) *)

Section CreateServerSubmit.
Import Js Ui Validator CreateServer Samples.

(** The rules as they stand after setup: the password is required, the
    private key is not, whatever auth method is selected later. *)
Lemma formRules_frozen :
  rulesFor formRules "password" = [ requiredRule true "请输入SSH密码" ]
  ∧ rulesFor formRules "privateKey" = [ requiredRule false "请输入SSH私钥" ].
Proof. split; reflexivity. Qed.

(** While the password item is mounted (methods 'password' and 'both'), an
    empty password fails validation and nothing is sent. *)
Lemma handleSubmit_password_required (st : State) (reply : Awaited JVal) :
  usesPassword (authMethod (formData st)) = true ->
  password (formData st) = [] ->
  requests (handleSubmit reply st) = [].
Proof.
  intros Hm Hp.
  unfold handleSubmit, mbind, M_bind, bind, read. simpl.
  destruct (negb (formRef st) || negb (axios st)); [reflexivity |].
  assert (Hin : In "password"%string
                  (invalidFields formRules (mountedItems (formData st)) (model (formData st)))).
  { unfold invalidFields. apply filter_In. split.
    - unfold mountedItems. rewrite Hm. simpl. tauto.
    - unfold fieldValid, model. simpl. now rewrite Hp. }
  unfold try_catch, validate.
  destruct (invalidFields formRules (mountedItems (formData st)) (model (formData st)));
    [destruct Hin | reflexivity].
Qed.

(** C1 (the code at the failing input). With the private-key method
    selected and both the password and the private-key inputs empty, the
    form validates, and [handleSubmit] posts a create request whose password
    and privateKey are both [undefined]. *)
Theorem create_submit_without_credentials :
  let out := handleSubmit (Fulfilled JNull) (mkState true true noCredentials) in
  password noCredentials = [] ∧ privateKey noCredentials = []
  ∧ invalidFields formRules (mountedItems noCredentials) (model noCredentials) = []
  ∧ requests out = [ Request POST ServersUrl (Some (requestData noCredentials)) ]
  ∧ get (requestData noCredentials) "password" = JUndefined
  ∧ get (requestData noCredentials) "privateKey" = JUndefined.
Proof. vm_compute. repeat split; reflexivity. Qed.

End CreateServerSubmit.

(** ** XrayRConfigList: the config path rule (C3) *)

Section ConfigPathRule.
Import Js Ui Validator XrayRConfigList Samples.

Lemma configPathPattern_shape (v : jsstring) :
  configPathPattern v = true
  ↔ ∃ c rest, v = 47%N :: c :: rest ∧ isLineTerminator c = false.
Proof.
  split.
  - destruct v as [| a [| c rest]]; simpl; try discriminate.
    intros H. apply andb_true_iff in H as [Ha Hc].
    apply N.eqb_eq in Ha as ->. exists c, rest.
    split; [reflexivity |]. now apply negb_true_iff.
  - intros (c & rest & -> & Hc). simpl. now rewrite Hc.
Qed.

Lemma configPathPattern_needs_slash (v : jsstring) :
  startsWith (lit "/") v = false -> configPathPattern v = false.
Proof.
  intros H. destruct (configPathPattern v) eqn:E; [| reflexivity].
  apply configPathPattern_shape in E as (c & rest & -> & _). discriminate H.
Qed.

Lemma config_path_valid_iff_pattern (f : ConfigForm) :
  fieldValid configFormRules (model f) "config_path"
    = configPathPattern (form_config_path f).
Proof.
  unfold fieldValid, model. simpl.
  destruct (form_config_path f) as [| a rest]; [reflexivity |].
  unfold passes. simpl. now rewrite andb_true_r.
Qed.

Lemma config_path_invalid_blocks (st : State) (putReply : Awaited Reply) (postReply : Awaited XrayRConfig) :
  fieldValid configFormRules (model (configForm st)) "config_path" = false ->
  let out := submitConfigForm putReply postReply st in
  events_of out = [] ∧ state_after out = st.
Proof.
  intros Hbad.
  unfold submitConfigForm, withServer, mbind, M_bind, bind, read. simpl.
  destruct (serverId st) as [sid |]; [| split; reflexivity].
  destruct (negb (axios st) || (sid =? 0)); [split; reflexivity |].
  simpl. destruct (configFormRef st); [| split; reflexivity].
  assert (Hin : In "config_path"%string
                  (invalidFields configFormRules mountedItems (model (configForm st)))).
  { unfold invalidFields. apply filter_In. split; [simpl; tauto |]. now rewrite Hbad. }
  unfold validate.
  destruct (invalidFields configFormRules mountedItems (model (configForm st)));
    [destruct Hin | split; reflexivity].
Qed.

(** C3 as stated fails at the path [/]: it starts with a slash, yet the
    rule rejects it and the submit sends nothing. *)
Lemma slash_alone_rejected :
  let st := listState "" None "main" "/" in
  startsWith (lit "/") (form_config_path (configForm st)) = true
  ∧ fieldValid configFormRules (model (configForm st)) "config_path" = false
  ∧ fieldError configFormRules (model (configForm st)) "config_path"
    = Some "配置路径必须以斜杠(/)开头"%string
  ∧ requests (submitConfigForm (Rejected Cancelled) (Fulfilled (sampleConfig 9 "main" "/")) st) = [].
Proof. vm_compute. repeat split; reflexivity. Qed.

(** The message of a rejected path: that of the required rule for the
    empty path, that of the pattern rule for every other one. *)
Lemma config_path_rejected_message (f : ConfigForm) :
  configPathPattern (form_config_path f) = false ->
  fieldError configFormRules (model f) "config_path"
  = Some (match form_config_path f with
          | [] => "请输入配置文件路径"
          | _ => "配置路径必须以斜杠(/)开头"
          end)%string.
Proof.
  intros Hbad. unfold fieldError, model. simpl.
  destruct (form_config_path f) as [| a rest]; [reflexivity |].
  unfold passes. simpl. cbv [matchesPattern patternRule pattern].
  now rewrite Hbad.
Qed.

(** C3, amended. The config path item accepts [v] exactly when [v] is a
    slash followed by at least one more character, the first of which is not
    a line terminator.  Every [v] that does not start with a slash is
    rejected.  Every [v] the item rejects, whether it lacks the slash, is
    the slash alone or has a line terminator behind the slash, is rejected
    with a message: that of the required rule when [v] is empty, that of
    the pattern rule otherwise; and whenever the item rejects, the submit
    logs no event (so sends no request) and leaves the component as it
    was. *)
Theorem config_path_rule (st : State) (putReply : Awaited Reply) (postReply : Awaited XrayRConfig) :
  let v := form_config_path (configForm st) in
  let accepted := fieldValid configFormRules (model (configForm st)) "config_path" in
  (accepted = true ↔ ∃ c rest, v = 47%N :: c :: rest ∧ isLineTerminator c = false)
  ∧ (startsWith (lit "/") v = false ->
       accepted = false
       ∧ is_Some (fieldError configFormRules (model (configForm st)) "config_path"))
  ∧ (accepted = false ->
       fieldError configFormRules (model (configForm st)) "config_path"
       = Some (match v with
               | [] => "请输入配置文件路径"
               | _ => "配置路径必须以斜杠(/)开头"
               end)%string)
  ∧ (accepted = false ->
       events_of (submitConfigForm putReply postReply st) = []
       ∧ state_after (submitConfigForm putReply postReply st) = st).
Proof.
  intros v accepted. subst v accepted.
  rewrite config_path_valid_iff_pattern.
  split; [apply configPathPattern_shape |]. split; [| split].
  - intros Hns. apply configPathPattern_needs_slash in Hns.
    split; [exact Hns |].
    rewrite (config_path_rejected_message _ Hns). now eexists.
  - apply config_path_rejected_message.
  - intros Hbad. apply config_path_invalid_blocks.
    now rewrite config_path_valid_iff_pattern.
Qed.

Lemma config_path_rule_witness :
  let st := listState "" None "main" "etc/XrayR/config.yml" in
  let out := submitConfigForm (Rejected Cancelled) (Fulfilled (sampleConfig 9 "main" "x")) st in
  fieldValid configFormRules (model (configForm st)) "config_path" = false
  ∧ fieldError configFormRules (model (configForm st)) "config_path"
    = Some "配置路径必须以斜杠(/)开头"%string
  ∧ events_of out = [] ∧ state_after out = st.
Proof.
  intros st out.
  destruct (config_path_rule st (Rejected Cancelled) (Fulfilled (sampleConfig 9 "main" "x")))
    as (_ & Hslash & Hmessage & Hblock).
  destruct (Hslash eq_refl) as [Hrej _].
  split; [exact Hrej |]. split; [exact (Hmessage Hrej) | exact (Hblock Hrej)].
Defined.

End ConfigPathRule.

(** ** XrayRConfigList: the search filter (C9) *)

Section SearchFilter.
Import Js Ui XrayRConfigList Statements Samples.

Variable toLowerCase : jsstring -> jsstring.

(** C9. With an empty query [filteredConfigs] is the config list itself.
    With a non-empty query it is the list filtered, in order, by "the
    lowercased query occurs in the lowercased name or in the lowercased
    description": it is a sublist of the config list, and a config is in it
    exactly when it is in the list and matches. *)
Theorem filteredConfigs_spec (st : State) :
  (searchQuery st = [] -> filteredConfigs toLowerCase st = configs st)
  ∧ (searchQuery st ≠ [] ->
       filteredConfigs toLowerCase st = filter (Matches toLowerCase (searchQuery st)) (configs st)
       ∧ sublist (filteredConfigs toLowerCase st) (configs st)
       ∧ ∀ c, c ∈ filteredConfigs toLowerCase st
              ↔ c ∈ configs st ∧ Matches toLowerCase (searchQuery st) c).
Proof.
  split.
  - intros E. unfold filteredConfigs. now rewrite E.
  - intros Hq.
    assert (E : filteredConfigs toLowerCase st
                = filter (Matches toLowerCase (searchQuery st)) (configs st)).
    { unfold filteredConfigs. destruct (searchQuery st) as [| c q] eqn:Eq; [contradiction |].
      apply bool_filter_is_filter. intros x. unfold Matches.
      now rewrite orb_true_iff, !includes_substring. }
    rewrite E. split; [reflexivity |]. split.
    + apply sublist_filter.
    + intros c. rewrite list_elem_of_filter. tauto.
Qed.

End SearchFilter.

Lemma filteredConfigs_spec_witness :
  let st := Samples.listState "MAIN" None "" "" in
  Samples.sampleConfig 1 "Main" "/etc/XrayR/config.yml"
    ∈ XrayRConfigList.filteredConfigs Samples.asciiLower st
  ∧ XrayRConfigList.filteredConfigs Samples.asciiLower (Samples.listState "" None "" "")
    = Samples.sampleConfigs.
Proof.
  intros st. split.
  - apply (proj2 (filteredConfigs_spec Samples.asciiLower st)); [discriminate |].
    split.
    + apply list_elem_of_here.
    + left. now exists [], [].
  - apply (proj1 (filteredConfigs_spec Samples.asciiLower (Samples.listState "" None "" ""))).
    reflexivity.
Defined.

(** ** XrayRConfigList: deleting a config (C5) *)

Section DeleteConfig.
Import Js Ui XrayRConfigList Samples.

(** C5. With axios and a server id at hand, [handleDelete] of config [c]
    sends, whatever the replies, no request other than the DELETE of
    [c]'s metadata record.  When the user confirms and the DELETE succeeds,
    that DELETE is the only request and the config list becomes the old
    list without the entries whose id is [c]'s: the entries with another id
    stay, unchanged and in order.  When the user declines or the DELETE
    fails, the list is left as it was. *)
Theorem handleDelete_frame (st : State) (c : XrayRConfig) (sid : Z) (data : JVal) :
  serverId st = Some sid ->
  sid ≠ 0 ->
  axios st = true ->
  let del := Request DELETE (XrayrConfigUrl sid (id c)) None in
  let out := handleDelete c (Fulfilled tt) (Fulfilled data) st in
  (∀ confirmReply deleteReply,
      Forall (eq del) (requests (handleDelete c confirmReply deleteReply st)))
  ∧ requests out = [ del ]
  ∧ configs (state_after out) = List.filter (fun c' => negb (id c' =? id c)) (configs st)
  ∧ sublist (configs (state_after out)) (configs st)
  ∧ (∀ c', c' ∈ configs (state_after out) ↔ c' ∈ configs st ∧ id c' ≠ id c)
  ∧ (∀ e deleteReply,
        configs (state_after (handleDelete c (Rejected e) deleteReply st)) = configs st)
  ∧ (∀ e, configs (state_after (handleDelete c (Fulfilled tt) (Rejected e) st)) = configs st).
Proof.
  intros Hsid Hnz Hax del out.
  assert (Hguard : negb (axios st) || (sid =? 0) = false).
  { rewrite Hax. simpl. now apply Z.eqb_neq. }
  assert (Hrun : ∀ confirmReply deleteReply,
            handleDelete c confirmReply deleteReply st
            = match confirmReply, deleteReply with
              | Fulfilled _, Fulfilled _ =>
                  (Returned tt,
                   set_loading false
                     (set_configs (List.filter (fun c' => negb (id c' =? id c)) (configs st))
                        (set_loading true st)),
                   [ ConfirmBox (name c); del; Message success (Fixed "配置删除成功") ])
              | Fulfilled _, Rejected e =>
                  (Returned tt, set_loading false (set_loading true st),
                   ConfirmBox (name c) :: del ::
                     match e with
                     | Cancelled => []
                     | _ => [ ConsoleError "删除配置失败:";
                              Message error (errorMessage "删除配置失败" e) ]
                     end)
              | Rejected e, _ =>
                  (Returned tt, set_loading false st,
                   ConfirmBox (name c) ::
                     match e with
                     | Cancelled => []
                     | _ => [ ConsoleError "删除配置失败:";
                              Message error (errorMessage "删除配置失败" e) ]
                     end)
              end).
  { intros confirmReply deleteReply.
    unfold handleDelete, withServer, mbind, M_bind, bind, read. simpl.
    rewrite Hsid, Hguard.
    destruct confirmReply as [[] | e]; [destruct deleteReply as [d | e] |];
      try destruct e; reflexivity. }
  split.
  { intros confirmReply deleteReply. rewrite Hrun.
    destruct confirmReply as [[] | e]; [destruct deleteReply as [d | e] |];
      try destruct e; cbn; repeat constructor. }
  subst out. rewrite (Hrun (Fulfilled tt) (Fulfilled data)).
  split; [reflexivity |]. split; [reflexivity |]. cbn.
  split.
  { rewrite (bool_filter_is_filter _ (fun c' => negb (id c' =? id c) = true))
      by (intros; reflexivity).
    apply sublist_filter. }
  split.
  - intros c'. rewrite list_elem_of_In, filter_In, <- list_elem_of_In.
    rewrite negb_true_iff, Z.eqb_neq. tauto.
  - split.
    + intros e deleteReply. now rewrite (Hrun (Rejected e) deleteReply).
    + intros e. now rewrite (Hrun (Fulfilled tt) (Rejected e)).
Qed.

Lemma handleDelete_frame_witness :
  let st := listState "" None "" "" in
  let out := handleDelete (sampleConfig 2 "backup" "/etc/XrayR/backup.yml")
               (Fulfilled tt) (Fulfilled JNull) st in
  requests out = [ Request DELETE (XrayrConfigUrl 1 2) None ]
  ∧ configs (state_after out)
    = [ sampleConfig 1 "Main" "/etc/XrayR/config.yml";
        sampleConfig 3 "edge" "/etc/XrayR/edge.yml" ].
Proof.
  intros st out.
  destruct (handleDelete_frame st (sampleConfig 2 "backup" "/etc/XrayR/backup.yml")
              1 JNull eq_refl ltac:(discriminate) eq_refl)
    as (_ & Hreq & Hlist & _).
  split; [exact Hreq | exact Hlist].
Defined.

End DeleteConfig.

(** ** XrayRConfigList: updating a config's metadata (C6) *)

Section UpdateConfig.
Import Js Ui Validator XrayRConfigList Statements Samples.

Lemma findIndex_Some (p : XrayRConfig -> bool) (l : list XrayRConfig) (i : nat) :
  findIndex p l = Some i ->
  ∃ x, l !! i = Some x ∧ p x = true.
Proof.
  revert i. induction l as [| c l IH]; intros i; simpl; [discriminate |].
  destruct (p c) eqn:E.
  - intros [= <-]. now exists c.
  - destruct (findIndex p l) as [j |]; simpl; [| discriminate].
    intros [= <-]. now apply IH.
Qed.

(** The merge changes the first entry with the edited id, and only it. *)
Lemma mergeUpdated_lookup (editing : XrayRConfig) (data : Reply) (l : list XrayRConfig)
    (i : nat) (old : XrayRConfig) :
  l !! i = Some old ->
  mergeUpdated editing data l !! i
    = Some (if bool_decide (findIndex (fun c => id c =? id editing) l = Some i)
            then spread old data else old).
Proof.
  intros Hold. unfold mergeUpdated.
  destruct (findIndex (fun c => id c =? id editing) l) as [j |] eqn:Hfind.
  - destruct (findIndex_Some _ _ _ Hfind) as (x & Hx & _). rewrite Hx.
    destruct (decide (j = i)) as [-> | Hne].
    + rewrite bool_decide_eq_true_2 by reflexivity.
      rewrite list_lookup_insert_eq by (now apply lookup_lt_Some with old).
      congruence.
    + rewrite bool_decide_eq_false_2 by congruence.
      now rewrite list_lookup_insert_ne.
  - now rewrite bool_decide_eq_false_2 by discriminate.
Qed.

Lemma mergeUpdated_other (editing : XrayRConfig) (data : Reply) (l : list XrayRConfig)
    (i : nat) (old : XrayRConfig) :
  l !! i = Some old -> id old ≠ id editing ->
  mergeUpdated editing data l !! i = Some old.
Proof.
  intros Hold Hid. rewrite (mergeUpdated_lookup _ _ _ _ _ Hold).
  rewrite bool_decide_eq_false_2; [reflexivity |].
  intros Hfind. destruct (findIndex_Some _ _ _ Hfind) as (x & Hx & Hp).
  rewrite Hold in Hx. injection Hx as <-. now apply Z.eqb_eq in Hp.
Qed.

Lemma mergeUpdated_length (editing : XrayRConfig) (data : Reply) (l : list XrayRConfig) :
  length (mergeUpdated editing data l) = length l.
Proof.
  unfold mergeUpdated.
  destruct (findIndex _ l) as [j |]; [| reflexivity].
  destruct (l !! j); [apply length_insert | reflexivity].
Qed.

(** The first entry the predicate holds of is the one [findIndex] finds. *)
Lemma findIndex_first (p : XrayRConfig -> bool) (l : list XrayRConfig) (i : nat) (x : XrayRConfig) :
  l !! i = Some x -> p x = true ->
  (∀ j y, (j < i)%nat -> l !! j = Some y -> p y = false) ->
  findIndex p l = Some i.
Proof.
  revert i. induction l as [| c l IH]; intros i Hx Hp Hfirst; [discriminate Hx |].
  destruct i as [| i]; simpl in *.
  - injection Hx as ->. now rewrite Hp.
  - rewrite (Hfirst 0%nat c ltac:(lia) eq_refl). simpl.
    rewrite (IH i Hx Hp); [reflexivity |].
    intros j y Hj Hy. apply (Hfirst (S j) y); [lia | exact Hy].
Qed.

Lemma findIndex_earlier (p : XrayRConfig -> bool) (l : list XrayRConfig) (i j : nat) (y : XrayRConfig) :
  findIndex p l = Some i -> l !! j = Some y -> p y = true -> (i <= j)%nat.
Proof.
  revert i j. induction l as [| c l IH]; intros i j Hfind Hy Hp; [discriminate Hy |].
  simpl in Hfind. destruct (p c) eqn:E.
  - injection Hfind as <-. lia.
  - destruct (findIndex p l) as [k |] eqn:Ek; simpl in Hfind; [| discriminate Hfind].
    injection Hfind as <-.
    destruct j as [| j]; simpl in Hy.
    + injection Hy as ->. congruence.
    + specialize (IH k j eq_refl Hy Hp). lia.
Qed.

(** The body of both requests holds the three fields of the form and
    nothing else. *)
Lemma formBody_carries (f : ConfigForm) : CarriesForm (formBody f) f.
Proof.
  unfold CarriesForm, formBody, put.
  split; [apply lookup_insert_eq |].
  split; [rewrite lookup_insert_ne by discriminate; apply lookup_insert_eq |].
  split; [rewrite !lookup_insert_ne by discriminate; apply lookup_insert_eq |].
  intros k H1 H2 H3. rewrite !lookup_insert_ne by congruence. apply lookup_empty.
Qed.

(** The spread takes from the reply what the reply carries. *)
Lemma spread_merges (old : XrayRConfig) (data : Reply) : MergedWith old data (spread old data).
Proof.
  unfold MergedWith, spread. simpl. repeat split.
Qed.

(** C6 as stated fails when the back end answers the update with the
    whole record: the entry's parsed snapshot and last-sync time become the
    ones of the reply. *)
Lemma update_takes_snapshot_from_reply :
  let editing := sampleConfig 2 "backup" "/etc/XrayR/backup.yml" in
  let st := listState "" (Some editing) "standby" "/etc/XrayR/standby.yml" in
  let out := submitConfigForm (Fulfilled refreshedReply) (Rejected Cancelled) st in
  configs st !! 1%nat = Some editing
  ∧ result_of out = Returned tt
  ∧ ∃ new, configs (state_after out) !! 1%nat = Some new
           ∧ parsed_config new = JObj [ (lit "PanelType", JStr (lit "SSpanel")) ]
           ∧ parsed_config new ≠ parsed_config editing
           ∧ last_sync_at new = lit "2025-02-02T00:00:00"
           ∧ last_sync_at new ≠ last_sync_at editing.
Proof.
  intros editing st out.
  split; [reflexivity |]. split; [vm_compute; reflexivity |].
  eexists. split; [vm_compute; reflexivity |].
  simpl. repeat split; discriminate.
Qed.

(** C6, amended. A valid submit while a config is under edit, answered
    successfully, sends exactly one request, the PUT to that config's
    record, whose body holds the name, the path and the description of the
    form and nothing else; nothing goes to the endpoint that reads the
    remote file.  The list keeps its length.  The first entry with the
    edited id becomes the merge of the old entry and the reply: every
    property the reply carries is taken from the reply, every other one
    from the old entry.  Every other entry, also a later one with the same
    id, is unchanged.  So the parsed snapshot and the last-sync time of an
    entry after the update are the old ones or the ones the reply carries:
    when the reply carries neither, no entry's [parsed_config] or
    [last_sync_at] changes, also when the path was edited. *)
Theorem update_sends_only_put (st : State) (editing : XrayRConfig) (sid : Z)
    (data : Reply) (postReply : Awaited XrayRConfig) :
  serverId st = Some sid ->
  sid ≠ 0 ->
  axios st = true ->
  configFormRef st = true ->
  invalidFields configFormRules mountedItems (model (configForm st)) = [] ->
  editingConfig st = Some editing ->
  let out := submitConfigForm (Fulfilled data) postReply st in
  let after := configs (state_after out) in
  (∃ body, requests out = [ Request PUT (XrayrConfigUrl sid (id editing)) (Some body) ]
           ∧ CarriesForm body (configForm st))
  ∧ length after = length (configs st)
  ∧ (∀ i old, configs st !! i = Some old -> id old = id editing ->
       (∀ j other, (j < i)%nat -> configs st !! j = Some other -> id other ≠ id editing) ->
       ∃ new, after !! i = Some new ∧ MergedWith old data new)
  ∧ (∀ i old, configs st !! i = Some old -> id old ≠ id editing -> after !! i = Some old)
  ∧ (∀ i j old other, (j < i)%nat -> configs st !! j = Some other -> id other = id editing ->
       configs st !! i = Some old -> after !! i = Some old)
  ∧ (∀ i old, configs st !! i = Some old ->
       ∃ new, after !! i = Some new
              ∧ (parsed_config new = parsed_config old
                 ∨ r_parsed_config data = Some (parsed_config new))
              ∧ (last_sync_at new = last_sync_at old
                 ∨ r_last_sync_at data = Some (last_sync_at new)))
  ∧ (r_parsed_config data = None -> r_last_sync_at data = None ->
     ∀ i old, configs st !! i = Some old ->
       ∃ new, after !! i = Some new
              ∧ parsed_config new = parsed_config old
              ∧ last_sync_at new = last_sync_at old).
Proof.
  intros Hsid Hnz Hax Href Hvalid Hedit out after.
  assert (Hguard : negb (axios st) || (sid =? 0) = false).
  { rewrite Hax. simpl. now apply Z.eqb_neq. }
  assert (Hrun : out
            = (Returned tt,
               set_loading false
                 (set_configFormVisible false
                    (set_configs (mergeUpdated editing data (configs st))
                       (set_loading true st))),
               [ Request PUT (XrayrConfigUrl sid (id editing)) (Some (formBody (configForm st)));
                 Message success (Fixed "配置更新成功") ])).
  { subst out.
    unfold submitConfigForm, withServer, mbind, M_bind, bind, read. simpl.
    rewrite Hsid, Hguard. simpl. rewrite Href. unfold validate. rewrite Hvalid.
    simpl. rewrite Hedit. reflexivity. }
  subst after. rewrite Hrun. cbn.
  split; [eexists; split; [reflexivity | apply formBody_carries] |].
  split; [apply mergeUpdated_length |].
  split.
  { intros i old Hold Hid Hfirst.
    rewrite (mergeUpdated_lookup _ _ _ _ _ Hold).
    rewrite bool_decide_eq_true_2.
    - eexists. split; [reflexivity | apply spread_merges].
    - apply (findIndex_first _ _ _ old Hold); [now apply Z.eqb_eq |].
      intros j y Hj Hy. apply Z.eqb_neq. now apply (Hfirst j y). }
  split; [intros i old; apply mergeUpdated_other |].
  split.
  { intros i j old other Hj Hother Hid Hold.
    rewrite (mergeUpdated_lookup _ _ _ _ _ Hold).
    rewrite bool_decide_eq_false_2; [reflexivity |].
    intros Hfind.
    pose proof (findIndex_earlier _ _ _ _ _ Hfind Hother) as Hle.
    rewrite Z.eqb_eq in Hle. specialize (Hle Hid). lia. }
  split.
  { intros i old Hold.
    rewrite (mergeUpdated_lookup _ _ _ _ _ Hold).
    eexists. split; [reflexivity |].
    destruct (bool_decide _); [| split; now left].
    unfold spread. simpl.
    destruct (r_parsed_config data), (r_last_sync_at data); simpl; split; auto. }
  intros Hsnap Hsync i old Hold.
  rewrite (mergeUpdated_lookup _ _ _ _ _ Hold).
  eexists. split; [reflexivity |].
  destruct (bool_decide _); [| split; reflexivity].
  unfold spread. simpl. rewrite Hsnap, Hsync. split; reflexivity.
Qed.

Lemma update_sends_only_put_witness :
  let editing := sampleConfig 2 "backup" "/etc/XrayR/backup.yml" in
  let st := listState "" (Some editing) "standby" "/etc/XrayR/standby.yml" in
  let out := submitConfigForm (Fulfilled renamedReply) (Rejected Cancelled) st in
  config_path editing ≠ form_config_path (configForm st)
  ∧ (∃ body, requests out = [ Request PUT (XrayrConfigUrl 1 2) (Some body) ]
             ∧ body !! lit "config_path" = Some (JStr (lit "/etc/XrayR/standby.yml")))
  ∧ configs (state_after out) !! 0%nat = Some (sampleConfig 1 "Main" "/etc/XrayR/config.yml")
  ∧ ∃ new, configs (state_after out) !! 1%nat = Some new
           ∧ config_path new = lit "/etc/XrayR/standby.yml"
           ∧ parsed_config new = parsed_config editing
           ∧ last_sync_at new = last_sync_at editing.
Proof.
  intros editing st out.
  destruct (update_sends_only_put st editing 1 renamedReply (Rejected Cancelled)
              eq_refl ltac:(discriminate) eq_refl eq_refl eq_refl eq_refl)
    as ((body & Hreq & _ & Hpath & _) & _ & Hmerge & Hother & _ & _ & Hkeep).
  split; [discriminate |].
  split; [exists body; split; [exact Hreq | rewrite Hpath; vm_compute; reflexivity] |].
  split.
  - apply (Hother 0%nat (sampleConfig 1 "Main" "/etc/XrayR/config.yml")); [reflexivity | discriminate].
  - destruct (Hmerge 1%nat editing eq_refl eq_refl) as (new & Hnew & Hm).
    { intros j other Hj Hother'. destruct j as [| j]; [| lia].
      injection Hother' as <-. discriminate. }
    destruct (Hkeep eq_refl eq_refl 1%nat editing eq_refl) as (new' & Hnew' & Hsnap & Hsync).
    fold out in Hnew, Hnew'. rewrite Hnew in Hnew'. injection Hnew' as <-.
    exists new. split; [exact Hnew |].
    destruct Hm as (_ & _ & _ & _ & _ & Hp & _).
    split; [rewrite Hp; vm_compute; reflexivity |]. split; [exact Hsnap | exact Hsync].
Defined.

End UpdateConfig.

(** ** Fetching a document that does not parse (C7) *)

Section FetchInvalid.
Import Js Ui Samples.

(** The config dialog keeps whatever the endpoint replied.  When the
    reply carries its [server_info], the content and the error are shown
    as separate items. *)
Lemma dialog_shows_content_and_error (st : ServerXrayRConfigDialog.State) (sid : Z) (data : Obj) :
  ServerXrayRConfigDialog.serverId st = Some sid ->
  sid ≠ 0 ->
  ServerXrayRConfigDialog.axios st = true ->
  get data "server_info" ≠ JUndefined ->
  get data "server_info" ≠ JNull ->
  truthy (get data "config_content") = true ->
  truthy (get data "error") = true ->
  let out := ServerXrayRConfigDialog.fetchConfigData (Fulfilled (Some data)) st in
  ServerXrayRConfigDialog.configData (state_after out) = Some data
  ∧ ∃ items, ServerXrayRConfigDialog.render (state_after out) = ServerXrayRConfigDialog.Panel items
             ∧ In (ServerXrayRConfigDialog.ConfigContent (get data "config_content")) items
             ∧ In (ServerXrayRConfigDialog.ErrorMessage (get data "error")) items.
Proof.
  intros Hsid Hnz Hax Hundef Hnull Hcontent Herr.
  unfold ServerXrayRConfigDialog.fetchConfigData, mbind, M_bind, bind, read. simpl.
  rewrite Hsid, Hax. simpl.
  destruct (Z.eqb_spec sid 0) as [E | _]; [contradiction |].
  cbn. destruct (truthy (get data "success")); cbn.
  all: split; [reflexivity |].
  all: unfold ServerXrayRConfigDialog.render; cbn; rewrite Hcontent, Herr.
  all: destruct (get data "server_info"); try contradiction.
  all: destruct (truthy (get data "parsed_config")).
  all: eexists; split; [reflexivity |]; simpl; auto 10.
Qed.

(** Without [server_info] in the reply the template cannot be rendered:
    its first item reads [configData.server_info.name]. *)
Lemma dialog_needs_server_info (st : ServerXrayRConfigDialog.State) (sid : Z) (data : Obj) :
  ServerXrayRConfigDialog.serverId st = Some sid ->
  sid ≠ 0 ->
  ServerXrayRConfigDialog.axios st = true ->
  get data "server_info" = JUndefined ∨ get data "server_info" = JNull ->
  ServerXrayRConfigDialog.render
    (state_after (ServerXrayRConfigDialog.fetchConfigData (Fulfilled (Some data)) st))
  = ServerXrayRConfigDialog.RenderError.
Proof.
  intros Hsid Hnz Hax Hinfo.
  unfold ServerXrayRConfigDialog.fetchConfigData, mbind, M_bind, bind, read. simpl.
  rewrite Hsid, Hax. simpl.
  destruct (Z.eqb_spec sid 0) as [E | _]; [contradiction |].
  cbn. destruct (truthy (get data "success")); cbn.
  all: unfold ServerXrayRConfigDialog.render; cbn.
  all: destruct Hinfo as [-> | ->]; reflexivity.
Qed.

(** C7. In the engine as the spec describes it: when the read command
    succeeded with [bytes] and the parser rejects them with [err], [fetch]
    does not return an error but the synced record, which is also what is
    stored; its last-sync time is the call time [now]; its snapshot is a
    document that retains [bytes] as raw content and records [err] as parse
    error, with no tree.  And in the dialog of the sources: a reply that
    carries its server info, the content and an error is kept and shown
    with the content and the error as separate items. *)
Theorem fetch_invalid_document
    (parse : list N -> ConfigSyncEngine.Tree + string) (now : Z) (bytes : list N)
    (err : string) (prev : ConfigSyncEngine.SyncedConfig)
    (st : ServerXrayRConfigDialog.State) (sid : Z) (data : Obj) :
  parse bytes = inr err ->
  ServerXrayRConfigDialog.serverId st = Some sid ->
  sid ≠ 0 ->
  ServerXrayRConfigDialog.axios st = true ->
  get data "server_info" ≠ JUndefined ->
  get data "server_info" ≠ JNull ->
  truthy (get data "config_content") = true ->
  truthy (get data "error") = true ->
  let fetched := ConfigSyncEngine.fetch parse now (inr bytes) prev in
  let out := ServerXrayRConfigDialog.fetchConfigData (Fulfilled (Some data)) st in
  fst fetched = inr (snd fetched)
  ∧ ConfigSyncEngine.last_sync (snd fetched) = Some now
  ∧ ConfigSyncEngine.snapshot (snd fetched)
    = Some (ConfigSyncEngine.mkDocument bytes None (Some err))
  ∧ ConfigSyncEngine.remote_path (snd fetched) = ConfigSyncEngine.remote_path prev
  ∧ ServerXrayRConfigDialog.configData (state_after out) = Some data
  ∧ ∃ items, ServerXrayRConfigDialog.render (state_after out) = ServerXrayRConfigDialog.Panel items
             ∧ In (ServerXrayRConfigDialog.ConfigContent (get data "config_content")) items
             ∧ In (ServerXrayRConfigDialog.ErrorMessage (get data "error")) items.
Proof.
  intros Hparse Hsid Hnz Hax Hundef Hnull Hcontent Herr fetched out.
  subst fetched. unfold ConfigSyncEngine.fetch, ConfigSyncEngine.parseDocument.
  rewrite Hparse. simpl.
  do 4 (split; [reflexivity |]).
  now apply (dialog_shows_content_and_error st sid data).
Qed.

Lemma fetch_invalid_document_witness :
  let bytes := lit "key:" ++ [9%N] ++ lit "value" in
  let fetched := ConfigSyncEngine.fetch noTabs 1700000000 (inr bytes) neverSynced in
  let out := ServerXrayRConfigDialog.fetchConfigData (Fulfilled (Some brokenConfigReply)) dialogState in
  noTabs bytes = inr "found a tab character"%string
  ∧ ConfigSyncEngine.last_sync (snd fetched) = Some 1700000000
  ∧ ConfigSyncEngine.snapshot (snd fetched)
    = Some (ConfigSyncEngine.mkDocument bytes None (Some "found a tab character"%string))
  ∧ ServerXrayRConfigDialog.configData (state_after out) = Some brokenConfigReply
  ∧ ∃ items, ServerXrayRConfigDialog.render (state_after out) = ServerXrayRConfigDialog.Panel items
             ∧ In (ServerXrayRConfigDialog.ErrorMessage (get brokenConfigReply "error")) items.
Proof.
  intros bytes fetched out.
  destruct (fetch_invalid_document noTabs 1700000000 bytes "found a tab character"
              neverSynced dialogState 1 brokenConfigReply
              eq_refl eq_refl ltac:(discriminate) eq_refl
              ltac:(discriminate) ltac:(discriminate) eq_refl eq_refl)
    as (_ & Hsync & Hsnap & _ & Hdata & items & Hview & _ & Hshown).
  split; [reflexivity |].
  split; [exact Hsync |]. split; [exact Hsnap |]. split; [exact Hdata |].
  exists items. split; [exact Hview | exact Hshown].
Defined.

End FetchInvalid.

(** ** ServerConfigDialog: parsing the command output (C10) *)

Section ParseOutput.
Import Js Ui ServerConfigDialog Statements Samples.

(** C10 as stated fails on the output of the CPU command: the value
    stored is the trimmed text, not the remaining lines as they are. *)
Lemma stored_value_is_trimmed :
  split (LF ++ LF) cpuOutput
    = [ lit "###Host:###" ++ LF ++ lit "web1"; lit "###CPU:###" ++ LF ++ lit " Intel Xeon" ]
  ∧ split LF (lit "###CPU:###" ++ LF ++ lit " Intel Xeon")
    = [ lit "###CPU:###"; lit " Intel Xeon" ]
  ∧ join LF [ lit " Intel Xeon" ] = lit " Intel Xeon"
  ∧ statedConfigs cpuOutput !! lit "CPU:" = Some (lit " Intel Xeon")
  ∧ parsedConfigs cpuOutput !! lit "CPU:" = Some (lit "Intel Xeon")
  ∧ parsedConfigs cpuOutput ≠ statedConfigs cpuOutput.
Proof.
  do 5 (split; [vm_compute; reflexivity |]).
  intros E. apply (f_equal (fun m => m !! lit "CPU:")) in E.
  vm_compute in E. discriminate E.
Qed.


Lemma Contributes_functional (s n1 v1 n2 v2 : jsstring) :
  Contributes s n1 v1 -> Contributes s n2 v2 -> n1 = n2 ∧ v1 = v2.
Proof.
  intros (l1 & r1 & E1 & _ & -> & -> & _) (l2 & r2 & E2 & _ & -> & -> & _).
  rewrite E1 in E2. injection E2 as -> ->. split; reflexivity.
Qed.

(** One step of the [forEach]: the section contributes an entry, which is
    assigned, or it contributes nothing and the object is left alone. *)
Lemma parseSection_cases (configs : gmap (list N) (list N)) (s : jsstring) :
  (∃ n v, Contributes s n v ∧ parseSection configs s = assign n v configs)
  ∨ ((∀ n v, ¬ Contributes s n v) ∧ parseSection configs s = configs).
Proof.
  unfold parseSection.
  destruct (split LF (trim s)) as [| nameLine rest] eqn:Esplit.
  { right. split; [| reflexivity]. intros n v (l & r & E & _). rewrite Esplit in E. discriminate E. }
  destruct (startsWith (lit "###") nameLine) eqn:Estart.
  - destruct nameLine as [| c nameLine]; [discriminate Estart |].
    destruct (trim (join LF rest)) as [| d value] eqn:Evalue.
    + right. split; [| reflexivity].
      intros n v (l & r & E & _ & _ & Hv & Hne). rewrite Esplit in E.
      injection E as <- <-. rewrite Evalue in Hv. contradiction.
    + left. exists (trim (stripMarkers (c :: nameLine))), (d :: value).
      split; [| reflexivity].
      exists (c :: nameLine), rest. rewrite Evalue. repeat split; try assumption. discriminate.
  - right. split.
    + intros n v (l & r & E & Hs & _). rewrite Esplit in E.
      injection E as <- <-. congruence.
    + destruct nameLine; reflexivity.
Qed.

Lemma assign_lookup (n v name : jsstring) (configs : gmap (list N) (list N)) :
  name ≠ lit "__proto__" ->
  assign n v configs !! name = if decide (n = name) then Some v else configs !! name.
Proof.
  intros Hname. unfold assign. destruct (decide (n = name)) as [-> | Hne].
  - rewrite bool_decide_eq_false_2 by exact Hname. apply lookup_insert_eq.
  - destruct (bool_decide (n = lit "__proto__")); [reflexivity |].
    now apply lookup_insert_ne.
Qed.

(** The entry under [name] after the sections [l]: the last section that
    contributes under [name] decides. *)
Lemma fold_parseSection_lookup (l : list jsstring) (name value : jsstring) :
  name ≠ lit "__proto__" ->
  fold_left parseSection l ∅ !! name = Some value
  ↔ ∃ before section after,
      l = before ++ section :: after
      ∧ Contributes section name value
      ∧ ∀ s v, s ∈ after -> ¬ Contributes s name v.
Proof.
  intros Hname. revert value. induction l as [| s l IH] using rev_ind; intros value.
  - simpl. rewrite lookup_empty. split; [discriminate |].
    intros (before & section & after & E & _). now destruct before.
  - rewrite fold_left_app. simpl.
    destruct (parseSection_cases (fold_left parseSection l ∅) s)
      as [(n & v & Hc & ->) | (Hnone & ->)].
    + rewrite (assign_lookup _ _ _ _ Hname).
      destruct (decide (n = name)) as [-> | Hne].
      * split.
        -- intros [= <-]. exists l, s, []. repeat split; [exact Hc |].
           intros s' v' Hin. now apply elem_of_nil in Hin.
        -- intros (before & section & after & E & Hsec & Hafter).
           destruct after as [| a after _] using rev_ind.
           ++ apply app_inj_tail in E as [_ <-].
              destruct (Contributes_functional _ _ _ _ _ Hc Hsec) as [_ ->]. reflexivity.
           ++ exfalso. rewrite app_comm_cons, app_assoc in E.
              apply app_inj_tail in E as [_ <-].
              apply (Hafter s v); [| exact Hc].
              apply elem_of_app. right. apply list_elem_of_here.
      * rewrite IH. split.
        -- intros (before & section & after & -> & Hsec & Hafter).
           exists before, section, (after ++ [s]).
           rewrite <- app_assoc. repeat split; [exact Hsec |].
           intros s' v' Hin Hs'. apply elem_of_app in Hin as [Hin | Hin].
           ++ now apply (Hafter s' v').
           ++ apply list_elem_of_singleton in Hin as ->.
              destruct (Contributes_functional _ _ _ _ _ Hc Hs') as [E _]. contradiction.
        -- intros (before & section & after & E & Hsec & Hafter).
           destruct after as [| a after _] using rev_ind.
           ++ apply app_inj_tail in E as [_ <-].
              destruct (Contributes_functional _ _ _ _ _ Hc Hsec) as [E _]. contradiction.
           ++ rewrite app_comm_cons, app_assoc in E.
              apply app_inj_tail in E as [-> <-].
              exists before, section, after. repeat split; [exact Hsec |].
              intros s' v' Hin. apply Hafter. apply elem_of_app. now left.
    + rewrite IH. split.
      * intros (before & section & after & -> & Hsec & Hafter).
        exists before, section, (after ++ [s]).
        rewrite <- app_assoc. repeat split; [exact Hsec |].
        intros s' v' Hin Hs'. apply elem_of_app in Hin as [Hin | Hin].
        -- now apply (Hafter s' v').
        -- apply list_elem_of_singleton in Hin as ->. now apply (Hnone name v').
      * intros (before & section & after & E & Hsec & Hafter).
        destruct after as [| a after _] using rev_ind.
        -- apply app_inj_tail in E as [_ <-]. now apply Hnone in Hsec.
        -- rewrite app_comm_cons, app_assoc in E.
           apply app_inj_tail in E as [-> <-].
           exists before, section, after. repeat split; [exact Hsec |].
           intros s' v' Hin. apply Hafter. apply elem_of_app. now left.
Qed.

Lemma fold_parseSection_silent (l : list jsstring) :
  (∀ s n v, s ∈ l -> ¬ Contributes s n v) -> fold_left parseSection l ∅ = ∅.
Proof.
  induction l as [| s l IH] using rev_ind; intros Hnone; [reflexivity |].
  rewrite fold_left_app. simpl.
  destruct (parseSection_cases (fold_left parseSection l ∅) s)
    as [(n & v & Hc & _) | (_ & ->)].
  - exfalso. apply (Hnone s n v); [| exact Hc].
    apply elem_of_app. right. apply list_elem_of_here.
  - apply IH. intros s' n v Hin. apply Hnone. apply elem_of_app. now left.
Qed.

(** The marker line [###<name>:###] loses its three leading and three
    trailing hashes and keeps the colon. *)
Lemma stripMarkers_marker (n : jsstring) :
  stripMarkers (lit "###" ++ n ++ lit ":###") = n ++ lit ":".
Proof.
  unfold stripMarkers.
  change (lit "###") with [35; 35; 35]%N.
  change (lit ":###") with ([58]%N ++ [35; 35; 35]%N).
  change (lit ":") with [58]%N.
  cbn [app startsWith N.eqb Pos.eqb andb drop]. rewrite drop_0.
  change (n ++ [58; 35; 35; 35]%N) with (n ++ [58]%N ++ [35; 35; 35]%N).
  assert (Hends : endsWith [35; 35; 35]%N (n ++ [58]%N ++ [35; 35; 35]%N) = true).
  { unfold endsWith. rewrite !rev_app_distr. reflexivity. }
  rewrite Hends.
  rewrite app_assoc, length_app. simpl length.
  replace (length (n ++ [58%N]) + 3 - 3)%nat with (length (n ++ [58%N])) by lia.
  now rewrite take_app_length.
Qed.

(** C10, amended. The output is split at ["\n\n"] and the sections are
    taken in order.  For a name other than [__proto__], the parsed object
    holds [value] under [name] exactly when some section contributes
    [name], [value] and no later section contributes under [name], where a
    section contributes when, once trimmed, its first line starts with
    [###]: the name is that line without the leading and trailing [###],
    trimmed, and the value is the remaining lines joined by line feeds,
    trimmed, and not empty.  For the marker line [###<n>:###] the name
    before trimming is [<n>:], colon included.  When no section contributes,
    and in general when the object is empty, the result is the one fallback
    entry; otherwise it is the object itself. *)
Theorem parsedConfigs_entries (output name value : jsstring) :
  name ≠ lit "__proto__" ->
  let sections := split (LF ++ LF) output in
  (parseOutput output !! name = Some value
   ↔ ∃ before section after,
       sections = before ++ section :: after
       ∧ Contributes section name value
       ∧ ∀ s v, s ∈ after -> ¬ Contributes s name v)
  ∧ (∀ n, stripMarkers (lit "###" ++ n ++ lit ":###") = n ++ lit ":")
  ∧ ((∀ s n v, s ∈ sections -> ¬ Contributes s n v) -> parsedConfigs output = fallbackConfigs)
  ∧ (parseOutput output = ∅ -> parsedConfigs output = fallbackConfigs)
  ∧ (parseOutput output ≠ ∅ -> parsedConfigs output = parseOutput output)
  ∧ size fallbackConfigs = 1%nat.
Proof.
  intros Hname sections.
  split; [apply (fold_parseSection_lookup _ _ _ Hname) |].
  split; [apply stripMarkers_marker |].
  split.
  { intros Hnone. unfold parsedConfigs, parseOutput.
    fold sections. rewrite (fold_parseSection_silent sections Hnone).
    now rewrite bool_decide_eq_true_2. }
  split.
  { intros E. unfold parsedConfigs. rewrite E. now rewrite bool_decide_eq_true_2. }
  split.
  { intros E. unfold parsedConfigs. now rewrite bool_decide_eq_false_2. }
  apply map_size_singleton.
Qed.

Lemma parsedConfigs_entries_witness :
  lit "CPU:" ≠ lit "__proto__"
  ∧ parseOutput cpuOutput !! lit "CPU:" = Some (lit "Intel Xeon")
  ∧ parsedConfigs cpuOutput = parseOutput cpuOutput.
Proof.
  assert (Hname : lit "CPU:" ≠ lit "__proto__") by discriminate.
  destruct (parsedConfigs_entries cpuOutput (lit "CPU:") (lit "Intel Xeon") Hname)
    as (Hentry & _ & _ & _ & Hkept & _).
  assert (Hlookup : parseOutput cpuOutput !! lit "CPU:" = Some (lit "Intel Xeon")).
  { apply Hentry.
    exists [ lit "###Host:###" ++ LF ++ lit "web1" ],
           (lit "###CPU:###" ++ LF ++ lit " Intel Xeon"), [].
    split; [reflexivity |]. split.
    - exists (lit "###CPU:###"), [ lit " Intel Xeon" ].
      repeat split; [discriminate].
    - intros s v Hin. now apply elem_of_nil in Hin. }
  split; [exact Hname |]. split; [exact Hlookup |].
  apply Hkept. intros E. rewrite E in Hlookup. discriminate Hlookup.
Defined.

(** Under the name [__proto__] the assignment leaves no entry. *)
Lemma proto_section_leaves_no_entry :
  let output := lit "###__proto__###" ++ LF ++ lit "x" in
  parseOutput output = ∅ ∧ parsedConfigs output = fallbackConfigs.
Proof. split; reflexivity. Qed.

End ParseOutput.

(** * Further properties *)

(** ** The validator on the rules the forms use *)

(** Literals stay folded while a run is simplified. *)
Arguments Js.lit : simpl never.

(** Closes the cases of a handler's run once the run is computed. *)
Ltac settle :=
  repeat split; intros;
  repeat match goal with
         | H : _ ∧ _ |- _ => destruct H
         | H : ∃ _, _ |- _ => destruct H
         | H : In _ _ |- _ => simpl in H
         | H : _ ∨ _ |- _ => destruct H
         | H : False |- _ => destruct H
         | H : ¬ _ |- _ => try (exfalso; apply H; simpl; now auto 10)
         end;
  try discriminate; try congruence; simpl; eauto 10.

Section ValidatorFacts.
Import Js Ui Validator MoreStatements.

Lemma ofZ_le (a b : Z) :
  (Q2Qc (inject_Z a) <= Q2Qc (inject_Z b))%Qc ↔ a <= b.
Proof.
  unfold Qcle. simpl. rewrite !Qred_correct. now rewrite <- Zle_Qle.
Qed.

Lemma passes_required_text (s : jsstring) (msg : string) :
  passes (requiredRule true msg) (JStr s) = true ↔ s ≠ [].
Proof.
  destruct s; cbn; split; intros H; try discriminate; try reflexivity.
  now contradiction H.
Qed.

Lemma passes_optional (v : JVal) (msg : string) :
  passes (requiredRule false msg) v = true.
Proof. destruct v as [| | b | q | [] | [] | fields]; reflexivity. Qed.

Lemma passes_text (r : Rule) (c : N) (s : jsstring) :
  onlyRequired r = false -> type_number r = false ->
  passes r (JStr (c :: s))
  = inRange r (Q2Qc (inject_Z (pairedLength (c :: s)))) && matchesPattern r (c :: s).
Proof. intros H1 H2. unfold passes. simpl isEmptyValue. now rewrite H1, H2. Qed.

Lemma passes_max_text (bound : Z) (s : jsstring) (msg : string) :
  passes (maxRule bound msg) (JStr s) = true ↔ s = [] ∨ pairedLength s <= bound.
Proof.
  destruct s as [| c s].
  - simpl. split; [now left | reflexivity].
  - rewrite passes_text by reflexivity.
    cbn [inRange matchesPattern maxRule min max pattern].
    rewrite andb_true_r, bool_decide_eq_true, ofZ_le.
    split; [now right | intros [E | H]; [discriminate E | exact H]].
Qed.

Lemma passes_range_text (lo hi : Z) (s : jsstring) (msg : string) :
  passes (rangeRule lo hi msg) (JStr s) = true
  ↔ s = [] ∨ (lo <= pairedLength s ∧ pairedLength s <= hi).
Proof.
  destruct s as [| c s].
  - simpl. split; [now left | reflexivity].
  - rewrite passes_text by reflexivity.
    cbn [inRange matchesPattern rangeRule min max pattern].
    rewrite andb_true_r, andb_true_iff, !bool_decide_eq_true, !ofZ_le.
    split; [now right | intros [E | H]; [discriminate E | exact H]].
Qed.

Lemma passes_port (v : JVal) (m1 m2 : string) :
  passes (requiredRule true m1) v && passes (numberRule 1 65535 m2) v = true
  ↔ PortNumber v.
Proof.
  unfold PortNumber. destruct v as [| | b | q | s | items | fields].
  1-3, 5-7: split; [| intros (q & E & _); discriminate E].
  1-3, 6: intros H; cbv in H; discriminate H.
  1: destruct s; intros H; cbv in H; discriminate H.
  1: destruct items; intros H; cbv in H; discriminate H.
  change (passes (requiredRule true m1) (JNum q)) with true.
  change (passes (numberRule 1 65535 m2) (JNum q)) with (inRange (numberRule 1 65535 m2) q).
  cbn [inRange numberRule min max andb].
  rewrite andb_true_iff, !bool_decide_eq_true. split.
  - intros H. now exists q.
  - intros (q' & [= <-] & H). exact H.
Qed.

Lemma filled_rules (bound : Z) (s : jsstring) (m1 m2 : string) :
  passes (requiredRule true m1) (JStr s) && (passes (maxRule bound m2) (JStr s) && true) = true
  ↔ Filled bound s.
Proof.
  rewrite andb_true_r, andb_true_iff, passes_required_text, passes_max_text.
  unfold Filled. intuition congruence.
Qed.

Lemma filled_value_rules (bound : Z) (v : JVal) (m1 m2 : string) :
  passes (requiredRule true m1) v && (passes (maxRule bound m2) v && true) = true
  ↔ FilledText bound v.
Proof.
  unfold FilledText. destruct v as [| | b | q | s | items | fields].
  5: { rewrite filled_rules. split; [intros H; now exists s | intros (s' & [= <-] & H); exact H]. }
  all: split; [| intros (s & E & _); discriminate E].
  all: try destruct items; intros H; cbv in H; discriminate H.
Qed.

(** [validate] lets a form through exactly when every mounted item is
    valid. *)
Lemma invalidFields_nil (rules : FormRules) (mounted : list string) (model : string -> JVal) :
  invalidFields rules mounted model = []
  ↔ ∀ p, In p mounted -> fieldValid rules model p = true.
Proof.
  unfold invalidFields. induction mounted as [| p mounted IH]; simpl.
  - split; [intros _ p [] | reflexivity].
  - destruct (fieldValid rules model p) eqn:E; simpl.
    + rewrite IH. split.
      * intros H q [<- | Hq]; [exact E | now apply H].
      * intros H q Hq. apply H. now right.
    + split; [discriminate |]. intros H. specialize (H p (or_introl eq_refl)). congruence.
Qed.

End ValidatorFacts.

(** ** CreateServer: when the form validates, and what a submit leaves *)

Section CreateServerMore.
Import Js Ui Validator CreateServer MoreStatements MoreSamples.

(** X1. The create form passes validation exactly when name, hostname
    and username are filled in within 100, 255 and 100 characters, the port
    is a number from 1 to 65535, and, while the password item is shown
    (methods 'password' and 'both'), the password is not empty.  The private
    key, the description and the auth method are never checked. *)
Theorem create_form_valid_iff (fd : FormData) :
  invalidFields formRules (mountedItems fd) (model fd) = []
  ↔ Filled 100 (name fd) ∧ Filled 255 (hostname fd) ∧ PortNumber (port fd)
    ∧ Filled 100 (username fd)
    ∧ (usesPassword (authMethod fd) = true -> password fd ≠ []).
Proof.
  rewrite invalidFields_nil. split.
  - intros H.
    assert (Hbase : ∀ p, In p [ "name"; "hostname"; "port"; "username" ]%string ->
                         fieldValid formRules (model fd) p = true).
    { intros p Hp. apply H. unfold mountedItems. apply in_or_app. left.
      simpl in *. tauto. }
    split; [apply (filled_rules 100 (name fd) "请输入服务器名称" "服务器名称不能超过100个字符");
            apply (Hbase "name"%string); simpl; tauto |].
    split; [apply (filled_rules 255 (hostname fd) "请输入主机名或IP地址" "主机名或IP地址不能超过255个字符");
            apply (Hbase "hostname"%string); simpl; tauto |].
    split.
    { apply (passes_port (port fd) "请输入端口号" "端口号必须在1-65535之间").
      specialize (Hbase "port"%string). unfold fieldValid in Hbase. simpl in Hbase.
      rewrite andb_true_r in Hbase. apply Hbase. tauto. }
    split; [apply (filled_rules 100 (username fd) "请输入SSH用户名" "用户名不能超过100个字符");
            apply (Hbase "username"%string); simpl; tauto |].
    intros Hm. apply (passes_required_text (password fd) "请输入SSH密码").
    assert (Hin : In "password"%string (mountedItems fd)).
    { unfold mountedItems. rewrite Hm. simpl. tauto. }
    specialize (H _ Hin). unfold fieldValid in H. simpl in H.
    now rewrite andb_true_r in H.
  - intros (Hname & Hhost & Hport & Huser & Hpw) p Hp.
    unfold mountedItems in Hp.
    assert (Hcases : In p [ "name"; "hostname"; "port"; "username"; "authMethod";
                            "privateKey"; "description" ]%string
                     ∨ (p = "password"%string ∧ usesPassword (authMethod fd) = true)).
    { destruct (usesPassword (authMethod fd)); destruct (usesPrivateKey (authMethod fd));
        simpl in Hp; simpl; intuition. }
    destruct Hcases as [Hin | [-> Hm]].
    + simpl in Hin.
      destruct Hin as [<- | [<- | [<- | [<- | [<- | [<- | [<- | []]]]]]]].
      * now apply filled_rules.
      * now apply filled_rules.
      * unfold fieldValid. simpl. rewrite andb_true_r.
        now apply (passes_port (port fd) "请输入端口号" "端口号必须在1-65535之间").
      * now apply filled_rules.
      * reflexivity.
      * destruct (privateKey fd) eqn:E; unfold fieldValid, model; simpl; now rewrite E.
      * reflexivity.
    + unfold fieldValid. simpl. rewrite andb_true_r.
      apply passes_required_text. now apply Hpw.
Qed.

Lemma create_form_valid_iff_witness :
  invalidFields formRules (mountedItems passwordServer) (model passwordServer) = [].
Proof.
  apply (proj2 (create_form_valid_iff passwordServer)).
  repeat split; try discriminate; try (vm_compute; discriminate).
  exists (Q2Qc 22). repeat split; vm_compute; discriminate.
Defined.

Lemma create_run (st : State) (reply : Awaited JVal) :
  handleSubmit reply st
  = if negb (formRef st) || negb (axios st) then (Returned tt, st, [])
    else
      match invalidFields formRules (mountedItems (formData st)) (model (formData st)) with
      | [] =>
          match reply with
          | Fulfilled _ =>
              (Returned tt, mkState (axios st) (formRef st) initialFormData,
               [ Request POST ServersUrl (Some (requestData (formData st))); Emit "success" ])
          | Rejected _ =>
              (Returned tt, st,
               [ Request POST ServersUrl (Some (requestData (formData st)));
                 ConsoleError "创建服务器失败:";
                 Message error (Fixed "创建服务器失败，请稍后重试") ])
          end
      | _ :: _ =>
          (Returned tt, st,
           [ ConsoleError "创建服务器失败:";
             Message error (Fixed "创建服务器失败，请稍后重试") ])
      end.
Proof.
  unfold handleSubmit, mbind, M_bind, bind, read, try_catch, validate.
  remember (requestData (formData st)) as body.
  remember (invalidFields formRules (mountedItems (formData st)) (model (formData st))) as bad.
  simpl.
  destruct (negb (formRef st) || negb (axios st)); [reflexivity |].
  destruct bad; [destruct reply |]; reflexivity.
Qed.

(** X2. [handleSubmit] of the create form never throws.  It sends a
    request exactly when the form is mounted, axios is injected and the
    form validates, and it emits [success] exactly when, in addition, the
    POST is fulfilled.  After a success the form holds its initial data
    again; in every other case the component is exactly as before, so what
    the user typed is kept. *)
Theorem create_submit_outcome (st : State) (reply : Awaited JVal) :
  let out := handleSubmit reply st in
  let ready := formRef st = true ∧ axios st = true
               ∧ invalidFields formRules (mountedItems (formData st)) (model (formData st)) = [] in
  result_of out = Returned tt
  ∧ (requests out ≠ [] ↔ ready)
  ∧ (In (Emit "success") (events_of out) ↔ ready ∧ ∃ data, reply = Fulfilled data)
  ∧ (In (Emit "success") (events_of out) ->
       state_after out = mkState (axios st) (formRef st) initialFormData)
  ∧ (¬ In (Emit "success") (events_of out) -> state_after out = st).
Proof.
  intros out ready. subst out ready. rewrite create_run.
  destruct st as [ax ref fd]. cbn [formRef axios formData].
  remember (invalidFields formRules (mountedItems fd) (model fd)) as bad.
  remember (requestData fd) as body.
  destruct ref, ax; [destruct bad as [| p l]; [destruct reply as [data | e] |] | ..];
    cbn; settle.
Qed.

Lemma create_submit_outcome_witness :
  let st := mkState true true passwordServer in
  In (Emit "success") (events_of (handleSubmit (Fulfilled JNull) st))
  ∧ state_after (handleSubmit (Fulfilled JNull) st) = mkState true true initialFormData
  ∧ state_after (handleSubmit (Rejected (HttpError [] [])) st) = st.
Proof.
  intros st.
  destruct (create_submit_outcome st (Fulfilled JNull)) as (_ & _ & Hok & Hreset & _).
  destruct (create_submit_outcome st (Rejected (HttpError [] []))) as (_ & _ & Hko & _ & Hkeep).
  assert (Hin : In (Emit "success") (events_of (handleSubmit (Fulfilled JNull) st))).
  { apply Hok. split; [| now exists JNull].
    split; [reflexivity |]. split; [reflexivity | vm_compute; reflexivity]. }
  split; [exact Hin |]. split; [exact (Hreset Hin) |].
  apply Hkeep. intros H. apply Hko in H as [_ [data H]]. discriminate H.
Defined.

End CreateServerMore.

(** ** EditServer: validation, submit, load *)

Section EditServerMore.
Import Js Ui Validator EditServer MoreStatements MoreSamples.

(** X3. The edit form passes validation exactly when name, hostname and
    username are non-empty strings within 100, 255 and 100 characters, the
    port is a number from 1 to 65535 and an auth method is selected.  The
    password, the private key and the description play no part: a form
    that switches the method and types no secret validates. *)
Theorem edit_form_valid_iff (f : Form) :
  invalidFields rules (mountedItems f) (model f) = []
  ↔ FilledText 100 (name f) ∧ FilledText 255 (hostname f) ∧ PortNumber (port f)
    ∧ FilledText 100 (username f) ∧ authMethod f ≠ [].
Proof.
  rewrite invalidFields_nil. split.
  - intros H.
    assert (Hbase : ∀ p, In p [ "name"; "hostname"; "port"; "username"; "authMethod" ]%string ->
                         fieldValid rules (model f) p = true).
    { intros p Hp. apply H. unfold mountedItems. apply in_or_app. now left. }
    split; [apply (filled_value_rules 100 (name f) "请输入服务器名称" "服务器名称不能超过100个字符");
            apply (Hbase "name"%string); simpl; tauto |].
    split; [apply (filled_value_rules 255 (hostname f) "请输入主机名或IP地址" "主机名或IP地址不能超过255个字符");
            apply (Hbase "hostname"%string); simpl; tauto |].
    split.
    { apply (passes_port (port f) "请输入端口" "端口必须在1-65535之间").
      specialize (Hbase "port"%string). unfold fieldValid in Hbase. simpl in Hbase.
      rewrite andb_true_r in Hbase. apply Hbase. tauto. }
    split; [apply (filled_value_rules 100 (username f) "请输入用户名" "用户名不能超过100个字符");
            apply (Hbase "username"%string); simpl; tauto |].
    apply (passes_required_text (authMethod f) "请选择认证方式").
    specialize (Hbase "authMethod"%string). unfold fieldValid in Hbase. simpl in Hbase.
    rewrite andb_true_r in Hbase. apply Hbase. tauto.
  - intros (Hname & Hhost & Hport & Huser & Hmethod) p Hp.
    unfold mountedItems in Hp.
    assert (Hcases : In p [ "name"; "hostname"; "port"; "username"; "authMethod";
                            "password"; "privateKey" ]%string).
    { destruct (usesPassword (authMethod f)); destruct (usesKey (authMethod f));
        simpl in Hp; simpl; intuition. }
    simpl in Hcases.
    destruct Hcases as [<- | [<- | [<- | [<- | [<- | [<- | [<- | []]]]]]]].
    + now apply filled_value_rules.
    + now apply filled_value_rules.
    + unfold fieldValid. simpl. rewrite andb_true_r.
      now apply (passes_port (port f) "请输入端口" "端口必须在1-65535之间").
    + now apply filled_value_rules.
    + unfold fieldValid. simpl. rewrite andb_true_r. now apply passes_required_text.
    + reflexivity.
    + reflexivity.
Qed.

Lemma edit_form_valid_iff_witness :
  invalidFields rules (mountedItems Samples.keyOnlyEdit) (model Samples.keyOnlyEdit) = []
  ∧ password Samples.keyOnlyEdit = [] ∧ privateKey Samples.keyOnlyEdit = [].
Proof.
  split; [| split; reflexivity].
  apply (proj2 (edit_form_valid_iff Samples.keyOnlyEdit)).
  split; [exists (lit "db1"); repeat split; [discriminate | vm_compute; discriminate] |].
  split; [exists (lit "10.0.0.5"); repeat split; [discriminate | vm_compute; discriminate] |].
  split; [exists (Q2Qc 22); repeat split; vm_compute; discriminate |].
  split; [exists (lit "root"); repeat split; [discriminate | vm_compute; discriminate] |].
  discriminate.
Defined.

Lemma edit_run (st : State) (reply : Awaited JVal) :
  handleSubmit reply st
  = if negb (axios st) || negb (formRef st) then (Returned tt, st, [])
    else
      match invalidFields rules (mountedItems (form st)) (model (form st)) with
      | [] =>
          match reply with
          | Fulfilled _ =>
              (Returned tt, st,
               [ Request PUT (ServerUrl (serverId st)) (Some (requestData (form st)));
                 Message success (Fixed "服务器更新成功"); Emit "success" ])
          | Rejected _ =>
              (Returned tt, st,
               [ Request PUT (ServerUrl (serverId st)) (Some (requestData (form st)));
                 ConsoleError "更新服务器失败:"; Message error (Fixed "更新服务器失败") ])
          end
      | _ :: _ =>
          (Returned tt, st,
           [ ConsoleError "更新服务器失败:"; Message error (Fixed "更新服务器失败") ])
      end.
Proof.
  unfold handleSubmit, mbind, M_bind, bind, read, try_catch, validate.
  remember (requestData (form st)) as body.
  remember (invalidFields rules (mountedItems (form st)) (model (form st))) as bad.
  simpl.
  destruct (negb (axios st) || negb (formRef st)); [reflexivity |].
  destruct bad; [destruct reply |]; reflexivity.
Qed.

(** X4. [handleSubmit] of the edit form never throws and never changes
    the component: the inputs, typed secrets included, stay as they are
    whether the update succeeds or not.  A request goes out exactly when
    axios is there, the form is mounted and it validates; [success] is
    emitted exactly when in addition the PUT is fulfilled. *)
Theorem edit_submit_outcome (st : State) (reply : Awaited JVal) :
  let out := handleSubmit reply st in
  let ready := axios st = true ∧ formRef st = true
               ∧ invalidFields rules (mountedItems (form st)) (model (form st)) = [] in
  result_of out = Returned tt
  ∧ state_after out = st
  ∧ (requests out ≠ [] ↔ ready)
  ∧ (In (Emit "success") (events_of out) ↔ ready ∧ ∃ data, reply = Fulfilled data).
Proof.
  intros out ready. subst out ready. rewrite edit_run.
  remember (invalidFields rules (mountedItems (form st)) (model (form st))) as bad.
  remember (requestData (form st)) as body.
  destruct (axios st), (formRef st);
    [destruct bad as [| p l]; [destruct reply as [data | e] |] | ..];
    cbn; settle.
Qed.

Lemma edit_submit_outcome_witness :
  let st := mkState 3 true true Samples.keyOnlyEdit in
  In (Emit "success") (events_of (handleSubmit (Fulfilled JNull) st))
  ∧ state_after (handleSubmit (Fulfilled JNull) st) = st.
Proof.
  intros st.
  destruct (edit_submit_outcome st (Fulfilled JNull)) as (_ & Hsame & _ & Hok).
  split; [| exact Hsame].
  apply Hok. split; [| now exists JNull].
  split; [reflexivity |]. split; [reflexivity | vm_compute; reflexivity].
Defined.

Lemma load_run (st : State) (reply : Awaited (option Obj)) :
  loadServerInfo reply st
  = if negb (axios st) || (serverId st =? 0) then (Returned tt, st, [])
    else
      match reply with
      | Fulfilled (Some server) =>
          (Returned tt, with_form (fillForm server) st,
           [ Request GET (ServerUrl (serverId st)) None ])
      | Fulfilled None | Rejected _ =>
          (Returned tt, st,
           [ Request GET (ServerUrl (serverId st)) None;
             ConsoleError "加载服务器信息失败:";
             Message error (Fixed "加载服务器信息失败"); Emit "cancel" ])
      end.
Proof.
  unfold loadServerInfo, mbind, M_bind, bind, read. simpl.
  destruct (negb (axios st) || (serverId st =? 0)); [reflexivity |].
  destruct reply as [[server |] | e]; reflexivity.
Qed.

(** X5. [loadServerInfo] never throws.  Without axios or with server id
    0 it does nothing at all.  When the GET fails, and also when it is
    answered without a body, so that reading the record throws, it leaves
    the whole component, the form included, as it was, shows the error
    message and emits [cancel]; [cancel] is emitted in no other case: a
    reply that carries a record never cancels. *)
Theorem loadServerInfo_failure (st : State) (reply : Awaited (option Obj)) :
  let out := loadServerInfo reply st in
  result_of out = Returned tt
  ∧ (axios st = false ∨ serverId st = 0 -> out = (Returned tt, st, []))
  ∧ ((∀ server, reply ≠ Fulfilled (Some server)) -> state_after out = st)
  ∧ (In (Emit "cancel") (events_of out)
     ↔ axios st = true ∧ serverId st ≠ 0 ∧ ∀ server, reply ≠ Fulfilled (Some server))
  ∧ (In (Message error (Fixed "加载服务器信息失败")) (events_of out)
     ↔ In (Emit "cancel") (events_of out)).
Proof.
  intros out. subst out. rewrite load_run.
  split.
  { destruct (negb (axios st) || (serverId st =? 0)); [reflexivity |].
    destruct reply as [[server |] | e]; reflexivity. }
  split.
  { intros [H | H]; rewrite H; [reflexivity |]. cbn. now rewrite orb_true_r. }
  split.
  { intros Hnot. destruct (negb (axios st) || (serverId st =? 0)); [reflexivity |].
    destruct reply as [[server |] | e]; [now contradiction (Hnot server) | reflexivity ..]. }
  destruct (axios st); cbn [negb orb].
  2: { split; split; cbn; try tauto; intros (H & _); discriminate H. }
  destruct (Z.eqb_spec (serverId st) 0) as [Hz | Hz].
  { split; split; cbn; try tauto; intros (_ & H & _); contradiction. }
  destruct reply as [[server |] | e]; cbn.
  - split; split.
    + intros [H | []]. discriminate H.
    + intros (_ & _ & H). now contradiction (H server).
    + intros [H | []]. discriminate H.
    + intros [H | []]. discriminate H.
  - split; split; intros _; try tauto.
    split; [reflexivity |]. split; [exact Hz |]. intros server H. discriminate H.
  - split; split; intros _; try tauto.
    split; [reflexivity |]. split; [exact Hz |]. intros server H. discriminate H.
Qed.

Lemma loadServerInfo_failure_witness :
  let st := mkState 3 true true Samples.keyOnlyEdit in
  state_after (loadServerInfo (Rejected (HttpError [] [])) st) = st
  ∧ In (Emit "cancel") (events_of (loadServerInfo (Rejected (HttpError [] [])) st))
  ∧ In (Emit "cancel") (events_of (loadServerInfo (Fulfilled None) st))
  ∧ loadServerInfo (Fulfilled (Some ∅)) (mkState 0 true true Samples.keyOnlyEdit)
    = (Returned tt, mkState 0 true true Samples.keyOnlyEdit, []).
Proof.
  intros st.
  destruct (loadServerInfo_failure st (Rejected (HttpError [] [])))
    as (_ & _ & Hsame & Hcancel & _).
  destruct (loadServerInfo_failure st (Fulfilled None)) as (_ & _ & _ & Hnull & _).
  destruct (loadServerInfo_failure (mkState 0 true true Samples.keyOnlyEdit) (Fulfilled (Some ∅)))
    as (_ & Hnothing & _).
  split; [apply Hsame; intros server H; discriminate H |].
  split.
  { apply Hcancel. split; [reflexivity |]. split; [discriminate |].
    intros server H. discriminate H. }
  split.
  { apply Hnull. split; [reflexivity |]. split; [discriminate |].
    intros server H. discriminate H. }
  apply Hnothing. now right.
Defined.

Lemma requestData_echo (f : Form) :
  requestData f !! lit "name" = Some (name f)
  ∧ requestData f !! lit "hostname" = Some (hostname f)
  ∧ requestData f !! lit "port" = Some (port f)
  ∧ requestData f !! lit "username" = Some (username f)
  ∧ requestData f !! lit "description" = Some (description f).
Proof.
  unfold requestData.
  destruct (bool_decide (authMethod f = lit "password"));
    destruct (bool_decide (authMethod f = lit "both"));
    destruct (bool_decide (authMethod f = lit "key"));
    destruct (password f); destruct (privateKey f);
    repeat split; vm_compute; reflexivity.
Qed.

(** X6. Loading a server record whose flags are the booleans [k] (has
    private key) and [p] (has password) into a form with empty secret
    inputs, and submitting it as loaded: the one request is the PUT to the
    same server; its body gives back the record's name, hostname, port and
    username and carries no secret text.  The password key is [null] when
    the record has a key and no password, and absent otherwise; the
    private_key key is [null] when the record has no key, and absent
    otherwise.  So only a kind of credential the record does not have is
    ever cleared. *)
Theorem load_then_submit_keeps_credentials
    (st : State) (server : Obj) (k p : bool) (reply : Awaited JVal) :
  axios st = true ->
  serverId st ≠ 0 ->
  formRef st = true ->
  password (form st) = [] ->
  privateKey (form st) = [] ->
  get server "has_private_key" = JBool k ->
  get server "has_password" = JBool p ->
  let loaded := state_after (loadServerInfo (Fulfilled (Some server)) st) in
  invalidFields rules (mountedItems (form loaded)) (model (form loaded)) = [] ->
  ∃ body,
    requests (handleSubmit reply loaded)
      = [ Request PUT (ServerUrl (serverId st)) (Some body) ]
    ∧ body !! lit "name" = Some (get server "name")
    ∧ body !! lit "hostname" = Some (get server "hostname")
    ∧ body !! lit "port" = Some (get server "port")
    ∧ body !! lit "username" = Some (get server "username")
    ∧ body !! lit "password" = (if k && negb p then Some JNull else None)
    ∧ body !! lit "private_key" = (if negb k then Some JNull else None).
Proof.
  intros Hax Hid Href Hpw Hkey Hk Hp loaded.
  assert (Hloaded : loaded = with_form (fillForm server) st).
  { subst loaded. rewrite load_run, Hax.
    destruct (Z.eqb_spec (serverId st) 0); [contradiction | reflexivity]. }
  rewrite Hloaded. intros Hvalid.
  exists (requestData (fillForm server (form st))).
  split.
  { rewrite (handleSubmit_valid (with_form (fillForm server) st) reply Hax Href Hvalid).
    reflexivity. }
  destruct (requestData_echo (fillForm server (form st))) as (H1 & H2 & H3 & H4 & _).
  do 4 (split; [assumption |]).
  assert (Hmethod : authMethod (fillForm server (form st))
                    = if k then (if p then lit "both" else lit "key") else lit "password")
    by (apply (deriveAuthMethod_flags server k p Hk Hp)).
  assert (Hpw' : password (fillForm server (form st)) = []) by exact Hpw.
  assert (Hkey' : privateKey (fillForm server (form st)) = []) by exact Hkey.
  destruct k, p; simpl andb; simpl negb; cbv iota; split;
    first [ apply requestData_password_omitted | apply requestData_password_cleared
          | apply requestData_key_omitted | apply requestData_key_cleared ];
    try assumption; unfold usesPassword, usesKey; rewrite Hmethod; reflexivity.
Qed.

Lemma load_then_submit_keeps_credentials_witness :
  let st := mkState 1 true true initialForm in
  let loaded := state_after (loadServerInfo (Fulfilled (Some passwordOnlyRecord)) st) in
  ∃ body,
    requests (handleSubmit (Fulfilled JNull) loaded)
      = [ Request PUT (ServerUrl 1) (Some body) ]
    ∧ body !! lit "name" = Some (JStr (lit "db1"))
    ∧ body !! lit "password" = None
    ∧ body !! lit "private_key" = Some JNull.
Proof.
  intros st loaded.
  destruct (load_then_submit_keeps_credentials st passwordOnlyRecord false true (Fulfilled JNull)
              eq_refl ltac:(discriminate) eq_refl eq_refl eq_refl eq_refl eq_refl
              ltac:(vm_compute; reflexivity))
    as (body & Hreq & Hname & _ & _ & _ & Hpw & Hkey).
  exists body. split; [exact Hreq |]. split; [exact Hname |].
  split; [exact Hpw | exact Hkey].
Defined.

End EditServerMore.

(** ** ServerManagement: reloading the list, deleting a server *)

Section ServerManagementMore.
Import Js Ui Calls ServerManagement ServerManagementDelete MoreSamples.

Lemma loadServers_run (st : State) (reply : Awaited (list Obj)) :
  axios st = true ->
  ∃ text,
    loadServers reply st
    = match reply with
      | Fulfilled data =>
          (Returned tt,
           set_loading false (set_serversList (toRow <$> data) (set_loading true st)),
           [ Request GET ServersUrl None ])
      | Rejected _ =>
          (Returned tt, set_loading false (set_loading true st),
           [ Request GET ServersUrl None;
             ConsoleError "加载服务器列表失败:"; Message error text ])
      end.
Proof.
  intros Hax. unfold loadServers, mbind, M_bind, bind, read. simpl.
  destruct (axios st); [| discriminate Hax].
  destruct reply as [data | e]; [exists (Fixed "") | eexists]; reflexivity.
Qed.

Lemma loadServers_idle (st : State) (reply : Awaited (list Obj)) :
  axios st = false -> loadServers reply st = (Returned tt, st, []).
Proof.
  intros Hax. unfold loadServers, mbind, M_bind, bind, read. simpl.
  destruct (axios st); [discriminate Hax | reflexivity].
Qed.

(** X7. [loadServers] never throws.  Without axios it does nothing.
    With axios it sends the one GET and always ends with [loading] off.
    On success the list has one row per record, in the order of the reply,
    row [i] built from record [i].  On failure the rows shown before are
    kept and an error message is shown. *)
Theorem loadServers_outcome (st : State) (reply : Awaited (list Obj)) :
  let out := loadServers reply st in
  result_of out = Returned tt
  ∧ (axios st = false -> out = (Returned tt, st, []))
  ∧ (axios st = true ->
       loading (state_after out) = false
       ∧ requests out = [ Request GET ServersUrl None ]
       ∧ (∀ data, reply = Fulfilled data ->
            length (serversList (state_after out)) = length data
            ∧ ∀ i server, data !! i = Some server ->
                serversList (state_after out) !! i = Some (toRow server))
       ∧ (∀ e, reply = Rejected e ->
            serversList (state_after out) = serversList st
            ∧ ∃ text, In (Message error text) (events_of out))).
Proof.
  intros out. subst out. destruct (axios st) eqn:Hax.
  - destruct (loadServers_run st reply Hax) as [text ->].
    destruct reply as [data | e]; cbn.
    + split; [reflexivity |]. split; [discriminate |]. intros _.
      split; [reflexivity |]. split; [reflexivity |].
      split; [| intros e E; discriminate E].
      intros data' [= <-]. split; [apply length_fmap |].
      intros i server Hi. now rewrite list_lookup_fmap, Hi.
    + split; [reflexivity |]. split; [discriminate |]. intros _.
      split; [reflexivity |]. split; [reflexivity |].
      split; [intros data E; discriminate E |].
      intros e' _. split; [reflexivity |]. exists text. right. right. now left.
  - rewrite (loadServers_idle st reply Hax).
    split; [reflexivity |]. split; [reflexivity | discriminate].
Qed.

Lemma loadServers_outcome_witness :
  let st := mkState true false [ toRow passwordOnlyRecord ] in
  serversList (state_after (loadServers (Rejected (HttpError [] [])) st))
    = [ toRow passwordOnlyRecord ]
  ∧ loading (state_after (loadServers (Rejected (HttpError [] [])) st)) = false
  ∧ serversList (state_after (loadServers (Fulfilled []) st)) !! 0%nat = None.
Proof.
  intros st.
  destruct (loadServers_outcome st (Rejected (HttpError [] []))) as (_ & _ & Hko).
  destruct (Hko eq_refl) as (Hload & _ & _ & Hkeep).
  destruct (Hkeep (HttpError [] []) eq_refl) as [Hsame _].
  destruct (loadServers_outcome st (Fulfilled [])) as (_ & _ & Hok).
  destruct (Hok eq_refl) as (_ & _ & Hrows & _).
  destruct (Hrows [] eq_refl) as [Hlen _].
  split; [exact Hsame |]. split; [exact Hload |].
  apply lookup_ge_None_2. rewrite Hlen. simpl. lia.
Defined.

(** X8. [handleDelete] of the server table sends the DELETE, and for the
    id of the row, exactly when axios is there, the row's id is truthy and
    the confirmation box was settled with 'confirm'.  The list is reloaded
    exactly when, in addition, the DELETE succeeded; in every other case
    the component is left as it was. *)
Theorem server_delete_needs_confirmation
    (row : Obj) (confirmReply : Awaited jsstring) (deleteReply : Awaited JVal)
    (listReply : Awaited (list Obj)) (st : State) :
  let out := handleDelete row confirmReply deleteReply listReply st in
  let confirmed := axios st = true ∧ truthy (get row "id") = true
                   ∧ confirmReply = Fulfilled (lit "confirm") in
  (∀ id, In (DeleteServerRequest id) (snd out) -> id = get row "id")
  ∧ (In (DeleteServerRequest (get row "id")) (snd out) ↔ confirmed)
  ∧ (In (Event (Request GET ServersUrl None)) (snd out)
     ↔ confirmed ∧ ∃ data, deleteReply = Fulfilled data)
  ∧ (¬ In (Event (Request GET ServersUrl None)) (snd out) -> fst out = st).
Proof.
  intros out confirmed. subst out confirmed. unfold handleDelete.
  destruct (axios st) eqn:Hax; simpl negb; cbv iota.
  2: { cbn; settle. }
  destruct (truthy (get row "id")) eqn:Hid; simpl negb; cbv iota.
  2: { cbn; settle. }
  destruct confirmReply as [action | e].
  2: { destruct e; cbn; settle. }
  destruct (decide (action = lit "confirm")) as [-> | Hne].
  2: { rewrite bool_decide_eq_false_2 by exact Hne. cbn in *. settle. }
  rewrite bool_decide_eq_true_2 by reflexivity. simpl negb. cbv iota.
  destruct deleteReply as [data | e].
  2: { destruct e; cbn; settle. }
  destruct (loadServers_run st listReply Hax) as [text ->].
  destruct listReply as [rows | e]; cbn; settle.
Qed.

Lemma server_delete_needs_confirmation_witness :
  let st := mkState true false [ toRow passwordOnlyRecord ] in
  let row := toRow passwordOnlyRecord in
  ¬ In (DeleteServerRequest (get row "id"))
      (snd (handleDelete row (Rejected Cancelled) (Fulfilled JNull) (Fulfilled []) st))
  ∧ fst (handleDelete row (Rejected Cancelled) (Fulfilled JNull) (Fulfilled []) st) = st
  ∧ In (DeleteServerRequest (get row "id"))
      (snd (handleDelete row (Fulfilled (lit "confirm")) (Fulfilled JNull) (Fulfilled []) st)).
Proof.
  intros st row.
  destruct (server_delete_needs_confirmation row (Rejected Cancelled) (Fulfilled JNull)
              (Fulfilled []) st) as (_ & Hdel & Hget & Hsame).
  destruct (server_delete_needs_confirmation row (Fulfilled (lit "confirm")) (Fulfilled JNull)
              (Fulfilled []) st) as (_ & Hdel' & _).
  split; [| split].
  - intros H. destruct (proj1 Hdel H) as (_ & _ & E). discriminate E.
  - apply Hsame. intros H. destruct (proj1 Hget H) as [(_ & _ & E) _]. discriminate E.
  - apply (proj2 Hdel'). repeat split; reflexivity.
Defined.

End ServerManagementMore.

(** ** XrayRConfigList: the form, a submit, the list *)

Section ConfigListMore.
Import Js Statements Ui Validator XrayRConfigList XrayRConfigListDialogs MoreStatements MoreSamples.

(** X9. The config form passes validation exactly when the name is 2 to
    50 characters long, the path matches the slash pattern, and the
    description is at most 200 characters long (it may be empty). *)
Theorem config_form_valid_iff (f : ConfigForm) :
  invalidFields configFormRules mountedItems (model f) = []
  ↔ (2 <= pairedLength (form_name f) ∧ pairedLength (form_name f) <= 50)
    ∧ configPathPattern (form_config_path f) = true
    ∧ pairedLength (form_description f) <= 200.
Proof.
  rewrite invalidFields_nil.
  assert (Hname : fieldValid configFormRules (model f) "name" = true
                  ↔ 2 <= pairedLength (form_name f) ∧ pairedLength (form_name f) <= 50).
  { change (fieldValid configFormRules (model f) "name")
      with (passes (requiredRule true "请输入配置名称") (JStr (form_name f))
            && (passes (rangeRule 2 50 "配置名称长度应在 2 到 50 个字符之间") (JStr (form_name f))
                && true)).
    rewrite andb_true_r, andb_true_iff.
    rewrite passes_required_text, passes_range_text. split.
    - intros [Hne [E | H]]; [contradiction | exact H].
    - intros H. split; [| now right]. intros E. rewrite E in H. unfold pairedLength in H. simpl in H. lia. }
  assert (Hdesc : fieldValid configFormRules (model f) "description" = true
                  ↔ pairedLength (form_description f) <= 200).
  { change (fieldValid configFormRules (model f) "description")
      with (passes (maxRule 200 "描述不能超过 200 个字符") (JStr (form_description f)) && true).
    rewrite andb_true_r, passes_max_text. split.
    - intros [E | H]; [rewrite E; unfold pairedLength; simpl; lia | exact H].
    - intros H. now right. }
  split.
  - intros H. split; [apply Hname, H; simpl; tauto |].
    split; [rewrite <- config_path_valid_iff_pattern; apply H; simpl; tauto |].
    apply Hdesc, H. simpl. tauto.
  - intros (H1 & H2 & H3) p [<- | [<- | [<- | []]]].
    + now apply Hname.
    + now rewrite config_path_valid_iff_pattern.
    + now apply Hdesc.
Qed.

Lemma config_form_valid_iff_witness :
  invalidFields configFormRules mountedItems
    (model (mkConfigForm (lit "main") (lit "/etc/XrayR/config.yml") [])) = []
  ∧ invalidFields configFormRules mountedItems
      (model (mkConfigForm (lit "m") (lit "/etc/XrayR/config.yml") [])) ≠ [].
Proof.
  split.
  - apply (proj2 (config_form_valid_iff (mkConfigForm (lit "main") (lit "/etc/XrayR/config.yml") []))).
    repeat split; vm_compute; discriminate.
  - intros H.
    apply (proj1 (config_form_valid_iff (mkConfigForm (lit "m") (lit "/etc/XrayR/config.yml") []))) in H.
    destruct H as [[H _] _]. vm_compute in H. now apply H.
Defined.

Lemma submit_run (st : State) (sid : Z) (putReply : Awaited Reply) (postReply : Awaited XrayRConfig) :
  serverId st = Some sid ->
  sid ≠ 0 ->
  axios st = true ->
  configFormRef st = true ->
  invalidFields configFormRules mountedItems (model (configForm st)) = [] ->
  submitConfigForm putReply postReply st
  = match editingConfig st with
    | Some editing =>
        match putReply with
        | Fulfilled data =>
            (Returned tt,
             set_loading false
               (set_configFormVisible false
                  (set_configs (mergeUpdated editing data (configs st)) (set_loading true st))),
             [ Request PUT (XrayrConfigUrl sid (id editing)) (Some (formBody (configForm st)));
               Message success (Fixed "配置更新成功") ])
        | Rejected e =>
            (Returned tt, set_loading false (set_loading true st),
             [ Request PUT (XrayrConfigUrl sid (id editing)) (Some (formBody (configForm st)));
               ConsoleError "更新配置失败"; Message error (errorMessage "更新配置失败" e) ])
        end
    | None =>
        match postReply with
        | Fulfilled data =>
            (Returned tt,
             set_loading false
               (set_configFormVisible false
                  (set_configs (configs st ++ [ data ]) (set_loading true st))),
             [ Request POST (XrayrConfigsUrl sid) (Some (formBody (configForm st)));
               Message success (Fixed "配置创建成功") ])
        | Rejected e =>
            (Returned tt, set_loading false (set_loading true st),
             [ Request POST (XrayrConfigsUrl sid) (Some (formBody (configForm st)));
               ConsoleError "创建配置失败"; Message error (errorMessage "创建配置失败" e) ])
        end
    end.
Proof.
  intros Hsid Hnz Hax Href Hvalid.
  assert (Hguard : negb (axios st) || (sid =? 0) = false).
  { rewrite Hax. simpl. now apply Z.eqb_neq. }
  unfold submitConfigForm, withServer, mbind, M_bind, bind, read. simpl.
  rewrite Hsid, Hguard. simpl. rewrite Href. unfold validate. rewrite Hvalid. simpl.
  remember (formBody (configForm st)) as body.
  destruct (editingConfig st) as [editing |];
    [destruct putReply as [data | e] | destruct postReply as [data | e]]; reflexivity.
Qed.

(** X10. A valid submit in create mode, answered successfully, sends
    exactly one request, the POST whose body holds the name, the path and
    the description of the form and nothing else, appends the created
    config at the end of the list, leaving the entries before it as they
    are, closes the form and ends with [loading] off.  The reply kept for a
    PUT is not looked at. *)
Theorem create_config_appends (st : State) (sid : Z) (data : XrayRConfig)
    (putReply : Awaited Reply) :
  serverId st = Some sid ->
  sid ≠ 0 ->
  axios st = true ->
  configFormRef st = true ->
  invalidFields configFormRules mountedItems (model (configForm st)) = [] ->
  editingConfig st = None ->
  let out := submitConfigForm putReply (Fulfilled data) st in
  (∃ body, requests out = [ Request POST (XrayrConfigsUrl sid) (Some body) ]
           ∧ CarriesForm body (configForm st))
  ∧ configs (state_after out) = configs st ++ [ data ]
  ∧ (∀ i old, configs st !! i = Some old -> configs (state_after out) !! i = Some old)
  ∧ configs (state_after out) !! length (configs st) = Some data
  ∧ configFormVisible (state_after out) = false
  ∧ loading (state_after out) = false.
Proof.
  intros Hsid Hnz Hax Href Hvalid Hedit out. subst out.
  rewrite (submit_run st sid putReply (Fulfilled data) Hsid Hnz Hax Href Hvalid), Hedit.
  cbn. split; [eexists; split; [reflexivity | apply formBody_carries] |].
  split; [reflexivity |].
  split; [intros i old Hi; now apply lookup_app_l_Some |].
  split; [| split; reflexivity].
  rewrite lookup_app_r by lia. now rewrite Nat.sub_diag.
Qed.

Lemma create_config_appends_witness :
  let st := Samples.listState "" None "spare" "/etc/XrayR/spare.yml" in
  let data := Samples.sampleConfig 4 "spare" "/etc/XrayR/spare.yml" in
  let out := submitConfigForm (Rejected Cancelled) (Fulfilled data) st in
  (∃ body, requests out = [ Request POST (XrayrConfigsUrl 1) (Some body) ]
           ∧ body !! lit "name" = Some (JStr (lit "spare")))
  ∧ configs (state_after out) = Samples.sampleConfigs ++ [ data ].
Proof.
  intros st data out.
  destruct (create_config_appends st 1 data (Rejected Cancelled)
              eq_refl ltac:(discriminate) eq_refl eq_refl ltac:(vm_compute; reflexivity) eq_refl)
    as ((body & Hreq & Hname & _) & Hlist & _).
  split; [| exact Hlist].
  exists body. split; [exact Hreq |]. rewrite Hname. vm_compute. reflexivity.
Defined.

(** X11. When a valid submit is answered with an error, in create mode or
    in edit mode, the list, the form's content, the config under edit and
    the form's visibility are as before: the dialog stays open with what
    was typed.  One request was sent, [loading] is off, the failure is
    logged under the mode's label and an error message is shown. *)
Theorem failed_submit_keeps_dialog (st : State) (sid : Z) (e : JsError) :
  serverId st = Some sid ->
  sid ≠ 0 ->
  axios st = true ->
  configFormRef st = true ->
  invalidFields configFormRules mountedItems (model (configForm st)) = [] ->
  let out := submitConfigForm (Rejected e) (Rejected e) st in
  let what := match editingConfig st with
              | Some _ => "更新配置失败"
              | None => "创建配置失败"
              end%string in
  result_of out = Returned tt
  ∧ configs (state_after out) = configs st
  ∧ configForm (state_after out) = configForm st
  ∧ editingConfig (state_after out) = editingConfig st
  ∧ configFormVisible (state_after out) = configFormVisible st
  ∧ loading (state_after out) = false
  ∧ length (requests out) = 1%nat
  ∧ In (ConsoleError what) (events_of out)
  ∧ ∃ text, In (Message error text) (events_of out).
Proof.
  intros Hsid Hnz Hax Href Hvalid out what. subst out what.
  rewrite (submit_run st sid (Rejected e) (Rejected e) Hsid Hnz Hax Href Hvalid).
  destruct (editingConfig st) eqn:E; cbn; settle.
Qed.

Lemma failed_submit_keeps_dialog_witness :
  let st := Samples.listState "" None "spare" "/etc/XrayR/spare.yml" in
  let out := submitConfigForm (Rejected (HttpError (lit "name already used") []))
               (Rejected (HttpError (lit "name already used") [])) st in
  configs (state_after out) = Samples.sampleConfigs
  ∧ configFormVisible (state_after out) = true
  ∧ In (ConsoleError "创建配置失败") (events_of out).
Proof.
  intros st out.
  destruct (failed_submit_keeps_dialog st 1 (HttpError (lit "name already used") [])
              eq_refl ltac:(discriminate) eq_refl eq_refl ltac:(vm_compute; reflexivity))
    as (_ & Hlist & _ & _ & Hvis & _ & _ & Hlog & _).
  split; [exact Hlist |]. split; [exact Hvis | exact Hlog].
Defined.

End ConfigListMore.

(** ** XrayRConfigList: opening the form, loading the list, searching *)

Section ConfigListDialogsMore.
Import Js Ui Validator XrayRConfigList XrayRConfigListDialogs ErrorText MoreStatements MoreSamples.

Lemma invalid_submit_blocked (st : State) (putReply : Awaited Reply) (postReply : Awaited XrayRConfig) :
  invalidFields configFormRules mountedItems (model (configForm st)) ≠ [] ->
  events_of (submitConfigForm putReply postReply st) = []
  ∧ state_after (submitConfigForm putReply postReply st) = st.
Proof.
  intros Hbad.
  unfold submitConfigForm, withServer, mbind, M_bind, bind, read. simpl.
  destruct (serverId st) as [sid |]; [| split; reflexivity].
  destruct (negb (axios st) || (sid =? 0)); [split; reflexivity |].
  simpl. destruct (configFormRef st); [| split; reflexivity].
  unfold validate.
  destruct (invalidFields configFormRules mountedItems (model (configForm st)));
    [contradiction | split; reflexivity].
Qed.

(** X12. The dialog that was opened decides what a submit does.  After
    [showEditDialog c] the form holds [c]'s own name, path and description
    and [c] is under edit; once rendered, a submit sends, if these three
    validate, exactly one request, whether it is then answered or fails:
    the PUT to [c]'s record, whose body holds [c]'s name, path and
    description and nothing else; and it logs nothing if they do not
    validate.  After [showCreateDialog] no config is under edit and the
    form holds the default path and an empty name, so a submit before a
    name is typed logs no event and changes nothing. *)
Theorem dialog_decides_request (st : State) (c : XrayRConfig) (sid : Z)
    (putReply : Awaited Reply) (postReply : Awaited XrayRConfig) :
  serverId st = Some sid ->
  sid ≠ 0 ->
  axios st = true ->
  let editor := rendered (state_after (showEditDialog c st)) in
  let creator := rendered (state_after (showCreateDialog st)) in
  let own := mkConfigForm (name c) (config_path c) (description c) in
  configForm editor = own
  ∧ editingConfig editor = Some c
  ∧ configs editor = configs st
  ∧ (invalidFields configFormRules mountedItems (model own) = [] ->
       ∃ body,
         requests (submitConfigForm putReply postReply editor)
         = [ Request PUT (XrayrConfigUrl sid (id c)) (Some body) ]
         ∧ body !! lit "name" = Some (JStr (name c))
         ∧ body !! lit "config_path" = Some (JStr (config_path c))
         ∧ body !! lit "description" = Some (JStr (description c))
         ∧ ∀ k, k ≠ lit "name" -> k ≠ lit "config_path" -> k ≠ lit "description" ->
                body !! k = None)
  ∧ (invalidFields configFormRules mountedItems (model own) ≠ [] ->
       events_of (submitConfigForm putReply postReply editor) = [])
  ∧ editingConfig creator = None
  ∧ configForm creator = mkConfigForm [] (lit "/etc/XrayR/config.yml") []
  ∧ events_of (submitConfigForm putReply postReply creator) = []
  ∧ state_after (submitConfigForm putReply postReply creator) = creator.
Proof.
  intros Hsid Hnz Hax editor creator own.
  assert (Hguard : negb (axios st) || (sid =? 0) = false).
  { rewrite Hax. simpl. now apply Z.eqb_neq. }
  split; [reflexivity |]. split; [reflexivity |]. split; [reflexivity |].
  split.
  { intros Hvalid. exists (formBody own).
    split; [| exact (formBody_carries own)].
    rewrite (submit_run editor sid putReply postReply Hsid Hnz Hax eq_refl Hvalid).
    destruct putReply as [data | e]; reflexivity. }
  split.
  { intros Hbad. now apply (invalid_submit_blocked editor putReply postReply). }
  split; [reflexivity |]. split; [reflexivity |].
  apply (invalid_submit_blocked creator putReply postReply).
  change (configForm creator) with (mkConfigForm [] (lit "/etc/XrayR/config.yml") []).
  intros Hvalid. vm_compute in Hvalid. discriminate Hvalid.
Qed.

Lemma dialog_decides_request_witness :
  let c := Samples.sampleConfig 2 "backup" "/etc/XrayR/backup.yml" in
  let st := Samples.listState "" None "" "" in
  let editor := rendered (state_after (showEditDialog c st)) in
  ∃ body,
    requests (submitConfigForm (Rejected (HttpError (lit "name already used") []))
                (Rejected Cancelled) editor)
    = [ Request PUT (XrayrConfigUrl 1 (id c)) (Some body) ]
    ∧ body !! lit "config_path" = Some (JStr (config_path c)).
Proof.
  intros c st editor.
  destruct (dialog_decides_request st c 1 (Rejected (HttpError (lit "name already used") []))
              (Rejected Cancelled) eq_refl ltac:(discriminate) eq_refl)
    as (_ & _ & _ & Hput & _).
  destruct (Hput ltac:(vm_compute; reflexivity)) as (body & Hreq & _ & Hpath & _).
  exists body. split; [exact Hreq | exact Hpath].
Defined.

Lemma fetchConfigs_run (st : State) (sid : Z) (serverName : jsstring)
    (reply : Awaited (option (list Item))) :
  serverId st = Some sid ->
  sid ≠ 0 ->
  axios st = true ->
  fetchConfigs serverName reply st
  = match reply with
    | Fulfilled (Some items) =>
        (Returned tt,
         set_loading false (set_configs (fromItem <$> items) (set_configs [] (set_loading true st))),
         [ Request GET (XrayrConfigsUrl sid) None;
           Message success
             (Cat (Fixed "成功获取") (Cat (Computed serverName) (Fixed "的XrayR配置列表"))) ])
    | Fulfilled None =>
        (Returned tt, set_loading false (set_configs [] (set_loading true st)),
         [ Request GET (XrayrConfigsUrl sid) None;
           ConsoleError "获取XrayR配置列表失败:";
           Message error (Computed invalidFormat) ])
    | Rejected e =>
        (Returned tt, set_loading false (set_configs [] (set_loading true st)),
         [ Request GET (XrayrConfigsUrl sid) None;
           ConsoleError "获取XrayR配置列表失败:";
           Message error (errorText "获取XrayR配置列表失败" e) ])
    end.
Proof.
  intros Hsid Hnz Hax.
  assert (Hguard : negb (axios st) || (sid =? 0) = false).
  { rewrite Hax. simpl. now apply Z.eqb_neq. }
  unfold fetchConfigs, withServer, mbind, M_bind, bind, read. simpl.
  rewrite Hsid, Hguard.
  destruct reply as [[items |] | e]; reflexivity.
Qed.

(** X13. With axios and a server id, [fetchConfigs] never throws, sends
    the one GET and ends with [loading] off.  When the reply is an array,
    the list becomes its items in order, each with a truthy
    [parsed_config] (an empty object where the item had none).  When the
    request fails, or the reply is not an array, the list is left empty,
    whatever it held before, and an error is shown: the server's detail
    when the error carries one, and the format message for a reply that is
    not an array. *)
Theorem fetchConfigs_outcome (st : State) (sid : Z) (serverName : jsstring)
    (reply : Awaited (option (list Item))) :
  serverId st = Some sid ->
  sid ≠ 0 ->
  axios st = true ->
  let out := fetchConfigs serverName reply st in
  result_of out = Returned tt
  ∧ loading (state_after out) = false
  ∧ requests out = [ Request GET (XrayrConfigsUrl sid) None ]
  ∧ (∀ items, reply = Fulfilled (Some items) ->
       id <$> configs (state_after out) = i_id <$> items
       ∧ (∀ i item, items !! i = Some item ->
            configs (state_after out) !! i = Some (fromItem item))
       ∧ Forall (fun c => truthy (parsed_config c) = true) (configs (state_after out)))
  ∧ (reply = Fulfilled None ->
       configs (state_after out) = []
       ∧ invalidFormat = lit "响应数据格式无效"
       ∧ In (Message error (Computed invalidFormat)) (events_of out))
  ∧ (∀ e, reply = Rejected e ->
       configs (state_after out) = []
       ∧ ∃ text, In (Message error text) (events_of out)
                 ∧ ∀ c detail message, e = HttpError (c :: detail) message ->
                     text = Computed (c :: detail)).
Proof.
  intros Hsid Hnz Hax out. subst out.
  rewrite (fetchConfigs_run st sid serverName reply Hsid Hnz Hax).
  destruct reply as [[items |] | e]; cbn.
  - do 3 (split; [reflexivity |]).
    split; [| split; [discriminate | intros e E; discriminate E]].
    intros items' [= <-]. split; [| split].
    + rewrite <- list_fmap_compose. reflexivity.
    + intros i item Hi. now rewrite list_lookup_fmap, Hi.
    + apply Forall_fmap, Forall_forall. intros item _. simpl.
      unfold or_else. now destruct (truthy (i_parsed_config item)) eqn:E.
  - do 3 (split; [reflexivity |]).
    split; [intros items E; discriminate E |].
    split; [| intros e E; discriminate E].
    intros _. split; [reflexivity |]. split; [reflexivity |].
    right. right. now left.
  - do 3 (split; [reflexivity |]).
    split; [intros items E; discriminate E |].
    split; [discriminate |].
    intros e' [= <-]. split; [reflexivity |].
    eexists. split; [right; right; left; reflexivity |].
    intros c detail message ->. reflexivity.
Qed.

Lemma fetchConfigs_outcome_witness :
  let st := Samples.listState "" None "" "" in
  configs st ≠ []
  ∧ configs (state_after (fetchConfigs (lit "db1") (Rejected (HttpError [] [])) st)) = []
  ∧ id <$> configs (state_after
                      (fetchConfigs (lit "db1")
                         (Fulfilled (Some [ listItem 7 "main" "/etc/XrayR/config.yml" ])) st))
    = [ 7 ].
Proof.
  intros st.
  destruct (fetchConfigs_outcome st 1 (lit "db1") (Rejected (HttpError [] []))
              eq_refl ltac:(discriminate) eq_refl) as (_ & _ & _ & _ & _ & Hko).
  destruct (fetchConfigs_outcome st 1 (lit "db1")
              (Fulfilled (Some [ listItem 7 "main" "/etc/XrayR/config.yml" ]))
              eq_refl ltac:(discriminate) eq_refl) as (_ & _ & _ & Hok & _).
  split; [discriminate |].
  split; [exact (proj1 (Hko _ eq_refl)) | exact (proj1 (Hok _ eq_refl))].
Defined.

Lemma filter_swap {A : Type} (p q : A -> bool) (l : list A) :
  List.filter p (List.filter q l) = List.filter q (List.filter p l).
Proof.
  induction l as [| x l IH]; [reflexivity |]. simpl.
  destruct (p x) eqn:Ep, (q x) eqn:Eq; simpl; rewrite ?Ep, ?Eq, IH; reflexivity.
Qed.

Lemma handleDelete_done (st : State) (c : XrayRConfig) (sid : Z) (data : JVal) :
  serverId st = Some sid ->
  sid ≠ 0 ->
  axios st = true ->
  state_after (handleDelete c (Fulfilled tt) (Fulfilled data) st)
  = set_loading false
      (set_configs (List.filter (fun c' => negb (id c' =? id c)) (configs st))
         (set_loading true st)).
Proof.
  intros Hsid Hnz Hax.
  assert (Hguard : negb (axios st) || (sid =? 0) = false).
  { rewrite Hax. simpl. now apply Z.eqb_neq. }
  unfold handleDelete, withServer, mbind, M_bind, bind, read. simpl.
  now rewrite Hsid, Hguard.
Qed.

Section Search.
Variable toLowerCase : jsstring -> jsstring.

(** X14. Searching and deleting commute: after a confirmed, successful
    delete of [c] the search result is the earlier search result without
    the entries whose id is [c]'s, in the same order, so no entry with the
    deleted id is shown any more and no other entry disappears. *)
Theorem search_after_delete (st : State) (c : XrayRConfig) (sid : Z) (data : JVal) :
  serverId st = Some sid ->
  sid ≠ 0 ->
  axios st = true ->
  let after := state_after (handleDelete c (Fulfilled tt) (Fulfilled data) st) in
  filteredConfigs toLowerCase after
    = List.filter (fun c' => negb (id c' =? id c)) (filteredConfigs toLowerCase st)
  ∧ (∀ c', In c' (filteredConfigs toLowerCase after) -> id c' ≠ id c)
  ∧ (∀ c', In c' (filteredConfigs toLowerCase st) -> id c' ≠ id c ->
           In c' (filteredConfigs toLowerCase after)).
Proof.
  intros Hsid Hnz Hax after.
  assert (E : filteredConfigs toLowerCase after
              = List.filter (fun c' => negb (id c' =? id c)) (filteredConfigs toLowerCase st)).
  { subst after. rewrite (handleDelete_done st c sid data Hsid Hnz Hax).
    unfold filteredConfigs. cbn [searchQuery configs set_loading set_configs].
    destruct (searchQuery st); [reflexivity | apply filter_swap]. }
  rewrite E. split; [reflexivity |]. split.
  - intros c' Hin. apply filter_In in Hin as [_ H].
    apply negb_true_iff in H. now apply Z.eqb_neq.
  - intros c' Hin Hne. apply filter_In. split; [exact Hin |].
    apply negb_true_iff. now apply Z.eqb_neq.
Qed.

End Search.

Lemma search_after_delete_witness :
  let st := Samples.listState "E" None "" "" in
  let after := state_after (handleDelete (Samples.sampleConfig 3 "edge" "/etc/XrayR/edge.yml")
                              (Fulfilled tt) (Fulfilled JNull) st) in
  id <$> filteredConfigs Samples.asciiLower st = [ 3 ]
  ∧ filteredConfigs Samples.asciiLower after = [].
Proof.
  intros st after.
  destruct (search_after_delete Samples.asciiLower st
              (Samples.sampleConfig 3 "edge" "/etc/XrayR/edge.yml") 1 JNull
              eq_refl ltac:(discriminate) eq_refl) as (E & _).
  split; [reflexivity | exact E].
Defined.

End ConfigListDialogsMore.

(** ** ServerXrayRConfigDialog: refreshing and checking *)

Section ConfigDialogMore.
Import Js Ui Calls ServerXrayRConfigDialog ServerXrayRConfigDialogCheck.




(** X16. Checking the config file never touches what the dialog shows:
    the data and the path are as before and the spinner ends off.  When
    the guard passes, exactly one call leaves the component before any
    message, the check request for the current path; the success message
    appears exactly when the reply arrived with both [success] and
    [exists] truthy.  Without axios or without a server id nothing
    happens at all. *)
Theorem check_leaves_data (st : State) (reply : Awaited Obj) :
  let out := checkConfigFile reply st in
  configData (fst out) = configData st
  ∧ configPath (fst out) = configPath st
  ∧ (∀ sid, serverId st = Some sid -> sid ≠ 0 -> axios st = true ->
       loading (fst out) = false
       ∧ (∃ said, snd out
                  = CheckConfigRequest sid (put "config_path" (JStr (configPath st)) ∅)
                    :: (Event <$> said)
                  ∧ length said = (match reply with Fulfilled _ => 1 | Rejected _ => 2 end)%nat)
       ∧ ((∃ text, In (Event (Message success text)) (snd out))
          ↔ ∃ data, reply = Fulfilled data
                    ∧ truthy (get data "success") = true
                    ∧ truthy (get data "exists") = true))
  ∧ (serverId st = None ∨ serverId st = Some 0 ∨ axios st = false -> out = (st, [])).
Proof.
  intros out. subst out. unfold checkConfigFile.
  split; [| split; [| split]].
  - destruct (serverId st) as [sid |]; [| reflexivity].
    destruct (negb (axios st) || (sid =? 0)); reflexivity.
  - destruct (serverId st) as [sid |]; [| reflexivity].
    destruct (negb (axios st) || (sid =? 0)); reflexivity.
  - intros sid Hsid Hnz Hax. rewrite Hsid, Hax.
    destruct (Z.eqb_spec sid 0) as [E | _]; [contradiction |].
    cbn [negb orb fst snd set_loading loading].
    split; [reflexivity |]. split.
    + eexists. split; [reflexivity |].
      destruct reply as [data | e]; [| reflexivity].
      destruct (truthy (get data "success") && truthy (get data "exists")); reflexivity.
    + destruct reply as [data | e].
      * destruct (truthy (get data "success")) eqn:Es;
          destruct (truthy (get data "exists")) eqn:Ee; cbn [andb].
        all: split;
          [ intros [text H]; simpl in H;
            destruct H as [H | [H | []]]; try discriminate H;
            exists data; repeat split; assumption
          | intros (data' & [= <-] & H1 & H2); try congruence;
            eexists; simpl; right; left; reflexivity ].
      * split.
        -- intros [text H]. simpl in H.
           destruct H as [H | [H | [H | []]]]; discriminate H.
        -- intros (data & E & _). discriminate E.
  - intros [E | [E | E]]; rewrite E; [reflexivity | |].
    + now rewrite orb_true_r.
    + destruct (serverId st); reflexivity.
Qed.

Lemma check_leaves_data_witness :
  let found := put "success" (JBool true) (put "exists" (JBool true) ∅) in
  let shown := mkState (Some 1) true false (Some Samples.brokenConfigReply)
                 (lit "/etc/XrayR/config.yml") in
  let out := checkConfigFile (Fulfilled found) shown in
  configData (fst out) = Some Samples.brokenConfigReply
  ∧ loading (fst out) = false
  ∧ ∃ text, In (Event (Message success text)) (snd out).
Proof.
  intros found shown out.
  destruct (check_leaves_data shown (Fulfilled found)) as (Hdata & _ & Hrun & _).
  destruct (Hrun 1 eq_refl ltac:(discriminate) eq_refl) as (Hload & _ & Hmsg).
  split; [exact Hdata |]. split; [exact Hload |].
  apply Hmsg. exists found. repeat split; reflexivity.
Defined.

End ConfigDialogMore.

(** ** ServerConfigDialog: what the dialog ends up showing *)

Section ServerInfoMore.
Import Js Ui ServerConfigDialog Statements.

#[local] Arguments combinedCommand : simpl never.
#[local] Arguments parsedConfigs : simpl never.

Lemma parsedConfigs_nonempty (output : jsstring) : parsedConfigs output ≠ ∅.
Proof.
  unfold parsedConfigs.
  destruct (bool_decide (parseOutput output = ∅)) eqn:E.
  - apply map_non_empty_singleton.
  - now apply bool_decide_eq_false in E.
Qed.

Lemma serverInfo_run (st : State) (sid : Z) (reply : Awaited Obj) :
  serverId (props st) = Some sid -> sid ≠ 0 -> axios (props st) = true ->
  fetchConfigData reply st
  = (Returned tt,
     mkState (props st) false
       (Some (makeConfigData (props st)
                match reply with
                | Fulfilled data =>
                    match get data "stdout" with
                    | JStr output => parsedConfigs output
                    | _ => {[ lit "错误信息" := lit "获取详细配置失败，请检查SSH连接是否正常" ]}
                    end
                | Rejected _ => {[ lit "错误信息" := lit "获取详细配置失败，请检查SSH连接是否正常" ]}
                end)),
     Request POST (ExecuteUrl sid)
       (Some (put "command" (JStr combinedCommand) (put "timeout" (JNum (Q2Qc 60)) ∅)))
     :: match reply with
        | Fulfilled data =>
            match get data "stdout" with
            | JStr output => [ Message success (Fixed "获取服务器配置成功") ]
            | _ => [ ConsoleError "获取服务器配置失败:";
                     Message error (Fixed "获取服务器详细配置失败") ]
            end
        | Rejected _ => [ ConsoleError "获取服务器配置失败:";
                          Message error (Fixed "获取服务器详细配置失败") ]
        end).
Proof.
  intros Hsid Hnz Hax.
  unfold fetchConfigData, mbind, M_bind, bind, read. simpl.
  rewrite Hsid, Hax. simpl.
  destruct (Z.eqb_spec sid 0) as [E | _]; [contradiction |].
  destruct reply as [data | e]; cbn; [| reflexivity].
  destruct (get data "stdout"); reflexivity.
Qed.

(** X17. Once the guard passes, the server-info dialog always ends with
    data to show: the basic information is that of the props, with the two
    flags rendered as 是 or 否, and the extra entries are never empty.  A
    reply whose [stdout] is a string gives the parsed entries and a
    success message; a failed request, and a reply whose [stdout] is not a
    string, give the single error entry and an error message.  In every
    case one request is sent, the POST of the combined command with a
    timeout of 60, and the spinner ends off. *)
Theorem server_info_always_shown (st : State) (sid : Z) (reply : Awaited Obj) :
  serverId (props st) = Some sid -> sid ≠ 0 -> axios (props st) = true ->
  let out := fetchConfigData reply st in
  loading (state_after out) = false
  ∧ requests out
    = [ Request POST (ExecuteUrl sid)
          (Some (put "command" (JStr combinedCommand) (put "timeout" (JNum (Q2Qc 60)) ∅))) ]
  ∧ ∃ other,
      configData (state_after out) = Some (makeConfigData (props st) other)
      ∧ other ≠ ∅
      ∧ cd_hasPassword (makeConfigData (props st) other)
        = (if hasPassword (props st) then lit "是" else lit "否")
      ∧ cd_hasPrivateKey (makeConfigData (props st) other)
        = (if hasPrivateKey (props st) then lit "是" else lit "否")
      ∧ (∀ data output, reply = Fulfilled data -> get data "stdout" = JStr output ->
           other = parsedConfigs output
           ∧ In (Message success (Fixed "获取服务器配置成功")) (events_of out))
      ∧ ((∀ data output, reply = Fulfilled data -> get data "stdout" ≠ JStr output) ->
           size other = 1%nat
           ∧ In (Message error (Fixed "获取服务器详细配置失败")) (events_of out)).
Proof.
  intros Hsid Hnz Hax out. subst out.
  rewrite (serverInfo_run st sid reply Hsid Hnz Hax).
  unfold requests, state_after, events_of. cbn [fst snd loading configData].
  split; [reflexivity |].
  split.
  { destruct reply as [data | e]; [destruct (get data "stdout") |]; reflexivity. }
  eexists. split; [reflexivity |].
  split.
  { destruct reply as [data | e]; [destruct (get data "stdout") |];
      first [apply parsedConfigs_nonempty | apply map_non_empty_singleton]. }
  split; [reflexivity |]. split; [reflexivity |].
  split.
  - intros data output -> Hout. rewrite Hout. split; [reflexivity |]. right. now left.
  - intros Hnot.
    destruct reply as [data | e].
    + destruct (get data "stdout") eqn:Hout;
        try (split; [apply map_size_singleton | right; right; now left]).
      exfalso. now apply (Hnot data s).
    + split; [apply map_size_singleton | right; right; now left].
Qed.

Lemma server_info_always_shown_witness :
  let st := mkState MoreSamples.infoProps false None in
  let out := fetchConfigData (Rejected (HttpError [] (lit "timeout of 60000ms exceeded"))) st in
  loading (state_after out) = false
  ∧ ∃ other, configData (state_after out) = Some (makeConfigData MoreSamples.infoProps other)
             ∧ size other = 1%nat.
Proof.
  intros st out.
  destruct (server_info_always_shown st 1
              (Rejected (HttpError [] (lit "timeout of 60000ms exceeded")))
              eq_refl ltac:(discriminate) eq_refl)
    as (Hload & _ & other & Hdata & _ & _ & _ & _ & Hfail).
  split; [exact Hload |]. exists other. split; [exact Hdata |].
  apply Hfail. intros data output E. discriminate E.
Defined.

End ServerInfoMore.

(** ** Trimming and splitting *)

Section TrimFacts.
Import Js.

Lemma trimStart_head (s : jsstring) (c : N) (s' : jsstring) :
  trimStart s = c :: s' -> isTrimmable c = false.
Proof.
  induction s as [| a s IH]; simpl; [discriminate |].
  destruct (isTrimmable a) eqn:E; [exact IH |]. intros [= <- <-]. exact E.
Qed.

Lemma trimStart_keeps (c : N) (s : jsstring) :
  isTrimmable c = false -> trimStart (c :: s) = c :: s.
Proof. intros E. simpl. now rewrite E. Qed.

Lemma trimStart_idem (s : jsstring) : trimStart (trimStart s) = trimStart s.
Proof.
  destruct (trimStart s) as [| c s'] eqn:E; [reflexivity |].
  apply trimStart_keeps. exact (trimStart_head s c s' E).
Qed.

Lemma trimStart_suffix (s : jsstring) : ∃ p, s = p ++ trimStart s.
Proof.
  induction s as [| a s [p IH]]; simpl; [now exists [] |].
  destruct (isTrimmable a); [| now exists []].
  exists (a :: p). simpl. now rewrite <- IH.
Qed.

Lemma trimStart_drop (p s : jsstring) :
  Forall (fun c => isTrimmable c = true) p -> trimStart (p ++ s) = trimStart s.
Proof.
  induction 1 as [| c p Hc _ IH]; [reflexivity |]. simpl. now rewrite Hc.
Qed.

Lemma trimStart_stop (w : jsstring) (c : N) :
  isTrimmable c = false -> ∃ u, trimStart (w ++ [c]) = u ++ [c].
Proof.
  intros E. induction w as [| a w IH]; simpl.
  - exists []. now rewrite E.
  - destruct (isTrimmable a); [exact IH | now exists (a :: w)].
Qed.

(** [trim] leaves a trimmed string alone. *)
Lemma trim_idem (s : jsstring) : trim (trim s) = trim s.
Proof.
  unfold trim, trimEnd.
  set (t := trimStart s). set (r := trimStart (rev t)).
  assert (Hfix : trimStart (rev r) = rev r).
  { destruct (rev r) as [| c x] eqn:E; [reflexivity |].
    apply trimStart_keeps.
    destruct (trimStart_suffix (rev t)) as [p Hp]. fold r in Hp.
    apply (f_equal (@rev N)) in Hp. rewrite rev_involutive, rev_app_distr, E in Hp.
    apply (trimStart_head s c (x ++ rev p)). exact Hp. }
  rewrite Hfix, rev_involutive. unfold r. now rewrite trimStart_idem.
Qed.

(** A string that ends in a character [trim] keeps still ends in it. *)
Lemma trim_stop (w : jsstring) (c : N) :
  isTrimmable c = false -> ∃ u, trim (w ++ [c]) = u ++ [c].
Proof.
  intros E. unfold trim, trimEnd.
  destruct (trimStart_stop w c E) as [u ->]. exists u.
  rewrite rev_app_distr. simpl. rewrite E. simpl. now rewrite rev_involutive.
Qed.

(** What is left of a padded string: the padding goes, the core stays. *)
Lemma trim_core (p q mid : jsstring) (a c : N) :
  Forall (fun x => isTrimmable x = true) p ->
  Forall (fun x => isTrimmable x = true) q ->
  isTrimmable a = false -> isTrimmable c = false ->
  trim (p ++ (a :: mid ++ [c]) ++ q) = a :: mid ++ [c].
Proof.
  intros Hp Hq Ha Hc. unfold trim, trimEnd.
  rewrite (trimStart_drop p _ Hp).
  change ((a :: mid ++ [c]) ++ q) with (a :: (mid ++ [c]) ++ q).
  rewrite (trimStart_keeps a _ Ha).
  change (a :: (mid ++ [c]) ++ q) with (((a :: mid) ++ [c]) ++ q).
  rewrite rev_app_distr.
  rewrite trimStart_drop by (apply Forall_rev; exact Hq).
  rewrite rev_unit, (trimStart_keeps c _ Hc), <- rev_unit.
  apply rev_involutive.
Qed.

End TrimFacts.

Section SplitFacts.
Import Js.

(** Where the separator does not occur there is one piece. *)
Lemma split_go_none (sep s cur : jsstring) :
  includes sep s = false -> split_go sep 0 cur s = [cur ++ s].
Proof.
  revert cur. induction s as [| c s IH]; intros cur H.
  - simpl. now rewrite app_nil_r.
  - cbn [includes] in H. apply orb_false_elim in H as [Hstart Hrest].
    cbn [split_go]. rewrite Hstart, (IH _ Hrest). now rewrite <- app_assoc.
Qed.

(** The first line of a text whose first line feed comes after [s]. *)
Lemma split_go_line (s rest cur : jsstring) :
  10%N ∉ s ->
  split_go LF 0 cur (s ++ LF ++ rest) = (cur ++ s) :: split_go LF 0 [] rest.
Proof.
  revert cur. induction s as [| c s IH]; intros cur H.
  - simpl. now rewrite app_nil_r.
  - apply not_elem_of_cons in H as [Hc Hs].
    change ((c :: s) ++ LF ++ rest) with (c :: s ++ LF ++ rest).
    cbn [split_go startsWith LF].
    destruct (N.eqb_spec 10 c) as [E | _]; [now contradiction Hc |].
    cbn [andb]. rewrite (IH _ Hs). now rewrite <- app_assoc.
Qed.

Lemma startsWith_blank (c : N) (s t : jsstring) :
  startsWith (LF ++ LF) (c :: s ++ LF ++ t) = startsWith (LF ++ LF) (c :: s ++ LF).
Proof. destruct s; reflexivity. Qed.

(** The first section of a text whose first empty line comes after [s]. *)
Lemma split_go_section (s rest cur : jsstring) :
  includes (LF ++ LF) (s ++ LF) = false ->
  split_go (LF ++ LF) 0 cur (s ++ LF ++ LF ++ rest)
  = (cur ++ s) :: split_go (LF ++ LF) 0 [] rest.
Proof.
  revert cur. induction s as [| c s IH]; intros cur H.
  - simpl. now rewrite app_nil_r.
  - change ((c :: s) ++ LF) with (c :: s ++ LF) in H.
    cbn [includes] in H. apply orb_false_elim in H as [Hstart Hrest].
    change ((c :: s) ++ LF ++ LF ++ rest) with (c :: s ++ LF ++ LF ++ rest).
    cbn [split_go]. rewrite startsWith_blank, Hstart, (IH _ Hrest).
    now rewrite <- app_assoc.
Qed.

(** No empty line starts inside a run without line feeds. *)
Lemma includes_blank_skip (x y : jsstring) :
  10%N ∉ x -> includes (LF ++ LF) (x ++ y) = includes (LF ++ LF) y.
Proof.
  induction x as [| c x IH]; intros H; [reflexivity |].
  apply not_elem_of_cons in H as [Hc Hx].
  change ((c :: x) ++ y) with (c :: x ++ y). cbn [includes].
  rewrite (IH Hx).
  cbn [startsWith LF app].
  destruct (N.eqb_spec 10 c) as [E | _]; [now contradiction Hc | reflexivity].
Qed.

(** A line feed behind a last character other than a line feed makes no
    empty line. *)
Lemma includes_blank_end (x : jsstring) (c : N) :
  c ≠ 10%N ->
  includes (LF ++ LF) (x ++ [c]) = false ->
  includes (LF ++ LF) (x ++ [c] ++ LF) = false.
Proof.
  intros Hc. induction x as [| a x IH]; intros H.
  - clear H. cbn [includes startsWith LF app].
    destruct (N.eqb_spec 10 c) as [E | _]; [now contradiction Hc | reflexivity].
  - change ((a :: x) ++ [c]) with (a :: x ++ [c]) in H.
    cbn [includes] in H. apply orb_false_elim in H as [Hstart Hrest].
    change ((a :: x) ++ [c] ++ LF) with (a :: x ++ [c] ++ LF). cbn [includes].
    rewrite (IH Hrest), orb_false_r.
    rewrite <- Hstart. destruct x; reflexivity.
Qed.

Lemma includes_blank_line (x y : jsstring) :
  10%N ∉ x -> x ≠ [] -> includes (LF ++ LF) (LF ++ x ++ y) = includes (LF ++ LF) y.
Proof.
  intros H Hne. destruct x as [| h x]; [contradiction |].
  rewrite <- (includes_blank_skip (h :: x) y H).
  apply not_elem_of_cons in H as [Hh _].
  change (LF ++ (h :: x) ++ y) with (10%N :: (h :: x) ++ y).
  cbn [includes]. change ((h :: x) ++ y) with (h :: x ++ y).
  cbn [startsWith LF app].
  destruct (N.eqb_spec 10 h) as [E | _]; [now contradiction Hh |].
  now rewrite andb_false_r.
Qed.

Lemma includes_tail (sep s : jsstring) (c : N) :
  includes sep (c :: s) = false -> includes sep s = false.
Proof. cbn [includes]. intros H. now apply orb_false_elim in H as [_ H]. Qed.

End SplitFacts.

(** ** ServerConfigDialog: the entries of the parsed object *)

Section ParsedEntries.
Import Js Ui ServerConfigDialog Statements MoreStatements.

(** Every entry was assigned by some section, and never under
    [__proto__]. *)
Lemma entry_origin (l : list jsstring) (name value : jsstring) :
  fold_left parseSection l ∅ !! name = Some value ->
  name ≠ lit "__proto__" ∧ ∃ section, section ∈ l ∧ Contributes section name value.
Proof.
  revert value. induction l as [| s l IH] using rev_ind; intros value.
  - simpl. rewrite lookup_empty. discriminate.
  - rewrite fold_left_app. simpl.
    assert (Hold : fold_left parseSection l ∅ !! name = Some value ->
                   name ≠ lit "__proto__"
                   ∧ ∃ section, section ∈ l ++ [s] ∧ Contributes section name value).
    { intros H. destruct (IH _ H) as (Hn & section & Hin & Hc).
      split; [exact Hn |]. exists section. split; [| exact Hc].
      apply elem_of_app. now left. }
    destruct (parseSection_cases (fold_left parseSection l ∅) s)
      as [(n & v & Hc & ->) | (_ & ->)]; [| exact Hold].
    unfold assign. destruct (bool_decide (n = lit "__proto__")) eqn:Eproto; [exact Hold |].
    apply bool_decide_eq_false in Eproto.
    destruct (decide (n = name)) as [-> | Hne].
    + rewrite lookup_insert_eq. intros [= <-]. split; [exact Eproto |].
      exists s. split; [| exact Hc]. apply elem_of_app. right. apply list_elem_of_here.
    + rewrite lookup_insert_ne by exact Hne. exact Hold.
Qed.

Lemma Contributes_trimmed (section name value : jsstring) :
  Contributes section name value ->
  trim name = name ∧ trim value = value ∧ value ≠ [].
Proof.
  intros (nameLine & rest & _ & _ & -> & -> & Hne).
  split; [apply trim_idem |]. split; [apply trim_idem | exact Hne].
Qed.

(** X18. Whatever the output, every entry of the parsed object has a
    trimmed key and a trimmed, non-empty value, was contributed by one of
    the sections the output splits into, and is not filed under
    [__proto__]; the same holds for what the dialog shows, unless it shows
    the fallback entry. *)
Theorem parsed_entries_trimmed (output name value : jsstring) :
  parsedConfigs output !! name = Some value ->
  parsedConfigs output = fallbackConfigs
  ∨ (parsedConfigs output = parseOutput output
     ∧ name ≠ lit "__proto__"
     ∧ trim name = name
     ∧ trim value = value
     ∧ value ≠ []
     ∧ ∃ section, section ∈ split (LF ++ LF) output ∧ Contributes section name value).
Proof.
  unfold parsedConfigs.
  destruct (bool_decide (parseOutput output = ∅)); [now left |].
  intros H. right. split; [reflexivity |].
  destruct (entry_origin _ _ _ H) as (Hn & section & Hin & Hc).
  destruct (Contributes_trimmed _ _ _ Hc) as (H1 & H2 & H3).
  split; [exact Hn |]. split; [exact H1 |]. split; [exact H2 |]. split; [exact H3 |].
  now exists section.
Qed.

Lemma parsed_entries_trimmed_witness :
  parsedConfigs Samples.cpuOutput !! lit "CPU:" = Some (lit "Intel Xeon")
  ∧ trim (lit "Intel Xeon") = lit "Intel Xeon"
  ∧ parsedConfigs Samples.cpuOutput ≠ fallbackConfigs.
Proof.
  assert (H : parsedConfigs Samples.cpuOutput !! lit "CPU:" = Some (lit "Intel Xeon"))
    by (vm_compute; reflexivity).
  assert (Hne : parsedConfigs Samples.cpuOutput ≠ fallbackConfigs).
  { intros E. apply (f_equal (fun m => m !! lit "CPU:")) in E.
    vm_compute in E. discriminate E. }
  split; [exact H |]. split; [| exact Hne].
  destruct (parsed_entries_trimmed Samples.cpuOutput (lit "CPU:") (lit "Intel Xeon") H)
    as [E | (_ & _ & _ & Hv & _)]; [contradiction | exact Hv].
Defined.

(** *** Reading back what the combined command prints *)

Lemma isTrimmable_LF : Forall (fun c => isTrimmable c = true) LF.
Proof. repeat constructor. Qed.

Lemma isTrimmable_nil : Forall (fun c => isTrimmable c = true) [].
Proof. constructor. Qed.

Lemma markerLine_one_line (name : jsstring) : 10%N ∉ name -> 10%N ∉ markerLine name.
Proof.
  intros H. unfold markerLine.
  change (lit "###") with [35; 35; 35]%N. change (lit ":###") with [58; 35; 35; 35]%N.
  rewrite !not_elem_of_app. split; [| split; [exact H |]].
  all: rewrite !not_elem_of_cons; repeat split; try discriminate; apply not_elem_of_nil.
Qed.

(** A block, framed by line feeds, has no empty line. *)
Lemma block_no_blank (r : jsstring * jsstring) :
  Printable r -> includes (LF ++ LF) (LF ++ block r ++ LF) = false.
Proof.
  intros (Hname & Hout & body & c & Ebody & Hc).
  assert (Hc10 : c ≠ 10%N) by (intros ->; discriminate Hc).
  unfold block.
  assert (Hline : 10%N ∉ markerLine (fst r)) by now apply markerLine_one_line.
  assert (Htail : includes (LF ++ LF) (LF ++ snd r ++ LF) = false).
  { rewrite Ebody in Hout |- *.
    replace (LF ++ (body ++ [c]) ++ LF) with ((LF ++ body) ++ [c] ++ LF)
      by now rewrite <- !app_assoc.
    apply includes_blank_end; [exact Hc10 |]. now rewrite <- app_assoc. }
  rewrite <- app_assoc, includes_blank_line; [| exact Hline |].
  - rewrite <- app_assoc. exact Htail.
  - unfold markerLine. change (lit "###") with [35; 35; 35]%N. discriminate.
Qed.

(** A section that trims to a block contributes the block's entry. *)
Lemma block_contributes (r : jsstring * jsstring) (section : jsstring) :
  Printable r -> trim section = block r ->
  Contributes section (keyOf r) (trim (snd r)).
Proof.
  intros (Hname & _ & body & c & Ebody & Hc) Etrim.
  exists (markerLine (fst r)), (split LF (snd r)).
  split.
  { rewrite Etrim. unfold block, split.
    now rewrite (split_go_line _ _ [] (markerLine_one_line _ Hname)). }
  split; [reflexivity |].
  split; [unfold keyOf, markerLine; now rewrite stripMarkers_marker |].
  rewrite join_split by discriminate.
  split; [reflexivity |].
  rewrite Ebody. destruct (trim_stop body c Hc) as [u ->]. now destruct u.
Qed.

Lemma trim_block (r : jsstring * jsstring) (p q : jsstring) :
  Printable r ->
  Forall (fun x => isTrimmable x = true) p ->
  Forall (fun x => isTrimmable x = true) q ->
  trim (p ++ block r ++ q) = block r.
Proof.
  intros (_ & _ & body & c & Ebody & Hc) Hp Hq.
  unfold block, markerLine. rewrite Ebody.
  change (lit "###") with ([35]%N ++ [35; 35]%N).
  set (mid := [35; 35]%N ++ fst r ++ lit ":###" ++ LF ++ body).
  replace ((([35]%N ++ [35; 35]%N) ++ fst r ++ lit ":###") ++ LF ++ body ++ [c])
    with (35%N :: mid ++ [c]).
  - apply trim_core; [exact Hp | exact Hq | reflexivity | exact Hc].
  - unfold mid. simpl. now rewrite <- !app_assoc.
Qed.

(** The sections behind the first one: each is a block behind the line
    feed that the separator before it left over. *)
Lemma later_sections (rs : list (jsstring * jsstring)) :
  rs ≠ [] -> Forall Printable rs ->
  Forall2 (fun section r => trim section = block r)
    (split_go (LF ++ LF) 0 [] (LF ++ join (LF ++ LF) ((fun r => block r ++ LF) <$> rs))) rs.
Proof.
  induction rs as [| r rs IH]; intros Hne Hall; [contradiction |].
  apply Forall_cons in Hall as [Hr Hrs].
  pose proof (block_no_blank r Hr) as Hclean.
  destruct rs as [| r' rs].
  - simpl fmap. simpl join.
    rewrite (split_go_none _ _ _ Hclean). constructor; [| constructor].
    simpl app at 1. now apply (trim_block r LF LF Hr isTrimmable_LF isTrimmable_LF).
  - rewrite fmap_cons, join_cons by discriminate.
    replace (LF ++ (block r ++ LF) ++ (LF ++ LF) ++ join (LF ++ LF) ((fun r0 => block r0 ++ LF) <$> r' :: rs))
      with ((LF ++ block r) ++ LF ++ LF
            ++ (LF ++ join (LF ++ LF) ((fun r0 => block r0 ++ LF) <$> r' :: rs)))
      by now rewrite <- !app_assoc.
    rewrite split_go_section by now rewrite <- app_assoc.
    constructor.
    + simpl app at 1.
      rewrite <- (app_nil_r (block r)) at 1.
      now apply (trim_block r LF [] Hr isTrimmable_LF isTrimmable_nil).
    + apply IH; [discriminate | exact Hrs].
Qed.

(** The sections of what the command prints are its blocks, up to the
    white space [trim] removes. *)
Lemma emitted_sections (results : list (jsstring * jsstring)) :
  results ≠ [] -> Forall Printable results ->
  Forall2 (fun section r => trim section = block r)
    (split (LF ++ LF) (emitted results)) results.
Proof.
  destruct results as [| r rs]; intros Hne Hall; [contradiction |].
  apply Forall_cons in Hall as [Hr Hrs].
  pose proof (includes_tail _ _ _ (block_no_blank r Hr)) as Hclean.
  unfold emitted, split.
  destruct rs as [| r' rs].
  - simpl fmap. simpl join.
    rewrite (split_go_none _ _ _ Hclean). constructor; [| constructor].
    simpl app at 1.
    now apply (trim_block r [] LF Hr isTrimmable_nil isTrimmable_LF).
  - rewrite fmap_cons, join_cons by discriminate.
    replace ((block r ++ LF) ++ (LF ++ LF) ++ join (LF ++ LF) ((fun r0 => block r0 ++ LF) <$> r' :: rs))
      with (block r ++ LF ++ LF
            ++ (LF ++ join (LF ++ LF) ((fun r0 => block r0 ++ LF) <$> r' :: rs)))
      by now rewrite <- !app_assoc.
    rewrite split_go_section by exact Hclean.
    constructor.
    + simpl app at 1.
      rewrite <- (app_nil_r (block r)) at 1.
      now apply (trim_block r [] [] Hr isTrimmable_nil isTrimmable_nil).
    + apply later_sections; [discriminate | exact Hrs].
Qed.

Lemma keyOf_not_proto (r : jsstring * jsstring) : keyOf r ≠ lit "__proto__".
Proof.
  unfold keyOf. change (lit ":") with [58%N].
  destruct (trim_stop (fst r) 58%N eq_refl) as [u ->].
  change (lit "__proto__") with ([95; 95; 112; 114; 111; 116; 111; 95]%N ++ [95%N]).
  intros E. apply app_inj_tail in E as [_ E]. discriminate E.
Qed.

(** X19. Reading back the output of the combined command.  Take results
    whose names are on one line and whose outputs have no empty line, do
    not start with a line feed and end in a character [trim] keeps, and
    let the output be what the combined command prints for them: per
    result the marker line, the output and a line feed, and two line feeds
    between results.  When the keys are distinct, the parsed object has
    exactly one entry per result: under the key [<name>:], trimmed, the
    output, trimmed.  It has no other entry, and the dialog shows it as it
    is. *)
Theorem emitted_output_read_back (results : list (jsstring * jsstring)) :
  Forall Printable results ->
  NoDup (keyOf <$> results) ->
  (∀ r, r ∈ results -> parseOutput (emitted results) !! keyOf r = Some (trim (snd r)))
  ∧ (∀ name value, parseOutput (emitted results) !! name = Some value ->
       ∃ r, r ∈ results ∧ name = keyOf r ∧ value = trim (snd r))
  ∧ (results ≠ [] -> parsedConfigs (emitted results) = parseOutput (emitted results)).
Proof.
  intros Hall Hdup.
  destruct (decide (results = [])) as [-> | Hne].
  { split; [intros r Hin; now apply elem_of_nil in Hin |].
    split; [| intros H; now contradiction H].
    intros name value H. vm_compute in H. discriminate H. }
  pose proof (emitted_sections results Hne Hall) as Hsec.
  assert (Hread : ∀ r, r ∈ results ->
                    parseOutput (emitted results) !! keyOf r = Some (trim (snd r))).
  { intros r Hin. apply list_elem_of_lookup in Hin as [i Hi].
    destruct (Forall2_lookup_r _ _ _ _ _ Hsec Hi) as (section & Hs & Htrim).
    apply (fold_parseSection_lookup _ _ _ (keyOf_not_proto r)).
    exists (take i (split (LF ++ LF) (emitted results))), section,
           (drop (S i) (split (LF ++ LF) (emitted results))).
    split; [symmetry; now apply take_drop_middle |].
    split.
    { apply block_contributes; [| exact Htrim].
      exact (Forall_lookup_1 _ _ _ _ Hall Hi). }
    intros s v Hin Hcontra.
    apply list_elem_of_lookup in Hin as [j Hj]. rewrite lookup_drop in Hj.
    destruct (Forall2_lookup_l _ _ _ _ _ Hsec Hj) as (r' & Hr' & Htrim').
    assert (Hp' : Printable r') by exact (Forall_lookup_1 _ _ _ _ Hall Hr').
    destruct (Contributes_functional _ _ _ _ _ Hcontra (block_contributes r' s Hp' Htrim'))
      as [Ekey _].
    assert (Hsame : i = (S i + j)%nat).
    { apply (NoDup_lookup _ _ _ (keyOf r) Hdup).
      - now rewrite list_lookup_fmap, Hi.
      - now rewrite list_lookup_fmap, Hr', Ekey. }
    lia. }
  split; [exact Hread |].
  split.
  - intros name value H.
    destruct (entry_origin _ _ _ H) as (_ & section & Hin & Hc).
    apply list_elem_of_lookup in Hin as [i Hi].
    destruct (Forall2_lookup_l _ _ _ _ _ Hsec Hi) as (r & Hr & Htrim).
    assert (Hp : Printable r) by exact (Forall_lookup_1 _ _ _ _ Hall Hr).
    destruct (Contributes_functional _ _ _ _ _ Hc (block_contributes r section Hp Htrim))
      as [-> ->].
    exists r. split; [now apply list_elem_of_lookup_2 in Hr | split; reflexivity].
  - intros _. unfold parsedConfigs.
    destruct results as [| r rs]; [contradiction |].
    rewrite bool_decide_eq_false_2; [reflexivity |].
    intros E. specialize (Hread r (list_elem_of_here _ _)).
    rewrite E, lookup_empty in Hread. discriminate Hread.
Qed.

Lemma emitted_output_read_back_witness :
  parseOutput (emitted MoreSamples.twoResults) !! lit "Host:" = Some (lit "web1")
  ∧ parseOutput (emitted MoreSamples.twoResults) !! lit "CPU:" = Some (lit "Intel Xeon")
  ∧ parsedConfigs (emitted MoreSamples.twoResults) = parseOutput (emitted MoreSamples.twoResults).
Proof.
  assert (Hall : Forall Printable MoreSamples.twoResults).
  { repeat constructor; simpl.
    - intros H. vm_compute in H. now repeat (inversion H as [| ? ? ? H']; subst; clear H; rename H' into H).
    - now exists (lit "web"), 49%N.
    - intros H. vm_compute in H. now repeat (inversion H as [| ? ? ? H']; subst; clear H; rename H' into H).
    - now exists (lit " Intel Xeo"), 110%N. }
  assert (Hdup : NoDup (keyOf <$> MoreSamples.twoResults)).
  { assert (E : keyOf <$> MoreSamples.twoResults = [lit "Host:"; lit "CPU:"])
      by (vm_compute; reflexivity).
    rewrite E. apply NoDup_cons. split; [| apply NoDup_singleton].
    rewrite list_elem_of_singleton. discriminate. }
  destruct (emitted_output_read_back MoreSamples.twoResults Hall Hdup) as (Hread & _ & Hshown).
  split; [apply (Hread (lit "Host", lit "web1")); apply list_elem_of_here |].
  split; [apply (Hread (lit "CPU", lit " Intel Xeon")); apply list_elem_of_further, list_elem_of_here |].
  apply Hshown. discriminate.
Defined.

End ParsedEntries.

(** ** ServerManagement: testing a connection *)

Section TestConnectionMore.
Import Js Ui Calls ServerManagement ServerManagementTest MoreStatements.

(** X20. Testing a connection tells the user exactly one thing, whatever
    happens, and sends at most one request.  The request goes out exactly
    when axios is there and the row has a truthy id, and it is for that
    id; the one message is a success exactly when in addition the reply
    arrived, and an error otherwise. *)
Theorem test_connection_reports_once (row : Obj) (reply : Awaited (option Obj)) (st : State) :
  let calls := handleTestConnection row reply st in
  length (List.filter isMessage calls) = 1%nat
  ∧ (List.filter isOutgoing calls
     = if axios st && truthy (get row "id")
       then [ TestConnectionRequest (get row "id") ] else [])
  ∧ ((∃ text, In (Event (Message success text)) calls)
     ↔ axios st = true ∧ truthy (get row "id") = true ∧ ∃ data, reply = Fulfilled data)
  ∧ ((∃ text, In (Event (Message error text)) calls)
     ↔ axios st = false ∨ truthy (get row "id") = false ∨ ∃ e, reply = Rejected e).
Proof.
  intros calls. subst calls. unfold handleTestConnection.
  destruct (axios st); cbn [negb andb].
  2: { split; [reflexivity |]. split; [reflexivity |]. split; split.
       - intros [text [H | []]]. discriminate H.
       - intros (H & _). discriminate H.
       - intros _. now left.
       - intros _. eexists. left. reflexivity. }
  destruct (truthy (get row "id")); cbn [negb].
  2: { split; [reflexivity |]. split; [reflexivity |]. split; split.
       - intros [text [H | []]]. discriminate H.
       - intros (_ & H & _). discriminate H.
       - intros _. right. now left.
       - intros _. eexists. left. reflexivity. }
  destruct reply as [data | e].
  - split; [reflexivity |]. split; [reflexivity |]. split; split.
    + intros _. split; [reflexivity |]. split; [reflexivity |]. now exists data.
    + intros _. eexists. right. left. reflexivity.
    + intros [text [H | [H | []]]]; discriminate H.
    + intros [H | [H | [e H]]]; discriminate H.
  - split; [reflexivity |]. split; [reflexivity |]. split; split.
    + intros [text [H | [H | [H | []]]]]; discriminate H.
    + intros (_ & _ & data & H). discriminate H.
    + intros _. right. right. now exists e.
    + intros _. eexists. right. right. left. reflexivity.
Qed.

End TestConnectionMore.

(** ** XrayRConfigList: looking at a config's details *)

Section ConfigDetailsMore.
Import Js Ui Calls XrayRConfigList XrayRConfigListDetails MoreStatements.

(** X21. Looking at the details of a config changes nothing but the
    spinner: the list, the search, the form and the config being edited
    are as before.  When the guard passes, the spinner ends off and the one
    request sent is the GET of that config.  The details box opens exactly
    when the reply arrived with a body, with the body's name and with its
    parsed config or, when that is missing, an empty object, and then no
    message is shown.  When the request failed, and also when the reply
    has no body, so that reading its name throws, no box opens and exactly
    one message is shown, an error; for the reply without a body its text
    is the engine's.  Without axios or a server id nothing happens. *)
Theorem details_change_nothing (config : XrayRConfig) (reply : Awaited (option Obj)) (st : State) :
  let out := viewConfigDetails config reply st in
  (∃ spinner, fst out = set_loading spinner st)
  ∧ (∀ sid, serverId st = Some sid -> sid ≠ 0 -> axios st = true ->
       loading (fst out) = false
       ∧ List.filter isOutgoing (snd out)
         = [ Event (Request GET (XrayrConfigUrl sid (id config)) None) ]
       ∧ (∀ data, reply = Fulfilled (Some data) ->
            In (DetailsBox (get data "name")
                  (if truthy (get data "parsed_config")
                   then get data "parsed_config" else JObj [])) (snd out)
            ∧ List.filter isMessage (snd out) = [])
       ∧ ((∀ data, reply ≠ Fulfilled (Some data)) ->
            length (List.filter isMessage (snd out)) = 1%nat
            ∧ (∃ text, In (Event (Message error text)) (snd out))
            ∧ ∀ name parsed, ¬ In (DetailsBox name parsed) (snd out))
       ∧ (reply = Fulfilled None -> In (Event (Message error EngineMessage)) (snd out)))
  ∧ (serverId st = None ∨ serverId st = Some 0 ∨ axios st = false -> out = (st, [])).
Proof.
  intros out. subst out. unfold viewConfigDetails.
  split; [| split].
  - destruct (serverId st) as [sid |].
    + destruct (negb (axios st) || (sid =? 0)).
      * exists (loading st). now destruct st.
      * exists false. reflexivity.
    + exists (loading st). now destruct st.
  - intros sid Hsid Hnz Hax. rewrite Hsid, Hax.
    destruct (Z.eqb_spec sid 0) as [E | _]; [contradiction |].
    cbn [negb orb fst snd].
    split; [reflexivity |].
    split; [destruct reply as [[data |] | e]; reflexivity |].
    split.
    { intros data ->. split; [right; now left | reflexivity]. }
    split.
    { intros Hnot. destruct reply as [[data |] | e]; [now contradiction (Hnot data) | |].
      all: split; [reflexivity |].
      all: split; [eexists; right; right; left; reflexivity |].
      all: intros name parsed [H | [H | [H | []]]]; discriminate H. }
    intros ->. right. right. now left.
  - intros [E | [E | E]]; rewrite E; [reflexivity | |].
    + now rewrite orb_true_r.
    + destruct (serverId st); reflexivity.
Qed.

Lemma details_change_nothing_witness :
  let st := Samples.listState "" None "" "" in
  let c := Samples.sampleConfig 2 "backup" "/etc/XrayR/backup.yml" in
  let out := viewConfigDetails c (Rejected (HttpError (lit "Config not found") [])) st in
  let empty := viewConfigDetails c (Fulfilled None) st in
  configs (fst out) = Samples.sampleConfigs
  ∧ loading (fst out) = false
  ∧ List.filter isOutgoing (snd out) = [ Event (Request GET (XrayrConfigUrl 1 2) None) ]
  ∧ ∀ name parsed, ¬ In (DetailsBox name parsed) (snd empty).
Proof.
  intros st c out empty.
  destruct (details_change_nothing c (Rejected (HttpError (lit "Config not found") [])) st)
    as ([spinner Hst] & Hrun & _).
  destruct (details_change_nothing c (Fulfilled None) st) as (_ & Hnull & _).
  destruct (Hrun 1 eq_refl ltac:(discriminate) eq_refl) as (Hload & Hreq & _).
  destruct (Hnull 1 eq_refl ltac:(discriminate) eq_refl) as (_ & _ & _ & Hbox & _).
  destruct (Hbox ltac:(intros data H; discriminate H)) as (_ & _ & Hnone).
  split; [| split; [exact Hload | split; [exact Hreq | exact Hnone]]].
  fold out in Hst. rewrite Hst. reflexivity.
Defined.

End ConfigDetailsMore.

(** ** main.ts: the token and the interceptors *)

Section Interceptors.
Import Js Ui Main.

(** X22. The request interceptor touches the [Authorization] header
    only: it sets it to [Bearer <token>] when a non-empty token is stored
    and leaves the headers alone otherwise.  The response interceptor
    passes every error on as it is; it removes the stored token exactly on
    status 401, so that the next request goes out with its headers
    untouched, and keeps it on every other failure. *)
Theorem unauthorized_drops_token (failure : Failure) (token : option jsstring) (headers : Headers) :
  let after := onResponseError failure token in
  snd after = failure
  ∧ (status failure = Some 401 ->
       fst after = None ∧ onRequest (fst after) headers = headers)
  ∧ (status failure ≠ Some 401 -> fst after = token)
  ∧ (∀ k, k ≠ lit "Authorization" -> onRequest token headers !! k = headers !! k)
  ∧ (∀ t, token = Some t -> t ≠ [] ->
       onRequest token headers !! lit "Authorization" = Some (lit "Bearer " ++ t))
  ∧ (token = None ∨ token = Some [] -> onRequest token headers = headers).
Proof.
  intros after. subst after. unfold onResponseError. cbn [fst snd].
  split; [reflexivity |].
  split.
  { intros E. rewrite bool_decide_eq_true_2 by exact E. split; reflexivity. }
  split.
  { intros E. now rewrite bool_decide_eq_false_2 by exact E. }
  split.
  { intros k Hk. unfold onRequest. destruct token as [[| c t] |]; try reflexivity.
    now rewrite lookup_insert_ne. }
  split.
  { intros t -> Ht. unfold onRequest. destruct t as [| c t]; [contradiction |].
    apply lookup_insert_eq. }
  intros [-> | ->]; reflexivity.
Qed.

Lemma unauthorized_drops_token_witness :
  let expired := mkFailure (Some 401) (HttpError (lit "Not authenticated") []) in
  let headers : Headers := {[ lit "Accept" := lit "application/json" ]} in
  onRequest (Some (lit "abc")) headers !! lit "Authorization" = Some (lit "Bearer abc")
  ∧ onRequest (fst (onResponseError expired (Some (lit "abc")))) headers = headers.
Proof.
  intros expired headers.
  destruct (unauthorized_drops_token expired (Some (lit "abc")) headers)
    as (_ & Hdrop & _ & _ & Hset & _).
  split; [exact (Hset (lit "abc") eq_refl ltac:(discriminate)) |].
  exact (proj2 (Hdrop eq_refl)).
Defined.

End Interceptors.
